(** * Bikeshare.py: loading, filtering and statistics of bikeshare trips

    A shallow embedding of [src/Bikeshare.py].  The script works on pandas
    data frames; the embedding keeps the frame as the script sees it: an
    ordered list of column names and an ordered list of rows, each row a
    finite map from column name to cell.  Frames are Python objects that are
    shared between the functions of the script and updated in place
    ([df[c] = ...]), so they live in a heap and the functions receive
    references.  Printing, reading the terminal and raising are effects of a
    small state-and-exception monad. *)

From Stdlib Require Import ZArith String Ascii List Lia.
From stdpp Require Import base option list gmap strings.

Local Open Scope Z_scope.
Local Open Scope string_scope.
Local Open Scope list_scope.

(** ** Cells, series, frames *)

(** A cell of a frame.  Numbers are held exactly, as integers (rounding of
    floats is outside this model); a pandas [Timestamp] is its [int64]
    value, the nanoseconds since 1970-01-01; [VNaN] is the missing value
    ([NaN], [NaT]). *)
Inductive value :=
| VStr (s : string)
| VInt (z : Z)
| VTime (ns : Z)
| VNaN.

#[global] Instance value_eq_dec : EqDecision value.
Proof. solve_decision. Defined.

(** The result of a mean: the quotient of [num] by [den], held as its
    two operands, or [NaN].  pandas divides the sum by the count in
    [float64]; the operands are those of pandas when the sum is one that
    [float64] holds exactly ([exact_sum]). *)
Inductive pyfloat :=
| FNaN
| FQuot (num : Z) (den : positive).

Abbreviation Series := (list value).
Abbreviation Row := (gmap string value).

Record DataFrame := {
  columns : list string;
  rows : list Row
}.

(** The exceptions of the script.  [NoDataError] and [InvalidFilterError]
    are the names of the specification's taxonomy; [OtherError] is any
    other exception that [pd.read_csv] raises, by the name of its class. *)
Inductive exn :=
| KeyError (key : value)
| ValueError
| TypeError
| AttributeError
| EOFError
| FileNotFoundError
| EmptyDataError
| OtherError (class_name : string)
| ReferenceError
| NoDataError
| InvalidFilterError.

#[global] Instance exn_eq_dec : EqDecision exn.
Proof. solve_decision. Defined.

(** What [print] writes, one constructor per [print] of the script. *)
Inductive line :=
| Text (s : string)
| MostCommon (stat_name : string) (most_common : value)
| TotalTravelTime (total_duration : Z)
| MeanTravelTime (mean_duration : pyfloat)
| Counts (title : string) (counts : list (value * nat))
| YearOfBirth (title : string) (year : Z)
| Elapsed
| Frame (d : DataFrame).

(** ** The state-and-exception monad *)

Definition loc := nat.

Record state := {
  heap : list DataFrame;
  stdin : list string;
  stdout : list line
}.

Inductive outcome (A : Type) :=
| Return (a : A)
| Raise (e : exn)
| Diverge.
Arguments Return {A} a.
Arguments Raise {A} e.
Arguments Diverge {A}.

Definition M (A : Type) : Type := state -> outcome A * state.

Definition ret {A} (a : A) : M A := fun st => (Return a, st).

Definition raise {A} (e : exn) : M A := fun st => (Raise e, st).

Definition bind {A B} (c : M A) (k : A -> M B) : M B :=
  fun st =>
    match c st with
    | (Return a, st') => k a st'
    | (Raise e, st') => (Raise e, st')
    | (Diverge, st') => (Diverge, st')
    end.

Notation "x <- c ;; k" := (bind c (fun x => k))
  (at level 100, c at next level, right associativity).
Notation "c ;;; k" := (bind c (fun _ => k))
  (at level 100, right associativity).

Definition lift {A} (e : exn) (o : option A) : M A :=
  match o with
  | Some a => ret a
  | None => raise e
  end.

Definition lift_outcome {A} (o : outcome A) : M A := fun st => (o, st).

(** The result of a call that returns or raises. *)
Definition lift_result {A} (r : exn + A) : M A :=
  match r with
  | inl e => raise e
  | inr a => ret a
  end.

Definition print (l : line) : M unit :=
  fun st => (Return tt,
             {| heap := heap st; stdin := stdin st; stdout := stdout st ++ [l] |}).

(** [new_frame d]: a frame object is created; its reference is fresh. *)
Definition new_frame (d : DataFrame) : M loc :=
  fun st => (Return (length (heap st)),
             {| heap := heap st ++ [d]; stdin := stdin st; stdout := stdout st |}).

(** Reading through a reference.  Python has no dangling references; the
    model raises [ReferenceError] for a reference outside the heap. *)
Definition frame (l : loc) : M DataFrame :=
  fun st => match heap st !! l with
            | Some d => (Return d, st)
            | None => (Raise ReferenceError, st)
            end.

(** In-place update of the frame behind a reference. *)
Definition set_frame (l : loc) (d : DataFrame) : M unit :=
  fun st => match heap st !! l with
            | Some _ => (Return tt,
                         {| heap := <[l := d]> (heap st);
                            stdin := stdin st; stdout := stdout st |})
            | None => (Raise ReferenceError, st)
            end.

(** ** Strings: [str.lower], [str.strip] and the order of [str]

    The model is on ASCII text (the text of the script and of its data):
    on a string of ASCII characters [lower] and [strip] are [str.lower]
    and [str.strip].  Beyond ASCII, Python also strips blanks such as
    U+00A0 and lowers letters such as U+212A; the theorems that say which
    lines are accepted are stated for lines of ASCII text
    ([ascii_text]). *)

Definition lower_ascii (c : ascii) : ascii :=
  let n := N_of_ascii c in
  if ((65 <=? n) && (n <=? 90))%N then ascii_of_N (n + 32) else c.

Fixpoint lower (s : string) : string :=
  match s with
  | EmptyString => EmptyString
  | String c s' => String (lower_ascii c) (lower s')
  end.

Definition is_space (c : ascii) : bool :=
  let n := N_of_ascii c in
  (((9 <=? n) && (n <=? 13)) || ((28 <=? n) && (n <=? 32)))%N.

Fixpoint lstrip (s : string) : string :=
  match s with
  | EmptyString => EmptyString
  | String c s' => if is_space c then lstrip s' else s
  end.

Fixpoint rstrip (s : string) : string :=
  match s with
  | EmptyString => EmptyString
  | String c s' =>
      match rstrip s' with
      | EmptyString => if is_space c then EmptyString else String c EmptyString
      | t => String c t
      end
  end.

Definition strip (s : string) : string := rstrip (lstrip s).

(** ** Series operations (pandas) *)

Definition notna (v : value) : Prop := v <> VNaN.

#[global] Instance notna_dec v : Decision (notna v).
Proof. unfold notna. apply _. Defined.

Definition dropna (s : Series) : Series := filter notna s.

Definition occurrences (v : value) (s : Series) : nat :=
  length (filter (fun w => w = v) s).

(** The distinct values of a series, in order of first appearance. *)
Fixpoint unique (s : Series) : Series :=
  match s with
  | [] => []
  | v :: s' => v :: filter (fun w => w <> v) (unique s')
  end.

(** pandas' hash-table count: each distinct non-missing value with its
    number of occurrences, keys in order of first appearance. *)
Definition value_count (s : Series) : list (value * nat) :=
  let s' := dropna s in
  (fun v => (v, occurrences v s')) <$> unique s'.

(** The values of maximal count, still in order of first appearance. *)
Definition htable_mode (s : Series) : Series :=
  let kc := value_count s in
  let max_count := max_list (snd <$> kc) in
  fst <$> filter (fun p => p.2 = max_count) kc.

(** The order [np.sort] uses: numbers by value, strings by code point,
    timestamps by time.  Values of different types do not compare. *)
Definition same_type (v w : value) : bool :=
  match v, w with
  | VStr _, VStr _ | VInt _, VInt _ | VTime _, VTime _ | VNaN, VNaN => true
  | _, _ => false
  end.

Definition value_leb (v w : value) : bool :=
  match v, w with
  | VStr a, VStr b => String.leb a b
  | VInt a, VInt b => Z.leb a b
  | VTime a, VTime b => Z.leb a b
  | _, VNaN => true
  | _, _ => false
  end.

Fixpoint insert_sorted (v : value) (l : Series) : Series :=
  match l with
  | [] => [v]
  | w :: l' => if value_leb v w then v :: l else w :: insert_sorted v l'
  end.

Fixpoint sort_values (l : Series) : Series :=
  match l with
  | [] => []
  | v :: l' => insert_sorted v (sort_values l')
  end.

Definition homogeneous (l : Series) : bool :=
  match l with
  | [] => true
  | v :: l' => forallb (same_type v) l'
  end.

(** [np.sort]: [None] stands for the [TypeError] of comparing values of
    different types. *)
Definition np_sort (l : Series) : option Series :=
  if homogeneous l then Some (sort_values l) else None.

(** [Series.mode()]: the most frequent non-missing values, sorted; when they
    cannot be sorted pandas warns and leaves them as the hash table gave
    them.  The result carries a fresh index 0, 1, ... *)
Definition Series_mode (s : Series) : Series :=
  let modes := htable_mode s in
  match np_sort modes with
  | Some sorted => sorted
  | None => modes
  end.

(** [s[k]] on a series with the default index 0 .. len-1: lookup by label. *)
Definition Series_getitem (s : Series) (k : Z) : outcome value :=
  if Z.leb 0 k && Z.ltb k (Z.of_nat (length s))
  then match s !! Z.to_nat k with
       | Some v => Return v
       | None => Raise (KeyError (VInt k))
       end
  else Raise (KeyError (VInt k)).

(** Numeric reductions skip missing values.  The columns they are applied
    to ([Trip Duration], [Birth Year]) are numeric; on a cell that is not a
    number the model raises [TypeError].  The model adds exactly; pandas
    adds in [int64] (a column without missing cells) or in [float64],
    which is exact, in any order, when the magnitudes of the numbers
    total at most 2^53: the theorems about sums of numbers are stated for
    such columns ([exact_sum]). *)
Fixpoint numbers (s : Series) : option (list Z) :=
  match s with
  | [] => Some []
  | VInt z :: s' => cons z <$> numbers s'
  | VNaN :: s' => numbers s'
  | _ :: _ => None
  end.

Definition sum_list (l : list Z) : Z := foldr Z.add 0 l.

Definition Series_sum (s : Series) : outcome Z :=
  match numbers s with
  | Some l => Return (sum_list l)
  | None => Raise TypeError
  end.

Definition Series_mean (s : Series) : outcome pyfloat :=
  match numbers s with
  | Some l =>
      match Z.of_nat (length l) with
      | Zpos n => Return (FQuot (sum_list l) n)
      | _ => Return FNaN
      end
  | None => Raise TypeError
  end.

Definition Series_min (s : Series) : outcome value :=
  match numbers s with
  | Some [] => Return VNaN
  | Some (z :: l) => Return (VInt (foldr Z.min z l))
  | None => Raise TypeError
  end.

Definition Series_max (s : Series) : outcome value :=
  match numbers s with
  | Some [] => Return VNaN
  | Some (z :: l) => Return (VInt (foldr Z.max z l))
  | None => Raise TypeError
  end.

(** [int(x)] of a number read from a numeric column. *)
Definition py_int (v : value) : outcome Z :=
  match v with
  | VInt z => Return z
  | VNaN => Raise ValueError
  | _ => Raise TypeError
  end.

(** [Series.value_counts()]: the counts of [value_count], most frequent
    first; values of equal count stay in order of first appearance. *)
Fixpoint insert_count (p : value * nat) (l : list (value * nat)) : list (value * nat) :=
  match l with
  | [] => [p]
  | q :: l' => if (q.2 <=? p.2)%nat then p :: l else q :: insert_count p l'
  end.

Definition Series_value_counts (s : Series) : list (value * nat) :=
  foldr insert_count [] (value_count s).

(** [s == x], element by element. *)
Definition Series_eq (s : Series) (x : string) : list bool :=
  (fun v => bool_decide (v = VStr x)) <$> s.

(** [s + x] and [s + t] on text: concatenation; a missing operand gives a
    missing result; a number or a timestamp is a [TypeError]. *)
Definition value_add (v w : value) : option value :=
  match v, w with
  | VStr a, VStr b => Some (VStr (a ++ b))
  | VNaN, (VStr _ | VNaN) | VStr _, VNaN => Some VNaN
  | _, _ => None
  end.

Definition Series_add_scalar (s : Series) (x : string) : outcome Series :=
  match mapM (fun v => value_add v (VStr x)) s with
  | Some r => Return r
  | None => Raise TypeError
  end.

Definition Series_add (s t : Series) : outcome Series :=
  if decide (length s = length t)
  then match mapM (fun p => value_add p.1 p.2) (zip s t) with
       | Some r => Return r
       | None => Raise TypeError
       end
  else Raise ValueError.

(** [s.str.lower()]: cells that are not text become missing. *)
Definition str_lower (s : Series) : Series :=
  (fun v => match v with VStr a => VStr (lower a) | _ => VNaN end) <$> s.

(** ** Calendar fields of a timestamp ([Series.dt]) *)

Definition NS_PER_HOUR : Z := 3600000000000.
Definition NS_PER_DAY : Z := 86400000000000.

Definition hour_of (ns : Z) : Z := (ns / NS_PER_HOUR) mod 24.

Definition days_since_epoch (ns : Z) : Z := ns / NS_PER_DAY.

(** Monday is 0; 1970-01-01 was a Thursday. *)
Definition weekday_of (ns : Z) : Z := (days_since_epoch ns + 3) mod 7.

(** Month (1 .. 12) of the proleptic Gregorian date that lies [days] days
    after 1970-01-01: the day count is shifted to the era of 400 years that
    starts on a 1st of March, then reduced to the year and the day of that
    year. *)
Definition month_of_day_of_era (doe : Z) : Z :=
  let yoe := (doe - doe / 1460 + doe / 36524 - doe / 146096) / 365 in
  let doy := doe - (365 * yoe + yoe / 4 - yoe / 100) in
  let mp := (5 * doy + 2) / 153 in
  if Z.ltb mp 10 then mp + 3 else mp - 9.

Definition month_of_days (days : Z) : Z :=
  month_of_day_of_era ((days + 719468) mod 146097).

Definition month_of (ns : Z) : Z := month_of_days (days_since_epoch ns).

Definition MONTHS : list string :=
  ["January"; "February"; "March"; "April"; "May"; "June"; "July";
   "August"; "September"; "October"; "November"; "December"].

Definition DAYS : list string :=
  ["Monday"; "Tuesday"; "Wednesday"; "Thursday"; "Friday"; "Saturday";
   "Sunday"].

Definition month_name_of (ns : Z) : string :=
  nth (Z.to_nat (month_of ns - 1)) MONTHS "".

Definition day_name_of (ns : Z) : string :=
  nth (Z.to_nat (weekday_of ns)) DAYS "".

(** The [.dt] accessor exists on a series of timestamps only; a missing
    timestamp has missing fields. *)
Definition dt_field (f : Z -> value) (s : Series) : outcome Series :=
  match mapM (fun v => match v with
                       | VTime ns => Some (f ns)
                       | VNaN => Some VNaN
                       | _ => None
                       end) s with
  | Some r => Return r
  | None => Raise AttributeError
  end.

Definition dt_month_name : Series -> outcome Series :=
  dt_field (fun ns => VStr (month_name_of ns)).

Definition dt_day_name : Series -> outcome Series :=
  dt_field (fun ns => VStr (day_name_of ns)).

Definition dt_hour : Series -> outcome Series :=
  dt_field (fun ns => VInt (hour_of ns)).

(** ** Frame operations (pandas) *)

(** The cell of row [r] in column [c]. *)
Definition cell (c : string) (r : Row) : value := default VNaN (r !! c).

(** [d[c]] *)
Definition df_getitem (d : DataFrame) (c : string) : option Series :=
  if decide (c ∈ columns d) then Some (cell c <$> rows d) else None.

(** [d[c] = s]: column [c] is replaced, or appended when it is new. *)
Definition put_column (d : DataFrame) (c : string) (s : Series) : DataFrame :=
  {| columns := if decide (c ∈ columns d) then columns d else columns d ++ [c];
     rows := zip_with (fun r v => <[c := v]> r) (rows d) s |}.

Definition df_setitem (d : DataFrame) (c : string) (s : Series) : option DataFrame :=
  if decide (length s = length (rows d)) then Some (put_column d c s) else None.

(** The elements of [l] whose entry in [mask] is [True]. *)
Fixpoint select {A} (l : list A) (mask : list bool) : list A :=
  match l, mask with
  | x :: l', b :: mask' => if b then x :: select l' mask' else select l' mask'
  | _, _ => []
  end.

(** [d[mask]]: a new frame with the selected rows. *)
Definition df_mask (d : DataFrame) (mask : list bool) : option DataFrame :=
  if decide (length mask = length (rows d))
  then Some {| columns := columns d; rows := select (rows d) mask |}
  else None.

(** A bound of a Python slice over [n] elements. *)
Definition slice_bound (n i : Z) : Z :=
  if Z.ltb i 0 then Z.max 0 (i + n) else Z.min i n.

(** [d.iloc[start:stop]]: rows by position. *)
Definition df_iloc (d : DataFrame) (start stop : Z) : DataFrame :=
  let n := Z.of_nat (length (rows d)) in
  let a := slice_bound n start in
  let b := slice_bound n stop in
  {| columns := columns d;
     rows := take (Z.to_nat (b - a)) (drop (Z.to_nat a) (rows d)) |}.

Definition getitem (df : loc) (c : string) : M Series :=
  d <- frame df ;;
  lift (KeyError (VStr c)) (df_getitem d c).

Definition setitem (df : loc) (c : string) (s : Series) : M unit :=
  d <- frame df ;;
  d' <- lift ValueError (df_setitem d c s) ;;
  set_frame df d'.

Definition getitem_mask (df : loc) (mask : list bool) : M loc :=
  d <- frame df ;;
  d' <- lift ValueError (df_mask d mask) ;;
  new_frame d'.

(** ** The script *)

(** Dictionary containing file paths for the data of each city.  (In the
    prompts of [get_filters] below, the double quotes that the script puts
    around the word all are written as single quotes.) *)
Definition CITY_DATA : gmap string string :=
  list_to_map [("chicago", "/mnt/data/chicago.csv");
               ("new york city", "/mnt/data/new_york_city.csv");
               ("washington", "/mnt/data/washington.csv")].

Definition keys (m : gmap string string) : list string := (map_to_list m).*1.

(** The loop of [get_user_input] over the lines still to be read: each
    round writes the prompt and reads a line; [input] raises [EOFError]
    when there is none. *)
Fixpoint get_user_input_loop (prompt : string) (valid_inputs : list string)
    (inp : list string) (out : list line) : outcome string * list string * list line :=
  match inp with
  | [] => (Raise EOFError, [], out ++ [Text prompt])
  | x :: inp' =>
      let response := lower (strip x) in
      if decide (response ∈ valid_inputs)
      then (Return response, inp', out ++ [Text prompt])
      else get_user_input_loop prompt valid_inputs inp'
             (out ++ [Text prompt; Text "Invalid input. Please try again."])
  end.

Definition get_user_input (prompt : string) (valid_inputs : list string) : M string :=
  fun st =>
    let '(r, inp, out) :=
      get_user_input_loop prompt valid_inputs (stdin st) (stdout st) in
    (r, {| heap := heap st; stdin := inp; stdout := out |}).

Definition MONTH_INPUTS : list string :=
  ["january"; "february"; "march"; "april"; "may"; "june"; "all"].

Definition DAY_INPUTS : list string :=
  ["monday"; "tuesday"; "wednesday"; "thursday"; "friday"; "saturday";
   "sunday"; "all"].

Definition YES_NO : list string := ["yes"; "no"].

Definition get_filters : M (string * string * string) :=
  print (Text "Hello! Let's explore some US bikeshare data!") ;;;
  city <- get_user_input
            "Would you like to see data for Chicago, New York City, or Washington? "
            (keys CITY_DATA) ;;
  month <- get_user_input
             "Which month? January, February, March, April, May, June, or 'all'? "
             MONTH_INPUTS ;;
  day <- get_user_input
           "Which day? Monday, Tuesday, Wednesday, Thursday, Friday, Saturday, Sunday, or 'all'? "
           DAY_INPUTS ;;
  ret (city, month, day).

Definition RULE : string := "----------------------------------------".

Section Script.

(** What lies outside the script: [pd.read_csv], which presents the file
    at a path as a frame or raises ([FileNotFoundError] when there is no
    such file, [EmptyDataError] when the file is empty, and so on), and
    the parser of [pd.to_datetime] for text ([None]: not a date). *)
Variable read_csv : string -> exn + DataFrame.
Variable parse_datetime : string -> option Z.

(** [pd.to_datetime(s)]: text is parsed, a number is taken as nanoseconds
    since the epoch, a missing value stays missing. *)
Definition to_datetime (s : Series) : outcome Series :=
  match mapM (fun v => match v with
                       | VStr a => VTime <$> parse_datetime a
                       | VInt z => Some (VTime z)
                       | VTime ns => Some (VTime ns)
                       | VNaN => Some VNaN
                       end) s with
  | Some r => Return r
  | None => Raise ValueError
  end.

(** Lines 59-62 of [load_data]: the start time is parsed and the calendar
    columns are added to the frame just read. *)
Definition derive_columns (df : loc) : M unit :=
  s <- getitem df "Start Time" ;;
  t <- lift_outcome (to_datetime s) ;;
  setitem df "Start Time" t ;;;
  s <- getitem df "Start Time" ;;
  m <- lift_outcome (dt_month_name s) ;;
  setitem df "month" (str_lower m) ;;;
  s <- getitem df "Start Time" ;;
  d <- lift_outcome (dt_day_name s) ;;
  setitem df "day_of_week" (str_lower d) ;;;
  s <- getitem df "Start Time" ;;
  h <- lift_outcome (dt_hour s) ;;
  setitem df "hour" h.

(** Lines 64-69 of [load_data]: the two filters.  Each [df = df[...]]
    binds the local name to a new frame. *)
Definition filter_month_day (df : loc) (month day : string) : M loc :=
  df <- (if decide (month <> "all")
         then s <- getitem df "month" ;;
              getitem_mask df (Series_eq s month)
         else ret df) ;;
  df <- (if decide (day <> "all")
         then s <- getitem df "day_of_week" ;;
              getitem_mask df (Series_eq s day)
         else ret df) ;;
  ret df.

Definition load_data (city month day : string) : M loc :=
  path <- lift (KeyError (VStr city)) (CITY_DATA !! city) ;;
  d <- lift_result (read_csv path) ;;
  df <- new_frame d ;;
  derive_columns df ;;;
  filter_month_day df month day.

End Script.

Definition display_statistics (df : loc) (column stat_name : string) : M unit :=
  s <- getitem df column ;;
  most_common <- lift_outcome (Series_getitem (Series_mode s) 0) ;;
  print (MostCommon stat_name most_common).

Definition time_stats (df : loc) : M unit :=
  print (Text "Calculating The Most Frequent Times of Travel...") ;;;
  display_statistics df "month" "Month" ;;;
  display_statistics df "day_of_week" "Day of Week" ;;;
  display_statistics df "hour" "Start Hour" ;;;
  print Elapsed ;;;
  print (Text RULE).

Definition station_stats (df : loc) : M unit :=
  print (Text "Calculating The Most Popular Stations and Trip...") ;;;
  display_statistics df "Start Station" "Start Station" ;;;
  display_statistics df "End Station" "End Station" ;;;
  s <- getitem df "Start Station" ;;
  s_to <- lift_outcome (Series_add_scalar s " to ") ;;
  e <- getitem df "End Station" ;;
  combination <- lift_outcome (Series_add s_to e) ;;
  setitem df "Start-End Combination" combination ;;;
  display_statistics df "Start-End Combination" "Trip" ;;;
  print Elapsed ;;;
  print (Text RULE).

Definition trip_duration_stats (df : loc) : M unit :=
  print (Text "Calculating Trip Duration...") ;;;
  s <- getitem df "Trip Duration" ;;
  total_duration <- lift_outcome (Series_sum s) ;;
  print (TotalTravelTime total_duration) ;;;
  s <- getitem df "Trip Duration" ;;
  mean_duration <- lift_outcome (Series_mean s) ;;
  print (MeanTravelTime mean_duration) ;;;
  print Elapsed ;;;
  print (Text RULE).

Definition when (b : bool) (c : M unit) : M unit := if b then c else ret tt.

Definition user_stats (df : loc) : M unit :=
  print (Text "Calculating User Stats...") ;;;
  s <- getitem df "User Type" ;;
  print (Counts "User Types:" (Series_value_counts s)) ;;;
  d <- frame df ;;
  when (bool_decide ("Gender" ∈ columns d))
    (s <- getitem df "Gender" ;;
     print (Counts "Gender Distribution:" (Series_value_counts s))) ;;;
  d <- frame df ;;
  when (bool_decide ("Birth Year" ∈ columns d))
    (s <- getitem df "Birth Year" ;;
     lo <- lift_outcome (Series_min s) ;;
     y <- lift_outcome (py_int lo) ;;
     print (YearOfBirth "Earliest Year of Birth:" y) ;;;
     s <- getitem df "Birth Year" ;;
     hi <- lift_outcome (Series_max s) ;;
     y <- lift_outcome (py_int hi) ;;
     print (YearOfBirth "Most Recent Year of Birth:" y) ;;;
     s <- getitem df "Birth Year" ;;
     mo <- lift_outcome (Series_getitem (Series_mode s) 0) ;;
     y <- lift_outcome (py_int mo) ;;
     print (YearOfBirth "Most Common Year of Birth:" y)) ;;;
  print Elapsed ;;;
  print (Text RULE).

Definition RAW_DATA_PROMPT : string :=
  "Would you like to see 5 lines of raw data? Enter yes or no: ".

(** [print(df.iloc[row_index:row_index + batch_size])] *)
Definition page (d : DataFrame) (row_index batch_size : Z) : DataFrame :=
  df_iloc d row_index (row_index + batch_size).

(** The [while] loop of [display_raw_data].  Every round reads at least one
    line, so the lines still to be read bound the number of rounds;
    [fuel] counts the rounds left and [Diverge] marks its exhaustion. *)
Fixpoint display_raw_data_loop (fuel : nat) (df : loc) (row_index batch_size : Z)
    : M unit :=
  match fuel with
  | O => lift_outcome Diverge
  | S fuel' =>
      answer <- get_user_input RAW_DATA_PROMPT YES_NO ;;
      if decide (answer = "yes")
      then d <- frame df ;;
           print (Frame (page d row_index batch_size)) ;;;
           display_raw_data_loop fuel' df (row_index + batch_size) batch_size
      else ret tt
  end.

Definition display_raw_data (df : loc) (batch_size : Z) : M unit :=
  fun st => display_raw_data_loop (S (length (stdin st))) df 0 batch_size st.

Section Main.

Variable read_csv : string -> exn + DataFrame.
Variable parse_datetime : string -> option Z.

(** The [while True] of [main]: one round per analysis.  Every round
    reads lines, so [fuel] is bounded as in [display_raw_data_loop]. *)
Fixpoint main_loop (fuel : nat) : M unit :=
  match fuel with
  | O => lift_outcome Diverge
  | S fuel' =>
      filters <- get_filters ;;
      let '(city, month, day) := filters in
      df <- load_data read_csv parse_datetime city month day ;;
      time_stats df ;;;
      station_stats df ;;;
      trip_duration_stats df ;;;
      user_stats df ;;;
      display_raw_data df 5 ;;;
      restart <- get_user_input "Would you like to restart? Enter yes or no: "
                   YES_NO ;;
      if decide (restart = "no") then ret tt else main_loop fuel'
  end.

Definition main : M unit :=
  fun st => main_loop (S (length (stdin st))) st.

End Main.

(** ** Vocabulary of the statements *)

Definition with_heap (st : state) (h : list DataFrame) : state :=
  {| heap := h; stdin := stdin st; stdout := stdout st |}.

Definition with_stdout (st : state) (out : list line) : state :=
  {| heap := heap st; stdin := stdin st; stdout := out |}.

(** The rows the two filters keep. *)
Definition kept (month day : string) (r : Row) : Prop :=
  (month = "all" \/ cell "month" r = VStr month) /\
  (day = "all" \/ cell "day_of_week" r = VStr day).

#[global] Instance kept_dec month day r : Decision (kept month day r).
Proof. unfold kept. apply _. Defined.

(** The filter values the specification recognises. *)
Definition MONTH_NAMES : list string :=
  ["january"; "february"; "march"; "april"; "may"; "june"; "july";
   "august"; "september"; "october"; "november"; "december"].

Definition DAY_NAMES : list string :=
  ["monday"; "tuesday"; "wednesday"; "thursday"; "friday"; "saturday";
   "sunday"].

(** ** A small data set

    Three trips in the layout of the city files, and a parser for the
    timestamps as the files write them, [YYYY-MM-DD HH:MM:SS]. *)

Definition digit (c : ascii) : option Z :=
  let n := N_of_ascii c in
  if ((48 <=? n) && (n <=? 57))%N then Some (Z.of_N n - 48) else None.

Definition two_digits (a b : ascii) : option Z :=
  x ← digit a; y ← digit b; Some (10 * x + y).

Definition is_leap (y : Z) : bool :=
  (Z.eqb (y mod 4) 0 && negb (Z.eqb (y mod 100) 0)) || Z.eqb (y mod 400) 0.

Definition days_in_month (y m : Z) : Z :=
  if Z.eqb m 2 then (if is_leap y then 29 else 28)
  else if Z.eqb m 4 || Z.eqb m 6 || Z.eqb m 9 || Z.eqb m 11 then 30 else 31.

(** Days from 1970-01-01 to the date [y]-[m]-[d]. *)
Definition days_from_civil (y m d : Z) : Z :=
  let y' := if Z.leb m 2 then y - 1 else y in
  let era := y' / 400 in
  let yoe := y' - era * 400 in
  let doy := (153 * (if Z.ltb 2 m then m - 3 else m + 9) + 2) / 5 + d - 1 in
  let doe := yoe * 365 + yoe / 4 - yoe / 100 + doy in
  era * 146097 + doe - 719468.

Definition in_range (lo x hi : Z) : bool := Z.leb lo x && Z.leb x hi.

Definition parse_iso (s : string) : option Z :=
  match list_ascii_of_string s with
  | [y1; y2; y3; y4; "-"%char; m1; m2; "-"%char; d1; d2; " "%char;
     h1; h2; ":"%char; n1; n2; ":"%char; s1; s2] =>
      yh ← two_digits y1 y2; yl ← two_digits y3 y4;
      m ← two_digits m1 m2; d ← two_digits d1 d2;
      h ← two_digits h1 h2; n ← two_digits n1 n2; sec ← two_digits s1 s2;
      let y := 100 * yh + yl in
      if in_range 1 m 12 && in_range 1 d (days_in_month y m)
         && in_range 0 h 23 && in_range 0 n 59 && in_range 0 sec 59
      then Some ((((days_from_civil y m d * 24 + h) * 60 + n) * 60 + sec)
                 * 1000000000)
      else None
  | _ => None
  end.

Definition trip (start_time : string) (duration : Z) (start_station end_station
    user_type : string) : Row :=
  list_to_map [("Start Time", VStr start_time); ("Trip Duration", VInt duration);
               ("Start Station", VStr start_station);
               ("End Station", VStr end_station); ("User Type", VStr user_type)].

Definition CITY_COLUMNS : list string :=
  ["Start Time"; "Trip Duration"; "Start Station"; "End Station"; "User Type"].

(** A file without the optional columns. *)
Definition washington_csv : DataFrame :=
  {| columns := CITY_COLUMNS;
     rows := [trip "2017-01-02 09:07:57" 100 "A" "B" "Subscriber";
              trip "2017-01-02 17:30:00" 200 "A" "B" "Customer";
              trip "2017-02-07 09:20:53" 50 "C" "D" "Subscriber"] |}.

(** The same trips with the optional columns. *)
Definition chicago_csv : DataFrame :=
  {| columns := CITY_COLUMNS ++ ["Gender"; "Birth Year"];
     rows := [<["Gender" := VStr "Male"]> (<["Birth Year" := VInt 1992]>
                (trip "2017-01-02 09:07:57" 100 "A" "B" "Subscriber"));
              <["Gender" := VNaN]> (<["Birth Year" := VNaN]>
                (trip "2017-01-02 17:30:00" 200 "A" "B" "Customer"));
              <["Gender" := VStr "Female"]> (<["Birth Year" := VInt 1985]>
                (trip "2017-02-07 09:20:53" 50 "C" "D" "Subscriber"))] |}.

Definition files (path : string) : exn + DataFrame :=
  if decide (path = "/mnt/data/chicago.csv") then inr chicago_csv
  else if decide (path = "/mnt/data/washington.csv") then inr washington_csv
  else inl FileNotFoundError.

Definition start (inp : list string) : state :=
  {| heap := []; stdin := inp; stdout := [] |}.

(** The frame behind a reference (an empty frame when there is none). *)
Definition frame_at (st : state) (l : loc) : DataFrame :=
  default {| columns := []; rows := [] |} (heap st !! l).

(** [keeps R c]: whatever [c] does, the state it leaves is related by [R]
    to the state it started in. *)
Definition keeps {A} (R : relation state) (c : M A) : Prop :=
  forall st, R st (c st).2.

(** The frames are as they were. *)
Definition same_heap : relation state := fun st st' => heap st' = heap st.

(** The frames that existed are as they were; new ones may have been made. *)
Definition grown_heap : relation state :=
  fun st st' => heap st `prefix_of` heap st'.

Definition COMBINATION : string := "Start-End Combination".

(** Only column [c] of the frame behind [df] may have been written: the
    other frames are as they were, and every other column of that frame
    is present as before with the same cells in the same order. *)
Definition column_written (c : string) (df : loc) : relation state :=
  fun st st' =>
    length (heap st') = length (heap st) /\
    (forall l, l <> df -> heap st' !! l = heap st !! l) /\
    (forall d, heap st !! df = Some d ->
       exists d', heap st' !! df = Some d' /\
                  length (rows d') = length (rows d) /\
                  forall c', c' <> c -> df_getitem d' c' = df_getitem d c').

(** The states the script reaches on the small data set after
    [load_data]: all trips of Washington (frame 0); the January trips of
    Washington (frame 1; frame 0 is the file as loaded); the December
    trips, of which there are none, of Chicago and of Washington
    (frame 1). *)
Definition all_trips : state :=
  (load_data files parse_iso "washington" "all" "all" (start [])).2.

Definition january : state :=
  (load_data files parse_iso "washington" "january" "all" (start [])).2.

Definition december_chicago : state :=
  (load_data files parse_iso "chicago" "december" "all" (start [])).2.

Definition december_washington : state :=
  (load_data files parse_iso "washington" "december" "all" (start [])).2.

(** The calendar cells that belong to a start-time cell. *)
Definition month_cell (v : value) : value :=
  match v with VTime ns => VStr (lower (month_name_of ns)) | _ => VNaN end.

Definition day_cell (v : value) : value :=
  match v with VTime ns => VStr (lower (day_name_of ns)) | _ => VNaN end.

Definition hour_cell (v : value) : value :=
  match v with VTime ns => VInt (hour_of ns) | _ => VNaN end.

Definition timestamp_or_missing (v : value) : Prop :=
  match v with VTime _ | VNaN => True | _ => False end.

(** The frame lines 59-62 of [load_data] make of the frame [d] read from
    the file, [t] being the parsed start times. *)
Definition derived (d : DataFrame) (t : Series) : DataFrame :=
  put_column
    (put_column
       (put_column (put_column d "Start Time" t) "month" (month_cell <$> t))
       "day_of_week" (day_cell <$> t))
    "hour" (hour_cell <$> t).

(** A row whose calendar cells are those of its start time. *)
Definition derived_row (r : Row) : Prop :=
  timestamp_or_missing (cell "Start Time" r) /\
  cell "month" r = month_cell (cell "Start Time" r) /\
  cell "day_of_week" r = day_cell (cell "Start Time" r) /\
  cell "hour" r = hour_cell (cell "Start Time" r).

(** [p] holds of the [fuel] integers from [z] on. *)
Fixpoint all_from (fuel : nat) (z : Z) (p : Z -> bool) : bool :=
  match fuel with
  | O => true
  | S fuel' => p z && all_from fuel' (z + 1) p
  end.

(** What [display_raw_data] writes for [k] answers of yes: each time the
    prompt and the next page. *)
Fixpoint pages (d : DataFrame) (k : nat) (row_index batch_size : Z) : list line :=
  match k with
  | O => []
  | S k' => Text RAW_DATA_PROMPT :: Frame (page d row_index batch_size)
            :: pages d k' (row_index + batch_size) batch_size
  end.

(** A column with a tie: "a" and "b" occur twice, "c" once, and one cell
    is missing. *)
Definition tied : Series :=
  [VStr "b"; VStr "a"; VNaN; VStr "b"; VStr "a"; VStr "c"].

(** The frames among the lines printed. *)
Definition frames_printed (out : list line) : list DataFrame :=
  omap (fun l => match l with Frame d => Some d | _ => None end) out.

(** ** Vocabulary of the further properties *)

(** A line that [get_user_input] does not accept. *)
Definition rejected (valid_inputs : list string) (x : string) : Prop :=
  lower (strip x) ∉ valid_inputs.

(** What [get_user_input] writes for the lines it does not accept: the
    prompt and the complaint, once per line. *)
Definition reprompts (prompt : string) (skipped : list string) : list line :=
  skipped ≫= (fun _ => [Text prompt; Text "Invalid input. Please try again."]).

(** The cell [pd.to_datetime] makes of a cell of the file. *)
Definition parsed (parse_datetime : string -> option Z) (raw v : value) : Prop :=
  match raw with
  | VStr a => exists ns, parse_datetime a = Some ns /\ v = VTime ns
  | VInt z => v = VTime z
  | VTime ns => v = VTime ns
  | VNaN => v = VNaN
  end.

Definition CALENDAR_COLUMNS : list string := ["month"; "day_of_week"; "hour"].

(** No value of the series occurs more often than [m], which occurs in
    it and is not missing. *)
Definition most_frequent (s : Series) (m : value) : Prop :=
  m ∈ s /\ m <> VNaN /\
  forall w, w <> VNaN -> (occurrences w s <= occurrences m s)%nat.

(** A cell of a numeric column, and the numbers of such a column (the
    missing cells left out). *)
Definition numeric_cell (v : value) : Prop :=
  match v with VInt _ | VNaN => True | _ => False end.

#[global] Instance numeric_cell_dec v : Decision (numeric_cell v).
Proof. destruct v; cbn; apply _. Defined.

Definition number_of (v : value) : option Z :=
  match v with VInt z => Some z | _ => None end.

Definition present_numbers (s : Series) : list Z := omap number_of s.


(** Counts in descending order. *)
Fixpoint descending (c : list (value * nat)) : Prop :=
  match c with
  | [] => True
  | p :: c' => Forall (fun q => (q.2 <= p.2)%nat) c' /\ descending c'
  end.

(** [c] counts the series [s]: one entry for each value of [s] that is
    not missing, with the number of its occurrences, most frequent
    first. *)
Definition counts_of (s : Series) (c : list (value * nat)) : Prop :=
  NoDup (c.*1) /\
  (forall v n, (v, n) ∈ c <-> v ∈ s /\ v <> VNaN /\ n = occurrences v s) /\
  descending c.

(** What [user_stats] prints for the [Gender] column of the frame [d]. *)
Definition gender_lines (d : DataFrame) : list line :=
  if bool_decide ("Gender" ∈ columns d)
  then [Counts "Gender Distribution:"
          (Series_value_counts (cell "Gender" <$> rows d))]
  else [].

(** The cell [station_stats] writes for a row: the two stations joined
    by " to ", or missing when one of them is. *)
Definition trip_cell (r : Row) : value :=
  match cell "Start Station" r, cell "End Station" r with
  | VStr a, VStr b => VStr ((a ++ " to ") ++ b)
  | _, _ => VNaN
  end.

Definition text_or_missing (v : value) : Prop :=
  match v with VStr _ | VNaN => True | _ => False end.

(** A line that [display_raw_data] takes for the answer no. *)
Definition answers_no (x : string) : Prop := lower (strip x) = "no".

#[global] Instance answers_no_dec x : Decision (answers_no x).
Proof. unfold answers_no. apply _. Defined.


(** [ends c]: [c] never runs out of rounds, and it leaves no more lines
    to be read than it found. *)
Definition ends {A} (c : M A) : Prop :=
  forall st, (c st).1 <> Diverge /\
             (length (stdin (c st).2) <= length (stdin st))%nat.

Definition RESTART_PROMPT : string :=
  "Would you like to restart? Enter yes or no: ".

(** One round of the [while True] of [main], up to the answer to the
    question whether to restart. *)
Definition main_round (read_csv : string -> exn + DataFrame)
    (parse_datetime : string -> option Z) : M string :=
  filters <- get_filters ;;
  let '(city, month, day) := filters in
  df <- load_data read_csv parse_datetime city month day ;;
  time_stats df ;;;
  station_stats df ;;;
  trip_duration_stats df ;;;
  user_stats df ;;;
  display_raw_data df 5 ;;;
  get_user_input RESTART_PROMPT YES_NO.


#[global] Instance text_or_missing_dec v : Decision (text_or_missing v).
Proof. destruct v; cbn; apply _. Defined.

(** ** Further small data *)

(** All trips of Chicago, whose file has the optional columns (frame 0). *)
Definition chicago_trips : state :=
  (load_data files parse_iso "chicago" "all" "all" (start [])).2.

(** The state [st] with the lines [inp] still to be read. *)
Definition typed (st : state) (inp : list string) : state :=
  {| heap := heap st; stdin := inp; stdout := stdout st |}.


(** A table whose years of birth are all missing. *)
Definition no_years : state :=
  {| heap := [{| columns := ["User Type"; "Birth Year"];
                 rows := [list_to_map [("User Type", VStr "Customer");
                                       ("Birth Year", VNaN)];
                          list_to_map [("User Type", VStr "Subscriber");
                                       ("Birth Year", VNaN)]] |}];
     stdin := []; stdout := [] |}.

(** A table where each trip lacks one of its stations. *)
Definition one_station : state :=
  {| heap := [{| columns := ["Start Station"; "End Station"];
                 rows := [list_to_map [("Start Station", VStr "A");
                                       ("End Station", VNaN)];
                          list_to_map [("Start Station", VNaN);
                                       ("End Station", VStr "B")]] |}];
     stdin := []; stdout := [] |}.

(** A line of ASCII text: on such lines [strip] and [lower] are
    [str.strip] and [str.lower]. *)
Definition ascii_text (x : string) : Prop :=
  Forall (fun c => (N_of_ascii c < 128)%N) (list_ascii_of_string x).

#[global] Instance ascii_text_dec x : Decision (ascii_text x).
Proof. unfold ascii_text. apply _. Defined.


(** A file whose only trip has a blank start time. *)
Definition blank_csv : DataFrame :=
  {| columns := CITY_COLUMNS;
     rows := [<["Start Time" := VNaN]> (trip "" 100 "A" "B" "Subscriber")] |}.

(** * Properties *)

(** ** Running the primitives *)

Lemma with_stdout_nil st : with_stdout st (stdout st ++ []) = st.
Proof. destruct st; unfold with_stdout; simpl. by rewrite app_nil_r. Qed.

Lemma with_heap_nil st : with_heap st (heap st ++ []) = st.
Proof. destruct st; unfold with_heap; simpl. by rewrite app_nil_r. Qed.

Lemma bind_eq {A B} (c : M A) (k : A -> M B) st :
  bind c k st = match c st with
                | (Return a, st') => k a st'
                | (Raise e, st') => (Raise e, st')
                | (Diverge, st') => (Diverge, st')
                end.
Proof. reflexivity. Qed.

Lemma lift_outcome_run {A} (o : outcome A) st : lift_outcome o st = (o, st).
Proof. reflexivity. Qed.

Lemma frame_run st l d :
  heap st !! l = Some d -> frame l st = (Return d, st).
Proof. intros H. unfold frame. by rewrite H. Qed.

Lemma getitem_run st l d c :
  heap st !! l = Some d -> c ∈ columns d ->
  getitem l c st = (Return (cell c <$> rows d), st).
Proof.
  intros H Hc. unfold getitem, bind. rewrite (frame_run _ _ _ H).
  unfold df_getitem. by rewrite decide_True.
Qed.

Lemma getitem_missing st l d c :
  heap st !! l = Some d -> c ∉ columns d ->
  getitem l c st = (Raise (KeyError (VStr c)), st).
Proof.
  intros H Hc. unfold getitem, bind. rewrite (frame_run _ _ _ H).
  unfold df_getitem. by rewrite decide_False.
Qed.

Lemma print_run st l : print l st = (Return tt, with_stdout st (stdout st ++ [l])).
Proof. reflexivity. Qed.

(** ** Selecting rows by a mask *)

Lemma select_bool_decide {A} (P : A -> Prop) `{!forall x, Decision (P x)} (l : list A) :
  select l ((fun x => bool_decide (P x)) <$> l) = filter P l.
Proof.
  induction l as [|x l IH]; [done|].
  cbn [select fmap list_fmap]. rewrite filter_cons.
  destruct (decide (P x)) as [HP|HP].
  - rewrite bool_decide_eq_true_2 by done. by rewrite IH.
  - rewrite bool_decide_eq_false_2 by done. by rewrite IH.
Qed.

Lemma select_Series_eq (d : DataFrame) (c x : string) :
  select (rows d) (Series_eq (cell c <$> rows d) x)
  = filter (fun r => cell c r = VStr x) (rows d).
Proof.
  unfold Series_eq. rewrite <- list_fmap_compose.
  apply (select_bool_decide (fun r => cell c r = VStr x)).
Qed.

Lemma filter_all {A} (P : A -> Prop) `{!forall x, Decision (P x)} (l : list A) :
  (forall x, P x) -> filter P l = l.
Proof.
  intros HP. induction l as [|x l IH]; [done|].
  rewrite filter_cons, decide_True by done. by rewrite IH.
Qed.

(** One [df = df[df[c] == x]]: a new frame at a fresh reference. *)
Lemma mask_step_run st df d (c x : string) :
  heap st !! df = Some d -> c ∈ columns d ->
  (s <- getitem df c ;; getitem_mask df (Series_eq s x)) st
  = (Return (length (heap st)),
     with_heap st (heap st ++ [ {| columns := columns d;
                                   rows := filter (fun r => cell c r = VStr x) (rows d) |} ])).
Proof.
  intros H Hc. unfold bind at 1. rewrite (getitem_run _ _ _ _ H Hc).
  unfold getitem_mask, bind. rewrite (frame_run _ _ _ H).
  unfold df_mask. rewrite decide_True.
  2:{ unfold Series_eq. by rewrite !length_fmap. }
  cbn. by rewrite select_Series_eq.
Qed.


(** ** The filters of [load_data] *)

(** What lines 64-69 do on a frame that has the two calendar columns: they
    return, the frames already in the heap stay as they are, and the frame
    returned holds the columns of the input and the kept rows, in order. *)
Lemma filter_month_day_run st df d (month day : string) :
  heap st !! df = Some d ->
  "month" ∈ columns d -> "day_of_week" ∈ columns d ->
  exists df' h',
    filter_month_day df month day st
      = (Return df', with_heap st (heap st ++ h')) /\
    (heap st ++ h') !! df'
      = Some {| columns := columns d; rows := filter (kept month day) (rows d) |} /\
    (month = "all" -> day = "all" -> df' = df /\ h' = []) /\
    (month <> "all" \/ day <> "all" -> (length (heap st) <= df')%nat).
Proof.
  intros H Hm Hd. unfold filter_month_day.
  destruct (decide (month = "all")) as [->|Hmonth];
    destruct (decide (day = "all")) as [->|Hday].
  - exists df, []. unfold bind, ret. cbn.
    rewrite with_heap_nil, app_nil_r, H. repeat split; try done.
    + f_equal. destruct d as [cs rs]; cbn. f_equal.
      symmetry. apply filter_all. intros r. unfold kept. auto.
    + intros [?|?]; done.
  - unfold bind at 1. rewrite decide_False by (intros X; by apply X).
    unfold ret at 1. unfold bind at 1. rewrite decide_True by done.
    rewrite (mask_step_run _ _ _ _ _ H Hd). unfold ret.
    eexists _, [_]. split; [done|]. split; [|split].
    + rewrite list_lookup_middle by done. do 2 f_equal.
      apply list_filter_iff. intros r. unfold kept. intuition congruence.
    + done.
    + done.
  - unfold bind at 1. rewrite decide_True by done.
    rewrite (mask_step_run _ _ _ _ _ H Hm).
    unfold bind at 1. rewrite decide_False by (intros X; by apply X). unfold ret.
    eexists _, [_]. split; [done|]. split; [|split].
    + rewrite list_lookup_middle by done. do 2 f_equal.
      apply list_filter_iff. intros r. unfold kept. intuition congruence.
    + done.
    + done.
  - unfold bind at 1. rewrite decide_True by done.
    rewrite (mask_step_run _ _ _ _ _ H Hm).
    unfold bind at 1. rewrite decide_True by done.
    set (d1 := {| columns := columns d;
                  rows := filter (fun r => cell "month" r = VStr month) (rows d) |}).
    assert (H1 : heap (with_heap st (heap st ++ [d1])) !! length (heap st) = Some d1).
    { cbn. by rewrite list_lookup_middle. }
    rewrite (mask_step_run _ _ d1 _ _ H1 Hd). unfold ret. cbn.
    eexists _, [d1; _]. split.
    { unfold with_heap. cbn. by rewrite <- app_assoc. }
    split; [|split].
    + change (heap st ++ [d1; ?x]) with (heap st ++ [d1] ++ [x]).
      rewrite app_assoc, list_lookup_middle by done.
      do 2 f_equal. rewrite list_filter_filter.
      apply list_filter_iff. intros r. unfold kept. intuition congruence.
    + done.
    + intros _. rewrite length_app. lia.
Qed.

(** ** Statistics on an empty table *)

Lemma when_run (b : bool) (c : M unit) st :
  when b c st = if b then c st else (Return tt, st).
Proof. by destruct b. Qed.

Lemma display_statistics_no_rows st df d (column stat_name : string) :
  heap st !! df = Some d -> rows d = [] -> column ∈ columns d ->
  display_statistics df column stat_name st = (Raise (KeyError (VInt 0)), st).
Proof.
  intros H Hrows Hc. unfold display_statistics.
  rewrite bind_eq, (getitem_run _ _ _ _ H Hc), Hrows. reflexivity.
Qed.

(** C1 (as amended).  On an empty table every most-common-value statistic
    fails, and it fails with [KeyError]: [df[column].mode()] is empty and
    the lookup of its label 0 raises.  [time_stats] and [station_stats]
    stop at their first statistic, after their banner.  No
    [NoDataError] is raised and no default is reported. *)
Theorem mode_statistics_empty_table st df d :
  heap st !! df = Some d -> rows d = [] ->
  (forall column stat_name, column ∈ columns d ->
     display_statistics df column stat_name st = (Raise (KeyError (VInt 0)), st)) /\
  ("month" ∈ columns d ->
     time_stats df st
     = (Raise (KeyError (VInt 0)),
        with_stdout st (stdout st ++ [Text "Calculating The Most Frequent Times of Travel..."]))) /\
  ("Start Station" ∈ columns d ->
     station_stats df st
     = (Raise (KeyError (VInt 0)),
        with_stdout st (stdout st ++ [Text "Calculating The Most Popular Stations and Trip..."]))).
Proof.
  intros H Hrows. split; [|split].
  - intros column stat_name Hc. by apply display_statistics_no_rows with d.
  - intros Hc. unfold time_stats. rewrite bind_eq, print_run, bind_eq.
    by rewrite (display_statistics_no_rows _ _ d).
  - intros Hc. unfold station_stats. rewrite bind_eq, print_run, bind_eq.
    by rewrite (display_statistics_no_rows _ _ d).
Qed.

(** C2 (as amended).  On an empty table [trip_duration_stats] returns
    normally: it prints the total 0 and the mean [NaN]; it raises no
    error for the mean. *)
Theorem duration_statistics_empty_table st df d :
  heap st !! df = Some d -> rows d = [] -> "Trip Duration" ∈ columns d ->
  trip_duration_stats df st
  = (Return tt,
     with_stdout st (stdout st ++ [Text "Calculating Trip Duration...";
                                   TotalTravelTime 0; MeanTravelTime FNaN;
                                   Elapsed; Text RULE])).
Proof.
  intros H Hrows Hc. unfold trip_duration_stats.
  rewrite bind_eq, print_run.
  rewrite bind_eq, (getitem_run _ _ d) by done. rewrite Hrows.
  change (Series_sum (cell "Trip Duration" <$> [])) with (Return (A:=Z) 0).
  rewrite bind_eq, lift_outcome_run.
  rewrite bind_eq, print_run.
  rewrite bind_eq, (getitem_run _ _ d) by done. rewrite Hrows.
  change (Series_mean (cell "Trip Duration" <$> [])) with (Return FNaN).
  rewrite bind_eq, lift_outcome_run.
  rewrite bind_eq, print_run.
  rewrite bind_eq, print_run. rewrite print_run.
  unfold with_stdout; cbn. by rewrite <- !app_assoc.
Qed.

(** C7 (as amended).  On an empty table of a data set without the
    [Birth Year] column, [user_stats] returns normally and its user-type
    counts are empty; when the [Gender] column is present its counts are
    empty too. *)
Theorem user_statistics_empty_table st df d :
  heap st !! df = Some d -> rows d = [] ->
  "User Type" ∈ columns d -> "Birth Year" ∉ columns d ->
  user_stats df st
  = (Return tt,
     with_stdout st
       (stdout st ++ [Text "Calculating User Stats..."; Counts "User Types:" []]
          ++ (if bool_decide ("Gender" ∈ columns d)
              then [Counts "Gender Distribution:" []] else [])
          ++ [Elapsed; Text RULE])).
Proof.
  intros H Hrows Hc Hb. unfold user_stats.
  rewrite bind_eq, print_run.
  rewrite bind_eq, (getitem_run _ _ d) by done. rewrite Hrows.
  rewrite bind_eq, print_run.
  rewrite bind_eq, (frame_run _ _ d) by done.
  rewrite bind_eq, when_run.
  destruct (bool_decide ("Gender" ∈ columns d)) eqn:Hg.
  - apply bool_decide_eq_true_1 in Hg.
    rewrite bind_eq, (getitem_run _ _ d) by done. rewrite Hrows.
    rewrite print_run.
    rewrite bind_eq, (frame_run _ _ d) by done.
    rewrite bind_eq, when_run, bool_decide_eq_false_2 by done.
    rewrite bind_eq, print_run. rewrite print_run.
    unfold with_stdout; cbn. by rewrite <- !app_assoc.
  - rewrite bind_eq, (frame_run _ _ d) by done.
    rewrite bind_eq, when_run, bool_decide_eq_false_2 by done.
    rewrite bind_eq, print_run. rewrite print_run.
    unfold with_stdout; cbn. by rewrite <- !app_assoc.
Qed.

(** ** Which frames a function touches *)

Section Keeps.
Context (R : relation state) `{!PreOrder R}.

Lemma keeps_ret {A} (a : A) : keeps R (ret a).
Proof. intros st. reflexivity. Qed.

Lemma keeps_raise {A} e : keeps R (raise (A:=A) e).
Proof. intros st. reflexivity. Qed.

Lemma keeps_lift {A} e (o : option A) : keeps R (lift e o).
Proof. destruct o; [apply keeps_ret | apply keeps_raise]. Qed.

Lemma keeps_lift_outcome {A} (o : outcome A) : keeps R (lift_outcome o).
Proof. intros st. reflexivity. Qed.

Lemma keeps_lift_result {A} (r : exn + A) : keeps R (lift_result r).
Proof. destruct r; [apply keeps_raise | apply keeps_ret]. Qed.

Lemma keeps_frame l : keeps R (frame l).
Proof. intros st. unfold frame. destruct (heap st !! l); reflexivity. Qed.

Lemma keeps_bind {A B} (c : M A) (k : A -> M B) :
  keeps R c -> (forall a, keeps R (k a)) -> keeps R (bind c k).
Proof.
  intros Hc Hk st. rewrite bind_eq. specialize (Hc st).
  destruct (c st) as [[a|e|] st']; cbn in *; [|done..].
  etransitivity; [exact Hc | apply Hk].
Qed.

Lemma keeps_getitem l c : keeps R (getitem l c).
Proof. apply keeps_bind; [apply keeps_frame | intros d; apply keeps_lift]. Qed.

Lemma keeps_when b (c : M unit) : keeps R c -> keeps R (when b c).
Proof. destruct b; [intros H; exact H | intros _; apply keeps_ret]. Qed.
End Keeps.

#[global] Instance same_heap_preorder : PreOrder same_heap.
Proof.
  split; [by intros st | intros st1 st2 st3 H1 H2].
  unfold same_heap in *. congruence.
Qed.

#[global] Instance grown_heap_preorder : PreOrder grown_heap.
Proof.
  split; [intros st; unfold grown_heap; reflexivity | intros st1 st2 st3 H1 H2].
  unfold grown_heap in *. by etransitivity.
Qed.

Lemma same_heap_grown {A} (c : M A) : keeps same_heap c -> keeps grown_heap c.
Proof. intros H st. unfold grown_heap. by rewrite (H st). Qed.

Lemma keeps_print l : keeps same_heap (print l).
Proof. by intros st. Qed.

Lemma keeps_new_frame d : keeps grown_heap (new_frame d).
Proof. intros st. by apply prefix_app_r. Qed.

Lemma keeps_get_user_input prompt valid_inputs :
  keeps same_heap (get_user_input prompt valid_inputs).
Proof.
  intros st. unfold get_user_input.
  by destruct (get_user_input_loop _ _ _ _) as [[r inp] out].
Qed.

Ltac keeps_heap := repeat (first
  [ apply keeps_ret; apply _ | apply keeps_raise; apply _
  | apply keeps_lift; apply _ | apply keeps_lift_outcome; apply _
  | apply keeps_lift_result; apply _
  | apply keeps_frame; apply _ | apply keeps_getitem; apply _
  | apply keeps_print | apply keeps_new_frame
  | apply keeps_when; [apply _ |]
  | apply keeps_bind; [apply _ | | intros ?] ]).

Lemma keeps_display_statistics df column stat_name :
  keeps same_heap (display_statistics df column stat_name).
Proof. unfold display_statistics. keeps_heap. Qed.

Lemma keeps_time_stats df : keeps same_heap (time_stats df).
Proof. unfold time_stats. keeps_heap. Qed.

Lemma keeps_trip_duration_stats df : keeps same_heap (trip_duration_stats df).
Proof. unfold trip_duration_stats. keeps_heap. Qed.

Lemma keeps_user_stats df : keeps same_heap (user_stats df).
Proof. unfold user_stats. keeps_heap. Qed.

Lemma keeps_getitem_mask df mask : keeps grown_heap (getitem_mask df mask).
Proof. unfold getitem_mask. keeps_heap. Qed.

Lemma keeps_filter_month_day df month day :
  keeps grown_heap (filter_month_day df month day).
Proof.
  unfold filter_month_day.
  apply keeps_bind; [apply _ | | intros df1].
  { destruct (decide _); keeps_heap. }
  apply keeps_bind; [apply _ | | intros df2].
  { destruct (decide _); keeps_heap. }
  keeps_heap.
Qed.

#[global] Instance column_written_preorder c df : PreOrder (column_written c df).
Proof.
  split.
  - intros st. split; [done|]. split; [done|]. intros d Hd. by exists d.
  - intros st1 st2 st3 (Hl1 & Ho1 & Hd1) (Hl2 & Ho2 & Hd2). split; [|split].
    + congruence.
    + intros l Hl. by rewrite Ho2, Ho1.
    + intros d Hd. destruct (Hd1 d Hd) as (d' & Hd' & Hn' & Hc').
      destruct (Hd2 d' Hd') as (d'' & Hd'' & Hn'' & Hc'').
      exists d''. split; [done|]. split; [congruence|].
      intros c' Hne. by rewrite Hc'', Hc'.
Qed.

Lemma same_heap_column_written {A} (m : M A) c df :
  keeps same_heap m -> keeps (column_written c df) m.
Proof.
  intros H st. specialize (H st). unfold same_heap in H.
  unfold column_written. rewrite H. split; [done|]. split; [done|].
  intros d Hd. by exists d.
Qed.

Lemma cell_insert_ne (c c' : string) (v : value) (r : Row) :
  c' <> c -> cell c' (<[c := v]> r) = cell c' r.
Proof. intros Hne. unfold cell. by rewrite lookup_insert_ne. Qed.

Lemma cell_insert_eq (c : string) (v : value) (r : Row) :
  cell c (<[c := v]> r) = v.
Proof. unfold cell. by rewrite lookup_insert_eq. Qed.

Lemma cells_zip_insert_ne (c c' : string) (rs : list Row) (s : Series) :
  c' <> c -> length s = length rs ->
  cell c' <$> zip_with (fun r v => <[c := v]> r) rs s = cell c' <$> rs.
Proof.
  intros Hne. revert s. induction rs as [|r rs IH]; intros [|v s] Hlen;
    try done. cbn in *. rewrite cell_insert_ne by done. f_equal. apply IH. lia.
Qed.

Lemma cells_zip_insert_eq (c : string) (rs : list Row) (s : Series) :
  length s = length rs ->
  cell c <$> zip_with (fun r v => <[c := v]> r) rs s = s.
Proof.
  revert s. induction rs as [|r rs IH]; intros [|v s] Hlen; try done.
  cbn in *. rewrite cell_insert_eq. f_equal. apply IH. lia.
Qed.

Lemma df_setitem_other d c s d' c' :
  df_setitem d c s = Some d' -> c' <> c -> df_getitem d' c' = df_getitem d c'.
Proof.
  unfold df_setitem. destruct (decide _) as [Hlen|]; [|done].
  intros [= <-] Hne. unfold df_getitem, put_column. cbn.
  rewrite cells_zip_insert_ne by done.
  destruct (decide (c ∈ columns d)); [done|].
  destruct (decide (c' ∈ columns d)) as [Hin|Hin].
  - rewrite decide_True; [done|]. apply elem_of_app. by left.
  - rewrite decide_False; [done|]. rewrite elem_of_app, list_elem_of_singleton.
    tauto.
Qed.

Lemma df_setitem_same d c s d' :
  df_setitem d c s = Some d' -> df_getitem d' c = Some s.
Proof.
  unfold df_setitem. destruct (decide _) as [Hlen|]; [|done].
  intros [= <-]. unfold df_getitem, put_column. cbn.
  rewrite cells_zip_insert_eq by done.
  destruct (decide (c ∈ columns d)) as [Hin|Hin].
  - by rewrite decide_True.
  - rewrite decide_True; [done|]. apply elem_of_app. right.
    by apply list_elem_of_singleton.
Qed.

Lemma df_setitem_length d c s d' :
  df_setitem d c s = Some d' -> length (rows d') = length (rows d).
Proof.
  unfold df_setitem. destruct (decide _) as [Hlen|]; [|done].
  intros [= <-]. cbn. rewrite length_zip_with. lia.
Qed.

(** [df[c] = s] writes column [c] of the frame behind [df] and nothing
    else. *)
Lemma keeps_setitem df c s : keeps (column_written c df) (setitem df c s).
Proof.
  intros st. unfold setitem. rewrite bind_eq. unfold frame.
  destruct (heap st !! df) as [d|] eqn:Hd; [|reflexivity].
  rewrite bind_eq. destruct (df_setitem d c s) as [d'|] eqn:Hset; [|reflexivity].
  cbn. unfold set_frame. rewrite Hd. cbn. split; [|split].
  - apply length_insert.
  - intros l Hl. by apply list_lookup_insert_ne.
  - intros d0 Hd0. exists d'. split.
    { apply list_lookup_insert_eq. by eapply lookup_lt_Some. }
    assert (d0 = d) as -> by congruence. split.
    + by eapply df_setitem_length.
    + intros c' Hne. by eapply df_setitem_other.
Qed.

Lemma keeps_station_stats df :
  keeps (column_written COMBINATION df) (station_stats df).
Proof.
  unfold station_stats.
  repeat (first
    [ apply keeps_setitem
    | apply same_heap_column_written;
      first [ apply keeps_print | apply keeps_display_statistics
            | apply keeps_getitem; apply _
            | apply keeps_lift_outcome; apply _ ]
    | apply keeps_bind; [apply _ | | intros ?] ]).
Qed.

Lemma bind_returns {A B} (c : M A) (k : A -> M B) st b st' :
  bind c k st = (Return b, st') ->
  exists a st1, c st = (Return a, st1) /\ k a st1 = (Return b, st').
Proof.
  rewrite bind_eq. destruct (c st) as [[a|e|] st1]; [|done..].
  intros H. by exists a, st1.
Qed.

Lemma keeps_same_heap_run {A} (c : M A) st r st' :
  keeps same_heap c -> c st = (r, st') -> heap st' = heap st.
Proof. intros K E. specialize (K st). by rewrite E in K. Qed.

Lemma setitem_returns st df c s st' :
  setitem df c s st = (Return tt, st') ->
  exists d d', heap st !! df = Some d /\ df_setitem d c s = Some d' /\
               heap st' = <[df := d']> (heap st).
Proof.
  unfold setitem. rewrite bind_eq. unfold frame.
  destruct (heap st !! df) as [d|] eqn:Hd; [|done].
  rewrite bind_eq. destruct (df_setitem d c s) as [d'|] eqn:Hset; [|done].
  cbn. unfold set_frame. rewrite Hd. intros [= <-]. by exists d, d'.
Qed.

(** When [station_stats] returns, the frame it was given has the column
    [Start-End Combination]. *)
Lemma station_stats_returns st df d st' :
  heap st !! df = Some d -> station_stats df st = (Return tt, st') ->
  exists d' combination,
    heap st' !! df = Some d' /\
    df_setitem d COMBINATION combination = Some d' /\
    COMBINATION ∈ columns d'.
Proof.
  intros Hd Hrun. unfold station_stats in Hrun.
  apply bind_returns in Hrun as (? & st1 & E1 & Hrun).
  apply (keeps_same_heap_run _ _ _ _ (keeps_print _)) in E1.
  apply bind_returns in Hrun as (? & st2 & E2 & Hrun).
  apply (keeps_same_heap_run _ _ _ _ (keeps_display_statistics _ _ _)) in E2.
  apply bind_returns in Hrun as (? & st3 & E3 & Hrun).
  apply (keeps_same_heap_run _ _ _ _ (keeps_display_statistics _ _ _)) in E3.
  apply bind_returns in Hrun as (s & st4 & E4 & Hrun).
  apply (keeps_same_heap_run _ _ _ _ (keeps_getitem _ _ _)) in E4.
  apply bind_returns in Hrun as (s_to & st5 & E5 & Hrun).
  apply (keeps_same_heap_run _ _ _ _ (keeps_lift_outcome _ _)) in E5.
  apply bind_returns in Hrun as (e & st6 & E6 & Hrun).
  apply (keeps_same_heap_run _ _ _ _ (keeps_getitem _ _ _)) in E6.
  apply bind_returns in Hrun as (combination & st7 & E7 & Hrun).
  apply (keeps_same_heap_run _ _ _ _ (keeps_lift_outcome _ _)) in E7.
  apply bind_returns in Hrun as ([] & st8 & E8 & Hrun).
  apply setitem_returns in E8 as (d0 & d' & Hd0 & Hset & E8).
  assert (Hrest : heap st' = heap st8).
  { eapply (keeps_same_heap_run (A:=unit)); [|exact Hrun].
    keeps_heap. }
  assert (heap st7 = heap st) as Hst7 by congruence.
  rewrite Hst7 in Hd0, E8. assert (d0 = d) as -> by congruence.
  exists d', combination. split; [|split; [done|]].
  - rewrite Hrest, E8. apply list_lookup_insert_eq. by eapply lookup_lt_Some.
  - apply df_setitem_same in Hset. unfold df_getitem in Hset.
    by case_decide.
Qed.

(** C6 (as amended).  The filters leave every frame of the heap as it was,
    their input included, and a filter that is applied returns a frame at
    a new reference (with "all" and "all" the input frame itself is
    returned).  [time_stats], [trip_duration_stats] and [user_stats]
    leave every frame as it was.  [station_stats] writes into the frame it
    receives: it leaves the other frames, the number of rows and every
    column other than [Start-End Combination] as they were, and when it
    returns that column is in the frame. *)
Theorem frames_written st df d (month day : string) :
  heap st !! df = Some d ->
  "month" ∈ columns d -> "day_of_week" ∈ columns d ->
  (heap st `prefix_of` heap (filter_month_day df month day st).2 /\
   exists df', (filter_month_day df month day st).1 = Return df' /\
     ((month = "all" /\ day = "all" /\ df' = df) \/
      ((month <> "all" \/ day <> "all") /\ (length (heap st) <= df')%nat))) /\
  heap (time_stats df st).2 = heap st /\
  heap (trip_duration_stats df st).2 = heap st /\
  heap (user_stats df st).2 = heap st /\
  (forall l, l <> df -> heap (station_stats df st).2 !! l = heap st !! l) /\
  (exists d', heap (station_stats df st).2 !! df = Some d' /\
     length (rows d') = length (rows d) /\
     (forall c, c <> COMBINATION -> df_getitem d' c = df_getitem d c) /\
     ((station_stats df st).1 = Return tt -> COMBINATION ∈ columns d')).
Proof.
  intros Hd Hm Hw. split; [split|split; [|split; [|split; [|split]]]].
  - apply keeps_filter_month_day.
  - destruct (filter_month_day_run st df d month day Hd Hm Hw)
      as (df' & h' & Hrun & _ & Hall & Hfresh).
    exists df'. rewrite Hrun. split; [done|].
    destruct (decide (month = "all")) as [Hmo|Hmo];
      destruct (decide (day = "all")) as [Hda|Hda]; auto.
    left. by destruct (Hall Hmo Hda).
  - apply keeps_time_stats.
  - apply keeps_trip_duration_stats.
  - apply keeps_user_stats.
  - apply (keeps_station_stats df st).
  - destruct (keeps_station_stats df st) as (_ & _ & Hframe).
    destruct (Hframe d Hd) as (d' & Hd' & Hlen & Hcols).
    exists d'. repeat split; try done.
    intros Hret. destruct (station_stats df st) as [r st'] eqn:Hrun.
    cbn in Hret, Hd'. subst r.
    destruct (station_stats_returns _ _ _ _ Hd Hrun) as (d'' & s & Hd'' & _ & Hin).
    congruence.
Qed.

(** ** The filters keep the matching rows, in order *)

(** C4.  On a loaded table the filters return a table with the same
    columns whose rows are exactly the rows of the input that match the
    month (unless it is "all") and the day (unless it is "all"), in the
    order of the input; with "all" and "all" the rows are those of the
    input. *)
Theorem filter_keeps_matching_rows st df d (month day : string) :
  heap st !! df = Some d ->
  "month" ∈ columns d -> "day_of_week" ∈ columns d ->
  exists df' st' d',
    filter_month_day df month day st = (Return df', st') /\
    heap st' !! df' = Some d' /\
    columns d' = columns d /\
    rows d' = filter (kept month day) (rows d) /\
    (forall r, r ∈ rows d' <->
               r ∈ rows d /\
               (month = "all" \/ cell "month" r = VStr month) /\
               (day = "all" \/ cell "day_of_week" r = VStr day)) /\
    (month = "all" -> day = "all" -> rows d' = rows d).
Proof.
  intros Hd Hm Hw.
  destruct (filter_month_day_run st df d month day Hd Hm Hw)
    as (df' & h' & Hrun & Hd' & Hall & _).
  eexists df', _, _. split; [exact Hrun|]. split; [exact Hd'|].
  cbn. split; [done|]. split; [done|]. split.
  - intros r. rewrite list_elem_of_filter. unfold kept. tauto.
  - intros -> ->. apply filter_all. intros r. unfold kept. auto.
Qed.

(** C5.  The rows the filters return are a subsequence of the rows of the
    input: nothing is added, duplicated or reordered, and there are at
    most as many rows as in the input. *)
Theorem filter_is_subsequence st df d (month day : string) :
  heap st !! df = Some d ->
  "month" ∈ columns d -> "day_of_week" ∈ columns d ->
  exists df' st' d',
    filter_month_day df month day st = (Return df', st') /\
    heap st' !! df' = Some d' /\
    rows d' `sublist_of` rows d /\
    (length (rows d') <= length (rows d))%nat /\
    (NoDup (rows d) -> NoDup (rows d')).
Proof.
  intros Hd Hm Hw.
  destruct (filter_month_day_run st df d month day Hd Hm Hw)
    as (df' & h' & Hrun & Hd' & _).
  eexists df', _, _. split; [exact Hrun|]. split; [exact Hd'|].
  cbn. assert (Hsub : filter (kept month day) (rows d) `sublist_of` rows d)
    by apply sublist_filter.
  split; [done|]. split; [by apply sublist_length|].
  intros Hnd. by eapply sublist_NoDup.
Qed.

(** ** The theorems on the small data set *)

Ltac has_column := apply (bool_decide_unpack _); vm_compute; exact I.

Lemma mode_statistics_empty_table_witness :
  time_stats 1%nat december_chicago
  = (Raise (KeyError (VInt 0)),
     with_stdout december_chicago
       (stdout december_chicago
          ++ [Text "Calculating The Most Frequent Times of Travel..."])).
Proof.
  apply (mode_statistics_empty_table december_chicago 1%nat
           (frame_at december_chicago 1%nat)).
  - vm_compute. reflexivity.
  - vm_compute. reflexivity.
  - has_column.
Defined.

(** C1, as the claim states it, fails: with no December trip in the file,
    the most common month is not reported and the error is [KeyError],
    not [NoDataError]. *)
Lemma empty_table_mode_is_not_NoDataError :
  rows (frame_at december_chicago 1%nat) = [] /\
  (display_statistics 1%nat "month" "Month" december_chicago).1
  = Raise (KeyError (VInt 0)) /\
  (display_statistics 1%nat "month" "Month" december_chicago).1
  <> Raise NoDataError.
Proof. vm_compute. repeat split. discriminate. Qed.

Lemma duration_statistics_empty_table_witness :
  trip_duration_stats 1%nat december_chicago
  = (Return tt,
     with_stdout december_chicago
       (stdout december_chicago
          ++ [Text "Calculating Trip Duration..."; TotalTravelTime 0;
              MeanTravelTime FNaN; Elapsed; Text RULE])).
Proof.
  apply (duration_statistics_empty_table december_chicago 1%nat
           (frame_at december_chicago 1%nat)).
  - vm_compute. reflexivity.
  - vm_compute. reflexivity.
  - has_column.
Defined.

(** C2, as the claim states it, fails: on the empty December table the
    mean is printed as [NaN] and the function returns; no error is
    raised. *)
Lemma empty_table_mean_is_NaN :
  rows (frame_at december_chicago 1%nat) = [] /\
  (trip_duration_stats 1%nat december_chicago).1 = Return tt /\
  stdout (trip_duration_stats 1%nat december_chicago).2
  = [Text "Calculating Trip Duration..."; TotalTravelTime 0;
     MeanTravelTime FNaN; Elapsed; Text RULE] /\
  (trip_duration_stats 1%nat december_chicago).1 <> Raise NoDataError.
Proof.
  vm_compute. repeat split. discriminate.
Qed.

Lemma user_statistics_empty_table_witness :
  user_stats 1%nat december_washington
  = (Return tt,
     with_stdout december_washington
       (stdout december_washington
          ++ [Text "Calculating User Stats..."; Counts "User Types:" []]
          ++ [] ++ [Elapsed; Text RULE])).
Proof.
  apply (user_statistics_empty_table december_washington 1%nat
           (frame_at december_washington 1%nat)).
  - vm_compute. reflexivity.
  - vm_compute. reflexivity.
  - has_column.
  - apply (bool_decide_unpack _). vm_compute. exact I.
Defined.

(** C7, as the claim states it, fails: on the empty December table of a
    city whose file has the [Birth Year] column, [user_stats] prints the
    empty counts and then raises [ValueError], from [int] of the missing
    minimum. *)
Lemma empty_table_birth_year_raises :
  rows (frame_at december_chicago 1%nat) = [] /\
  (user_stats 1%nat december_chicago).1 = Raise ValueError /\
  stdout (user_stats 1%nat december_chicago).2
  = [Text "Calculating User Stats..."; Counts "User Types:" [];
     Counts "Gender Distribution:" []].
Proof. vm_compute. repeat split. Qed.

Lemma filter_keeps_matching_rows_witness :
  exists df' st' d',
    filter_month_day 0%nat "january" "monday" all_trips = (Return df', st') /\
    heap st' !! df' = Some d' /\
    columns d' = columns (frame_at all_trips 0%nat) /\
    rows d' = filter (kept "january" "monday") (rows (frame_at all_trips 0%nat)) /\
    (forall r, r ∈ rows d' <->
               r ∈ rows (frame_at all_trips 0%nat) /\
               ("january" = "all" \/ cell "month" r = VStr "january") /\
               ("monday" = "all" \/ cell "day_of_week" r = VStr "monday")) /\
    ("january" = "all" -> "monday" = "all" ->
     rows d' = rows (frame_at all_trips 0%nat)).
Proof.
  apply (filter_keeps_matching_rows all_trips 0%nat (frame_at all_trips 0%nat)).
  - vm_compute. reflexivity.
  - has_column.
  - has_column.
Defined.

Lemma filter_is_subsequence_witness :
  exists df' st' d',
    filter_month_day 0%nat "february" "all" all_trips = (Return df', st') /\
    heap st' !! df' = Some d' /\
    rows d' `sublist_of` rows (frame_at all_trips 0%nat) /\
    (length (rows d') <= length (rows (frame_at all_trips 0%nat)))%nat /\
    (NoDup (rows (frame_at all_trips 0%nat)) -> NoDup (rows d')).
Proof.
  apply (filter_is_subsequence all_trips 0%nat (frame_at all_trips 0%nat)).
  - vm_compute. reflexivity.
  - has_column.
  - has_column.
Defined.

Lemma frames_written_witness :
  heap (time_stats 1%nat january).2 = heap january /\
  heap (trip_duration_stats 1%nat january).2 = heap january /\
  heap (user_stats 1%nat january).2 = heap january /\
  (forall l, l <> 1%nat ->
     heap (station_stats 1%nat january).2 !! l = heap january !! l) /\
  (exists d', heap (station_stats 1%nat january).2 !! 1%nat = Some d' /\
     length (rows d') = length (rows (frame_at january 1%nat)) /\
     (forall c, c <> COMBINATION ->
        df_getitem d' c = df_getitem (frame_at january 1%nat) c) /\
     ((station_stats 1%nat january).1 = Return tt -> COMBINATION ∈ columns d')).
Proof.
  apply (frames_written january 1%nat (frame_at january 1%nat) "all" "all").
  - vm_compute. reflexivity.
  - has_column.
  - has_column.
Defined.

(** C6, as the claim states it, fails: [station_stats] adds the column
    [Start-End Combination] to the frame it receives (here the January
    trips, frame 1). *)
Lemma station_stats_adds_a_column :
  columns (frame_at january 1%nat)
  = ["Start Time"; "Trip Duration"; "Start Station"; "End Station";
     "User Type"; "month"; "day_of_week"; "hour"] /\
  (station_stats 1%nat january).1 = Return tt /\
  columns (frame_at (station_stats 1%nat january).2 1%nat)
  = ["Start Time"; "Trip Duration"; "Start Station"; "End Station";
     "User Type"; "month"; "day_of_week"; "hour"; "Start-End Combination"] /\
  heap (station_stats 1%nat january).2 <> heap january.
Proof.
  split; [by vm_compute|]. split; [by vm_compute|]. split; [by vm_compute|].
  intros H. apply (f_equal (fun h => length (columns (default (frame_at january 1%nat) (h !! 1%nat))))) in H.
  vm_compute in H. discriminate.
Qed.

(** ** Calendar fields *)

Lemma all_from_spec fuel z p :
  all_from fuel z p = true ->
  forall k, z <= k < z + Z.of_nat fuel -> p k = true.
Proof.
  revert z. induction fuel as [|fuel IH]; intros z H k Hk; [lia|].
  cbn [all_from] in H. apply andb_true_iff in H as [Hz Hrest].
  destruct (decide (k = z)) as [->|Hne]; [done|].
  apply (IH (z + 1)); [done | lia].
Qed.

(** The month computed from a day of the 400-year era is a month: checked
    on each of the 146097 days of the era. *)
Lemma month_of_day_of_era_range doe :
  0 <= doe < 146097 -> 1 <= month_of_day_of_era doe <= 12.
Proof.
  intros Hdoe.
  assert (H : all_from (Z.to_nat 146097) 0
                (fun z => Z.leb 1 (month_of_day_of_era z)
                          && Z.leb (month_of_day_of_era z) 12) = true)
    by (vm_cast_no_check (eq_refl true)).
  pose proof (all_from_spec _ _ _ H doe) as Hk. cbv beta in Hk.
  rewrite Z2Nat.id in Hk by lia.
  rewrite andb_true_iff, !Z.leb_le in Hk. apply Hk. lia.
Qed.

Lemma month_of_range ns : 1 <= month_of ns <= 12.
Proof.
  unfold month_of, month_of_days. apply month_of_day_of_era_range.
  apply Z.mod_pos_bound. lia.
Qed.

Lemma weekday_of_range ns : 0 <= weekday_of ns < 7.
Proof. unfold weekday_of. apply Z.mod_pos_bound. lia. Qed.

Lemma hour_of_range ns : 0 <= hour_of ns <= 23.
Proof.
  unfold hour_of. pose proof (Z.mod_pos_bound (ns / NS_PER_HOUR) 24). lia.
Qed.

(** [month_name().str.lower()] is one of the twelve lowercase names, the
    one at the month's place. *)
Lemma lower_month_name ns :
  lower (month_name_of ns) = nth (Z.to_nat (month_of ns - 1)) MONTH_NAMES "" /\
  lower (month_name_of ns) ∈ MONTH_NAMES.
Proof.
  unfold month_name_of. pose proof (month_of_range ns) as Hm.
  assert (Hcases : exists n, (n < 12)%nat /\ Z.to_nat (month_of ns - 1) = n).
  { exists (Z.to_nat (month_of ns - 1)). split; [lia | done]. }
  destruct Hcases as (n & Hn & ->).
  do 12 (destruct n as [|n]; [split; [reflexivity | clear; set_solver]|]). lia.
Qed.

Lemma lower_day_name ns :
  lower (day_name_of ns) = nth (Z.to_nat (weekday_of ns)) DAY_NAMES "" /\
  lower (day_name_of ns) ∈ DAY_NAMES.
Proof.
  unfold day_name_of. pose proof (weekday_of_range ns) as Hw.
  assert (Hcases : exists n, (n < 7)%nat /\ Z.to_nat (weekday_of ns) = n).
  { exists (Z.to_nat (weekday_of ns)). split; [lia | done]. }
  destruct Hcases as (n & Hn & ->).
  do 7 (destruct n as [|n]; [split; [reflexivity | clear; set_solver]|]). lia.
Qed.

(** ** Loading *)

Lemma getitem_get st df d c s :
  heap st !! df = Some d -> df_getitem d c = Some s ->
  getitem df c st = (Return s, st).
Proof.
  intros H Hs. unfold getitem. rewrite bind_eq, (frame_run _ _ _ H).
  by rewrite Hs.
Qed.

Lemma setitem_run st df d c s :
  heap st !! df = Some d -> length s = length (rows d) ->
  setitem df c s st
  = (Return tt, with_heap st (<[df := put_column d c s]> (heap st))).
Proof.
  intros H Hlen. unfold setitem. rewrite bind_eq, (frame_run _ _ _ H).
  unfold df_setitem. rewrite decide_True by done. rewrite bind_eq. cbn.
  unfold set_frame. by rewrite H.
Qed.

Lemma df_getitem_put_column d c s :
  length s = length (rows d) -> df_getitem (put_column d c s) c = Some s.
Proof.
  intros Hlen. apply (df_setitem_same d). unfold df_setitem.
  by rewrite decide_True.
Qed.

Lemma df_getitem_put_column_ne d c s c' :
  length s = length (rows d) -> c' <> c ->
  df_getitem (put_column d c s) c' = df_getitem d c'.
Proof.
  intros Hlen Hne. apply (df_setitem_other d c s); [|done]. unfold df_setitem.
  by rewrite decide_True.
Qed.

Lemma length_rows_put_column d c s :
  length s = length (rows d) -> length (rows (put_column d c s)) = length (rows d).
Proof. intros Hlen. cbn. rewrite length_zip_with. lia. Qed.

Lemma dt_field_run (f : Z -> value) (t : Series) :
  Forall timestamp_or_missing t ->
  dt_field f t
  = Return ((fun v => match v with VTime ns => f ns | _ => VNaN end) <$> t).
Proof.
  intros Ht. unfold dt_field.
  replace (mapM _ t)
    with (Some ((fun v => match v with VTime ns => f ns | _ => VNaN end) <$> t));
    [done|].
  symmetry. apply mapM_Some. induction Ht as [|v t Hv Ht IH]; cbn.
  - constructor.
  - constructor; [|done]. by destruct v.
Qed.

Lemma str_lower_month_name (t : Series) :
  str_lower ((fun v => match v with
                       | VTime ns => VStr (month_name_of ns)
                       | _ => VNaN
                       end) <$> t)
  = month_cell <$> t.
Proof.
  unfold str_lower. rewrite <- list_fmap_compose. apply list_fmap_ext.
  intros i v _. by destruct v.
Qed.

Lemma str_lower_day_name (t : Series) :
  str_lower ((fun v => match v with
                       | VTime ns => VStr (day_name_of ns)
                       | _ => VNaN
                       end) <$> t)
  = day_cell <$> t.
Proof.
  unfold str_lower. rewrite <- list_fmap_compose. apply list_fmap_ext.
  intros i v _. by destruct v.
Qed.

Section Loading.

Variable read_csv : string -> exn + DataFrame.
Variable parse_datetime : string -> option Z.

Lemma to_datetime_returns (s t : Series) :
  to_datetime parse_datetime s = Return t ->
  length t = length s /\ Forall timestamp_or_missing t.
Proof.
  unfold to_datetime. destruct (mapM _ s) as [r|] eqn:Hr; [|done].
  intros [= <-]. apply mapM_Some in Hr. split.
  - symmetry. by eapply Forall2_length.
  - induction Hr as [|v w s r Hvw Hr IH]; constructor; [|done].
    destruct v; cbn in Hvw; try by inversion Hvw.
    destruct (parse_datetime s0); by inversion Hvw.
Qed.

(** Lines 59-62 on a frame with a [Start Time] column whose cells parse:
    the frame behind [df] becomes [derived d t]. *)
Lemma derive_columns_run st df d (t : Series) :
  heap st !! df = Some d -> "Start Time" ∈ columns d ->
  to_datetime parse_datetime (cell "Start Time" <$> rows d) = Return t ->
  derive_columns parse_datetime df st
  = (Return tt, with_heap st (<[df := derived d t]> (heap st))).
Proof.
  intros Hd Hc Ht. destruct (to_datetime_returns _ _ Ht) as [Hlen Htm].
  rewrite length_fmap in Hlen.
  assert (Hlt : (df < length (heap st))%nat) by by eapply lookup_lt_Some.
  unfold derive_columns.
  rewrite bind_eq, (getitem_run _ _ _ _ Hd Hc).
  rewrite bind_eq, lift_outcome_run, Ht.
  rewrite bind_eq, (setitem_run _ _ _ _ _ Hd Hlen).
  set (d1 := put_column d "Start Time" t).
  set (st1 := with_heap st _).
  assert (Hd1 : heap st1 !! df = Some d1)
    by (cbn; by apply list_lookup_insert_eq).
  assert (Hs1 : df_getitem d1 "Start Time" = Some t)
    by by apply df_getitem_put_column.
  assert (Hn1 : length (rows d1) = length (rows d))
    by by apply length_rows_put_column.
  rewrite bind_eq, (getitem_get _ _ _ _ _ Hd1 Hs1).
  rewrite bind_eq, lift_outcome_run. unfold dt_month_name.
  rewrite (dt_field_run _ _ Htm), str_lower_month_name.
  rewrite bind_eq, (setitem_run _ _ _ _ _ Hd1)
    by (rewrite length_fmap; congruence).
  set (d2 := put_column d1 "month" _).
  set (st2 := with_heap st1 _).
  assert (Hd2 : heap st2 !! df = Some d2).
  { cbn. apply list_lookup_insert_eq. by rewrite length_insert. }
  assert (Hn2 : length (rows d2) = length (rows d)).
  { unfold d2. rewrite length_rows_put_column; [done|].
    rewrite length_fmap. congruence. }
  assert (Hs2 : df_getitem d2 "Start Time" = Some t).
  { unfold d2. rewrite df_getitem_put_column_ne; [done| |done].
    rewrite length_fmap. congruence. }
  rewrite bind_eq, (getitem_get _ _ _ _ _ Hd2 Hs2).
  rewrite bind_eq, lift_outcome_run. unfold dt_day_name.
  rewrite (dt_field_run _ _ Htm), str_lower_day_name.
  rewrite bind_eq, (setitem_run _ _ _ _ _ Hd2)
    by (rewrite length_fmap; congruence).
  set (d3 := put_column d2 "day_of_week" _).
  set (st3 := with_heap st2 _).
  assert (Hd3 : heap st3 !! df = Some d3).
  { cbn. apply list_lookup_insert_eq. by rewrite !length_insert. }
  assert (Hn3 : length (rows d3) = length (rows d)).
  { unfold d3. rewrite length_rows_put_column; [done|].
    rewrite length_fmap. congruence. }
  assert (Hs3 : df_getitem d3 "Start Time" = Some t).
  { unfold d3. rewrite df_getitem_put_column_ne; [done| |done].
    rewrite length_fmap. congruence. }
  rewrite bind_eq, (getitem_get _ _ _ _ _ Hd3 Hs3).
  rewrite bind_eq, lift_outcome_run. unfold dt_hour.
  rewrite (dt_field_run _ _ Htm).
  rewrite (setitem_run _ _ _ _ _ Hd3) by (rewrite length_fmap; congruence).
  f_equal. unfold st3, st2, st1, with_heap. cbn.
  by rewrite !list_insert_insert_eq.
Qed.

Lemma df_getitem_Some d c s :
  df_getitem d c = Some s -> c ∈ columns d /\ cell c <$> rows d = s.
Proof. unfold df_getitem. case_decide; [|done]. by intros [= <-]. Qed.

(** The frame made by lines 59-62: its calendar columns exist, and every
    row has the calendar cells of its start time. *)
Lemma derived_frame d (t : Series) :
  length t = length (rows d) -> Forall timestamp_or_missing t ->
  "month" ∈ columns (derived d t) /\
  "day_of_week" ∈ columns (derived d t) /\
  "hour" ∈ columns (derived d t) /\
  length (rows (derived d t)) = length (rows d) /\
  Forall derived_row (rows (derived d t)).
Proof.
  intros Hlen Htm. unfold derived.
  set (d1 := put_column d "Start Time" t).
  set (d2 := put_column d1 "month" _).
  set (d3 := put_column d2 "day_of_week" _).
  set (d4 := put_column d3 "hour" _).
  assert (Hn1 : length (rows d1) = length (rows d))
    by by apply length_rows_put_column.
  assert (Hn2 : length (rows d2) = length (rows d)).
  { unfold d2. rewrite length_rows_put_column; [done|].
    rewrite length_fmap. congruence. }
  assert (Hn3 : length (rows d3) = length (rows d)).
  { unfold d3. rewrite length_rows_put_column; [done|].
    rewrite length_fmap. congruence. }
  assert (Hn4 : length (rows d4) = length (rows d)).
  { unfold d4. rewrite length_rows_put_column; [done|].
    rewrite length_fmap. congruence. }
  assert (Hl2 : length (month_cell <$> t) = length (rows d1))
    by (rewrite length_fmap; congruence).
  assert (Hl3 : length (day_cell <$> t) = length (rows d2))
    by (rewrite length_fmap; congruence).
  assert (Hl4 : length (hour_cell <$> t) = length (rows d3))
    by (rewrite length_fmap; congruence).
  assert (Hs : df_getitem d4 "Start Time" = Some t).
  { unfold d4, d3, d2. rewrite !df_getitem_put_column_ne by done.
    by apply df_getitem_put_column. }
  assert (Hm : df_getitem d4 "month" = Some (month_cell <$> t)).
  { unfold d4, d3. rewrite !df_getitem_put_column_ne by done.
    by apply df_getitem_put_column. }
  assert (Hw : df_getitem d4 "day_of_week" = Some (day_cell <$> t)).
  { unfold d4. rewrite !df_getitem_put_column_ne by done.
    by apply df_getitem_put_column. }
  assert (Hh : df_getitem d4 "hour" = Some (hour_cell <$> t))
    by by apply df_getitem_put_column.
  apply df_getitem_Some in Hs as [_ Hs], Hm as [Hmc Hm], Hw as [Hwc Hw],
    Hh as [Hhc Hh].
  split; [done|]. split; [done|]. split; [done|]. split; [done|].
  rewrite <- Hs in Hm, Hw, Hh, Htm.
  rewrite <- list_fmap_compose in Hm, Hw, Hh.
  apply Forall_fmap_ext in Hm, Hw, Hh. rewrite Forall_fmap in Htm.
  unfold derived_row. rewrite !Forall_and.
  split; [exact Htm|]. split; [exact Hm|]. split; [exact Hw | exact Hh].
Qed.

(** [load_data] on a city whose file is there, has a [Start Time] column
    and parses: the frame is read, lines 59-62 make [derived d t] of it at
    a new reference, and the filters run on that. *)
Lemma load_data_run st (city month day path : string) d (t : Series) :
  CITY_DATA !! city = Some path -> read_csv path = inr d ->
  "Start Time" ∈ columns d ->
  to_datetime parse_datetime (cell "Start Time" <$> rows d) = Return t ->
  load_data read_csv parse_datetime city month day st
  = filter_month_day (length (heap st)) month day
      (with_heap st (heap st ++ [derived d t])).
Proof.
  intros Hpath Hread Hc Ht. unfold load_data.
  rewrite bind_eq, Hpath. cbn [lift ret].
  rewrite bind_eq, Hread. cbn [lift_result ret].
  rewrite bind_eq. cbn [new_frame].
  set (st1 := {| heap := heap st ++ [d]; stdin := stdin st; stdout := stdout st |}).
  assert (Hd1 : heap st1 !! length (heap st) = Some d)
    by (cbn; by apply list_lookup_middle).
  rewrite bind_eq, (derive_columns_run st1 _ d t Hd1 Hc Ht).
  f_equal. unfold with_heap, st1. cbn. f_equal.
  rewrite insert_app_r_alt by done. by rewrite Nat.sub_diag.
Qed.

(** When [load_data] returns, that was the case. *)
Lemma load_data_returns st (city month day : string) df st' :
  load_data read_csv parse_datetime city month day st = (Return df, st') ->
  exists path d t,
    CITY_DATA !! city = Some path /\ read_csv path = inr d /\
    "Start Time" ∈ columns d /\
    to_datetime parse_datetime (cell "Start Time" <$> rows d) = Return t.
Proof.
  unfold load_data. rewrite bind_eq.
  destruct (CITY_DATA !! city) as [path|] eqn:Hp; [|done]. cbn [lift ret].
  rewrite bind_eq. destruct (read_csv path) as [e|d] eqn:Hr; [done|].
  cbn [lift_result ret]. rewrite bind_eq. cbn [new_frame].
  set (st1 := {| heap := heap st ++ [d]; stdin := stdin st; stdout := stdout st |}).
  assert (Hd1 : heap st1 !! length (heap st) = Some d)
    by (cbn; by apply list_lookup_middle).
  rewrite bind_eq. unfold derive_columns. rewrite bind_eq.
  destruct (decide ("Start Time" ∈ columns d)) as [Hc|Hc].
  2:{ by rewrite (getitem_missing _ _ _ _ Hd1 Hc). }
  rewrite (getitem_run _ _ _ _ Hd1 Hc).
  rewrite bind_eq, lift_outcome_run.
  destruct (to_datetime parse_datetime (cell "Start Time" <$> rows d))
    as [t| |] eqn:Ht; [|done..].
  intros _. by exists path, d, t.
Qed.

Lemma filter_none {A} (P : A -> Prop) `{!forall x, Decision (P x)} (l : list A) :
  Forall (fun x => ~ P x) l -> filter P l = [].
Proof.
  induction 1 as [|x l Hx Hl IH]; [done|].
  by rewrite filter_cons, decide_False.
Qed.

(** C3 (as amended).  A month or day that is neither "all" nor one of the
    recognised names is not rejected: whenever the city's data load,
    [load_data] with such a value returns as well, and the table it
    returns has no rows, since no row carries that value.  (The prompt
    loop of [get_filters] is what keeps such values from [load_data].) *)
Theorem unrecognised_filter_selects_nothing st (city month day : string) df0 st0 :
  load_data read_csv parse_datetime city "all" "all" st = (Return df0, st0) ->
  (month <> "all" /\ month ∉ MONTH_NAMES) \/
  (day <> "all" /\ day ∉ DAY_NAMES) ->
  exists df st' d,
    load_data read_csv parse_datetime city month day st = (Return df, st') /\
    heap st' !! df = Some d /\
    rows d = [].
Proof.
  intros Hload Hbad.
  destruct (load_data_returns _ _ _ _ _ _ Hload) as (path & d & t & Hp & Hr & Hc & Ht).
  rewrite (load_data_run st city month day path d t Hp Hr Hc Ht).
  destruct (to_datetime_returns _ _ Ht) as [Hlen Htm].
  rewrite length_fmap in Hlen.
  destruct (derived_frame d t Hlen Htm) as (Hm & Hw & _ & _ & Hrows).
  set (st1 := with_heap st (heap st ++ [derived d t])).
  assert (Hd1 : heap st1 !! length (heap st) = Some (derived d t))
    by (cbn; by apply list_lookup_middle).
  destruct (filter_month_day_run st1 _ _ month day Hd1 Hm Hw)
    as (df & h' & Hrun & Hd' & _).
  eexists df, _, _. split; [exact Hrun|]. split; [exact Hd'|]. cbn.
  apply filter_none. eapply Forall_impl; [exact Hrows|].
  intros r (Htr & Hmr & Hwr & _) [Hkm Hkd].
  destruct Hbad as [[Hne Hout]|[Hne Hout]].
  - destruct Hkm as [?|Hkm]; [done|]. rewrite Hmr in Hkm.
    destruct (cell "Start Time" r); try done.
    injection Hkm as <-. apply Hout, lower_month_name.
  - destruct Hkd as [?|Hkd]; [done|]. rewrite Hwr in Hkd.
    destruct (cell "Start Time" r); try done.
    injection Hkd as <-. apply Hout, lower_day_name.
Qed.

(** C9 (as amended).  In every row of a table that [load_data] returns,
    the start time is a timestamp or missing, and the calendar cells are
    functions of the start-time cell alone ([month_cell], [day_cell],
    [hour_cell]).  For a start time [ns] the month is the full lowercase
    month name, the day of week the full lowercase day name, and the hour
    an integer from 0 to 23; for a missing start time (a blank cell of
    the file) the month, the day of week and the hour are missing. *)
Theorem calendar_cells_of_start_time st (city month day : string) df st' :
  load_data read_csv parse_datetime city month day st = (Return df, st') ->
  exists d,
    heap st' !! df = Some d /\
    forall r, r ∈ rows d ->
      cell "month" r = month_cell (cell "Start Time" r) /\
      cell "day_of_week" r = day_cell (cell "Start Time" r) /\
      cell "hour" r = hour_cell (cell "Start Time" r) /\
      (forall ns, cell "Start Time" r = VTime ns ->
        cell "month" r = VStr (lower (month_name_of ns)) /\
        lower (month_name_of ns) ∈ MONTH_NAMES /\
        cell "day_of_week" r = VStr (lower (day_name_of ns)) /\
        lower (day_name_of ns) ∈ DAY_NAMES /\
        cell "hour" r = VInt (hour_of ns) /\
        0 <= hour_of ns <= 23) /\
      ((exists ns, cell "Start Time" r = VTime ns) \/
       cell "Start Time" r = VNaN) /\
      (cell "Start Time" r = VNaN ->
       cell "month" r = VNaN /\ cell "day_of_week" r = VNaN /\
       cell "hour" r = VNaN).
Proof.
  intros Hload.
  destruct (load_data_returns _ _ _ _ _ _ Hload) as (path & d & t & Hp & Hr & Hc & Ht).
  rewrite (load_data_run st city month day path d t Hp Hr Hc Ht) in Hload.
  destruct (to_datetime_returns _ _ Ht) as [Hlen Htm].
  rewrite length_fmap in Hlen.
  destruct (derived_frame d t Hlen Htm) as (Hm & Hw & _ & _ & Hrows).
  set (st1 := with_heap st (heap st ++ [derived d t])) in *.
  assert (Hd1 : heap st1 !! length (heap st) = Some (derived d t))
    by (cbn; by apply list_lookup_middle).
  destruct (filter_month_day_run st1 _ _ month day Hd1 Hm Hw)
    as (df' & h' & Hrun & Hd' & _).
  rewrite Hrun in Hload. injection Hload as <- <-.
  eexists. split; [exact Hd'|]. cbn.
  intros r [_ Hr']%list_elem_of_filter.
  rewrite Forall_forall in Hrows. destruct (Hrows r Hr') as (Hts & Hmr & Hwr & Hhr).
  split; [done|]. split; [done|]. split; [done|]. split; [|split].
  - intros ns Hns. rewrite Hmr, Hwr, Hhr, Hns. cbn.
    split; [done|]. split; [apply lower_month_name|].
    split; [done|]. split; [apply lower_day_name|].
    split; [done|]. apply hour_of_range.
  - destruct (cell "Start Time" r) as [a|z|ns|]; try done;
      [left; by exists ns | by right].
  - intros Hna. by rewrite Hmr, Hwr, Hhr, Hna.
Qed.

End Loading.

(** ** The order of values and the sorted modes *)

Lemma string_leb_refl (a : string) : String.leb a a = true.
Proof.
  unfold String.leb. replace (String.compare a a) with Eq; [done|].
  symmetry. induction a as [|x a IH]; [done|]. cbn.
  unfold Ascii.compare. by rewrite N.compare_refl.
Qed.

Lemma string_leb_trans (a b c : string) :
  String.leb a b = true -> String.leb b c = true -> String.leb a c = true.
Proof.
  unfold String.leb. revert b c.
  induction a as [|x a IH]; intros [|y b] [|z c]; cbn; try done.
  unfold Ascii.compare.
  destruct (N.compare_spec (N_of_ascii x) (N_of_ascii y)) as [Hxy|Hxy|Hxy],
    (N.compare_spec (N_of_ascii y) (N_of_ascii z)) as [Hyz|Hyz|Hyz],
    (N.compare_spec (N_of_ascii x) (N_of_ascii z)) as [Hxz|Hxz|Hxz];
    try done; try lia.
  apply IH.
Qed.

Lemma value_leb_refl v : value_leb v v = true.
Proof.
  destruct v; cbn; [apply string_leb_refl | | | done]; apply Z.leb_refl.
Qed.

Lemma value_leb_trans u v w :
  value_leb u v = true -> value_leb v w = true -> value_leb u w = true.
Proof.
  destruct u, v, w; cbn; try done; rewrite ?Z.leb_le; try lia.
  apply string_leb_trans.
Qed.

Lemma value_leb_total v w :
  same_type v w = true -> value_leb v w = true \/ value_leb w v = true.
Proof.
  destruct v as [a|a|a|], w as [b|b|b|]; cbn; try done; intros _.
  - apply String.leb_total.
  - rewrite !Z.leb_le. lia.
  - rewrite !Z.leb_le. lia.
  - by left.
Qed.

Lemma same_type_sym v w : same_type v w = same_type w v.
Proof. by destruct v, w. Qed.

Lemma same_type_trans u v w :
  same_type u v = true -> same_type v w = true -> same_type u w = true.
Proof. by destruct u, v, w. Qed.

Lemma homogeneous_pairs (l : Series) :
  homogeneous l = true <->
  forall v w, v ∈ l -> w ∈ l -> same_type v w = true.
Proof.
  destruct l as [|x l]; cbn.
  { split; [intros _ v w Hv | done]. by apply elem_of_nil in Hv. }
  rewrite forallb_forall. split.
  - intros H v w Hv Hw.
    assert (Hx : forall u, u ∈ x :: l -> same_type x u = true).
    { intros u [->|Hu]%elem_of_cons; [by destruct x|].
      apply H. by apply list_elem_of_In. }
    apply same_type_trans with x; [|by apply Hx].
    rewrite same_type_sym. by apply Hx.
  - intros H u Hu. apply H; [left|right]. by apply list_elem_of_In.
Qed.

Lemma homogeneous_subseteq (l k : Series) :
  k ⊆ l -> homogeneous l = true -> homogeneous k = true.
Proof. rewrite !homogeneous_pairs. intros Hkl H v w Hv Hw. apply H; auto. Qed.

Lemma elem_of_insert_sorted x v (l : Series) :
  x ∈ insert_sorted v l <-> x = v \/ x ∈ l.
Proof.
  induction l as [|w l IH]; cbn.
  - rewrite list_elem_of_singleton, elem_of_nil. tauto.
  - destruct (value_leb v w).
    + by rewrite elem_of_cons.
    + rewrite !elem_of_cons, IH. tauto.
Qed.

Lemma elem_of_sort_values x (l : Series) : x ∈ sort_values l <-> x ∈ l.
Proof.
  induction l as [|v l IH]; [done|]. cbn.
  rewrite elem_of_insert_sorted, elem_of_cons, IH. tauto.
Qed.

(** The first of the sorted values is below them all. *)
Lemma sort_values_head (l : Series) m rest :
  homogeneous l = true -> sort_values l = m :: rest ->
  forall x, x ∈ l -> value_leb m x = true.
Proof.
  rewrite homogeneous_pairs. revert m rest.
  induction l as [|v l IH]; intros m rest Hty Hsort x Hx; [done|].
  cbn in Hsort.
  assert (Hty' : forall a b, a ∈ l -> b ∈ l -> same_type a b = true).
  { intros a b Ha Hb. apply Hty; by right. }
  destruct (sort_values l) as [|w sl] eqn:Hsl.
  - assert (l = []) as ->.
    { destruct l as [|u l]; [done|].
      assert (u ∈ sort_values (u :: l)) as Hu
        by (apply elem_of_sort_values; left).
      rewrite Hsl in Hu. by apply elem_of_nil in Hu. }
    cbn in Hsort. injection Hsort as <- <-.
    apply list_elem_of_singleton in Hx as ->. apply value_leb_refl.
  - specialize (IH w sl Hty' eq_refl).
    assert (Hw : w ∈ l) by (apply elem_of_sort_values; rewrite Hsl; left).
    cbn in Hsort. destruct (value_leb v w) eqn:Hvw.
    + injection Hsort as <- <-.
      apply elem_of_cons in Hx as [->|Hx]; [apply value_leb_refl|].
      eapply value_leb_trans; [exact Hvw | by apply IH].
    + injection Hsort as <- <-.
      apply elem_of_cons in Hx as [->|Hx]; [|by apply IH].
      destruct (value_leb_total v w) as [H|H]; [|congruence|done].
      apply Hty; [left | by right].
Qed.

(** ** The most frequent values *)

Lemma elem_of_unique x (l : Series) : x ∈ unique l <-> x ∈ l.
Proof.
  induction l as [|v l IH]; [done|]. cbn.
  rewrite !elem_of_cons, list_elem_of_filter, IH.
  destruct (decide (x = v)); tauto.
Qed.

Lemma elem_of_dropna x (s : Series) : x ∈ dropna s <-> x <> VNaN /\ x ∈ s.
Proof. unfold dropna. by rewrite list_elem_of_filter. Qed.

Lemma occurrences_dropna x (s : Series) :
  x <> VNaN -> occurrences x (dropna s) = occurrences x s.
Proof.
  intros Hx. unfold occurrences, dropna. rewrite list_filter_filter.
  f_equal. apply list_filter_iff. intros w. unfold notna. split; [tauto|].
  intros ->. done.
Qed.

(** The count that [htable_mode] selects. *)
Lemma elem_of_htable_mode x (s : Series) :
  x ∈ htable_mode s <->
  x ∈ dropna s /\
  occurrences x (dropna s)
  = max_list ((fun v => occurrences v (dropna s)) <$> unique (dropna s)).
Proof.
  unfold htable_mode, value_count. cbn zeta.
  rewrite <- list_fmap_compose. split.
  - intros ([y n] & Hx & Hp)%list_elem_of_fmap.
    apply list_elem_of_filter in Hp as [Hn Hp].
    apply list_elem_of_fmap in Hp as (v & Heq & Hv).
    cbn [fst snd] in Hx, Hn. injection Heq as -> ->. subst x.
    split; [by apply (proj1 (elem_of_unique _ _))|].
    rewrite Hn. f_equal.
  - intros [Hx Hn]. apply list_elem_of_fmap.
    exists (x, occurrences x (dropna s)). split; [done|].
    apply list_elem_of_filter. split.
    + cbn [snd]. rewrite Hn. f_equal.
    + apply list_elem_of_fmap. exists x. split; [done|].
      by apply (proj2 (elem_of_unique _ _)).
Qed.

(** A value that no other value outnumbers is among the modes, and every
    mode occurs as often as it does. *)
Lemma htable_mode_most_frequent (s : Series) v :
  v ∈ s -> v <> VNaN ->
  (forall w, w <> VNaN -> (occurrences w s <= occurrences v s)%nat) ->
  v ∈ htable_mode s /\
  forall m, m ∈ htable_mode s ->
            m ∈ s /\ m <> VNaN /\ occurrences m s = occurrences v s.
Proof.
  intros Hv Hna Hmax.
  set (counts := (fun v => occurrences v (dropna s)) <$> unique (dropna s)).
  assert (Hvd : v ∈ dropna s) by by apply elem_of_dropna.
  assert (Htop : max_list counts = occurrences v (dropna s)).
  { apply Nat.le_antisymm.
    - assert (Hne : counts <> []).
      { unfold counts. intros Hnil%fmap_nil_inv.
        apply (proj2 (elem_of_unique _ _)) in Hvd. rewrite Hnil in Hvd.
        by apply elem_of_nil in Hvd. }
      apply max_list_elem_of in Hne.
      apply list_elem_of_fmap in Hne as (w & -> & Hw).
      apply (proj1 (elem_of_unique _ _)), elem_of_dropna in Hw as [Hw _].
      rewrite !occurrences_dropna by done. by apply Hmax.
    - apply max_list_elem_of_le. apply list_elem_of_fmap.
      exists v. split; [done|]. by apply (proj2 (elem_of_unique _ _)). }
  split.
  - apply elem_of_htable_mode. split; [done|]. by rewrite <- Htop.
  - intros m [Hm Hn]%elem_of_htable_mode.
    apply elem_of_dropna in Hm as [Hmna Hm].
    split; [done|]. split; [done|].
    fold counts in Hn. rewrite Htop in Hn.
    by rewrite !occurrences_dropna in Hn.
Qed.

Lemma htable_mode_subseteq (s : Series) : htable_mode s ⊆ dropna s.
Proof. intros x Hx. by apply elem_of_htable_mode in Hx as [? _]. Qed.

(** The expression [s.mode()[0]] of [display_statistics] and [user_stats]
    on a series whose values are of one type: it is the smallest of the
    most frequent values. *)
Lemma most_common_value (s : Series) v :
  homogeneous (dropna s) = true ->
  v ∈ s -> v <> VNaN ->
  (forall w, w <> VNaN -> (occurrences w s <= occurrences v s)%nat) ->
  exists m,
    Series_getitem (Series_mode s) 0 = Return m /\
    m ∈ s /\ m <> VNaN /\
    occurrences m s = occurrences v s /\
    value_leb m v = true.
Proof.
  intros Hty Hv Hna Hmax.
  destruct (htable_mode_most_frequent s v Hv Hna Hmax) as [Hin Hall].
  assert (Hty' : homogeneous (htable_mode s) = true)
    by (eapply homogeneous_subseteq; [apply htable_mode_subseteq | done]).
  unfold Series_mode, np_sort. rewrite Hty'.
  destruct (sort_values (htable_mode s)) as [|m rest] eqn:Hsort.
  { apply elem_of_sort_values in Hin. rewrite Hsort in Hin.
    by apply elem_of_nil in Hin. }
  exists m. split; [done|].
  assert (Hm : m ∈ htable_mode s)
    by (apply elem_of_sort_values; rewrite Hsort; left).
  destruct (Hall m Hm) as (? & ? & ?).
  repeat split; try done.
  by apply (sort_values_head (htable_mode s) m rest).
Qed.

Lemma display_statistics_run st df d (column stat_name : string) (s : Series) m :
  heap st !! df = Some d -> df_getitem d column = Some s ->
  Series_getitem (Series_mode s) 0 = Return m ->
  display_statistics df column stat_name st
  = (Return tt, with_stdout st (stdout st ++ [MostCommon stat_name m])).
Proof.
  intros Hd Hs Hm. unfold display_statistics.
  rewrite bind_eq, (getitem_get _ _ _ _ _ Hd Hs).
  by rewrite bind_eq, lift_outcome_run, Hm.
Qed.

Lemma numbers_elem_of (s : Series) l y :
  numbers s = Some l -> VInt y ∈ s -> y ∈ l.
Proof.
  revert l. induction s as [|v s IH]; intros l Hl Hy.
  { by apply elem_of_nil in Hy. }
  destruct v; cbn in Hl; try done.
  - destruct (numbers s) as [l'|]; [|done]. injection Hl as <-.
    apply elem_of_cons in Hy as [[= ->]|Hy]; [left | right; by apply IH].
  - apply elem_of_cons in Hy as [?|Hy]; [done | by apply IH].
Qed.

Lemma numbers_dropna (s : Series) l v :
  numbers s = Some l -> v ∈ dropna s -> exists z, v = VInt z.
Proof.
  revert l. induction s as [|w s IH]; intros l Hl Hv.
  { by apply elem_of_nil in Hv. }
  apply elem_of_dropna in Hv as [Hna Hv].
  destruct w; cbn in Hl; try done.
  - destruct (numbers s) as [l'|] eqn:Hl'; [|done].
    apply elem_of_cons in Hv as [->|Hv]; [by eexists|].
    apply (IH l' eq_refl). by apply elem_of_dropna.
  - apply elem_of_cons in Hv as [->|Hv]; [done|].
    apply (IH l Hl). by apply elem_of_dropna.
Qed.

Lemma numbers_homogeneous (s : Series) l :
  numbers s = Some l -> homogeneous (dropna s) = true.
Proof.
  intros Hl. apply homogeneous_pairs.
  intros v w [? ->]%(numbers_dropna s l) [? ->]%(numbers_dropna s l); done.
Qed.

(** [user_stats] on a frame with a numeric [Birth Year] column whose
    most common value is [y]: the last year it prints is [y]. *)
Lemma user_stats_birth_year st df d (s : Series) l y :
  heap st !! df = Some d -> "User Type" ∈ columns d ->
  df_getitem d "Birth Year" = Some s -> numbers s = Some l ->
  Series_getitem (Series_mode s) 0 = Return (VInt y) ->
  VInt y ∈ s ->
  exists out,
    user_stats df st
    = (Return tt,
       with_stdout st
         (stdout st ++ out
            ++ [YearOfBirth "Most Common Year of Birth:" y; Elapsed; Text RULE])).
Proof.
  intros Hd Hu Hs Hl Hm Hy.
  pose proof (numbers_elem_of _ _ _ Hl Hy) as Hyl.
  destruct l as [|z l]; [by apply elem_of_nil in Hyl|].
  destruct (df_getitem_Some _ _ _ Hs) as [Hb _].
  set (gender := if bool_decide ("Gender" ∈ columns d)
                 then [Counts "Gender Distribution:"
                         (Series_value_counts (cell "Gender" <$> rows d))]
                 else []).
  exists ([Text "Calculating User Stats...";
           Counts "User Types:" (Series_value_counts (cell "User Type" <$> rows d))]
          ++ gender
          ++ [YearOfBirth "Earliest Year of Birth:" (foldr Z.min z l);
              YearOfBirth "Most Recent Year of Birth:" (foldr Z.max z l)]).
  unfold user_stats.
  rewrite bind_eq, print_run.
  rewrite bind_eq, (getitem_run _ _ d) by done.
  rewrite bind_eq, print_run.
  rewrite bind_eq, (frame_run _ _ d) by done.
  rewrite bind_eq, when_run.
  assert (Hrest : forall st1, heap st1 !! df = Some d ->
    (d0 <- frame df;;
     when (bool_decide ("Birth Year" ∈ columns d0))
       (s0 <- getitem df "Birth Year";;
        lo <- lift_outcome (Series_min s0);;
        y0 <- lift_outcome (py_int lo);;
        print (YearOfBirth "Earliest Year of Birth:" y0);;;
        s1 <- getitem df "Birth Year";;
        hi <- lift_outcome (Series_max s1);;
        y1 <- lift_outcome (py_int hi);;
        print (YearOfBirth "Most Recent Year of Birth:" y1);;;
        s2 <- getitem df "Birth Year";;
        mo <- lift_outcome (Series_getitem (Series_mode s2) 0);;
        y2 <- lift_outcome (py_int mo);;
        print (YearOfBirth "Most Common Year of Birth:" y2));;;
     print Elapsed;;; print (Text RULE)) st1
    = (Return tt,
       with_stdout st1
         (stdout st1
            ++ [YearOfBirth "Earliest Year of Birth:" (foldr Z.min z l);
                YearOfBirth "Most Recent Year of Birth:" (foldr Z.max z l);
                YearOfBirth "Most Common Year of Birth:" y; Elapsed; Text RULE]))).
  { intros st1 Hd1.
    rewrite bind_eq, (frame_run _ _ d) by done.
    rewrite bind_eq, when_run, bool_decide_eq_true_2 by done.
    rewrite bind_eq, (getitem_get _ _ _ _ _ Hd1 Hs).
    rewrite bind_eq, lift_outcome_run. unfold Series_min. rewrite Hl.
    rewrite bind_eq, lift_outcome_run. cbn [py_int].
    rewrite bind_eq, print_run.
    rewrite bind_eq, (getitem_get _ _ d _ s) by done.
    rewrite bind_eq, lift_outcome_run. unfold Series_max. rewrite Hl.
    rewrite bind_eq, lift_outcome_run. cbn [py_int].
    rewrite bind_eq, print_run.
    rewrite bind_eq, (getitem_get _ _ d _ s) by done.
    rewrite bind_eq, lift_outcome_run, Hm.
    rewrite bind_eq, lift_outcome_run. cbn [py_int].
    rewrite print_run.
    rewrite bind_eq, print_run. rewrite print_run.
    unfold with_stdout; cbn. by rewrite <- !app_assoc. }
  unfold gender. destruct (bool_decide ("Gender" ∈ columns d)) eqn:Hg.
  - apply bool_decide_eq_true_1 in Hg.
    rewrite bind_eq, (getitem_run _ _ d) by done.
    rewrite print_run. rewrite Hrest by done.
    unfold with_stdout; cbn. by rewrite <- !app_assoc.
  - rewrite Hrest by done.
    unfold with_stdout; cbn. by rewrite <- !app_assoc.
Qed.

(** C10.  When several values of a column are tied for the highest count,
    the statistic reports the smallest of them in the order of the
    column's values (numbers by value, text by code point): for every
    value [v] that no other value outnumbers, the reported value [m]
    occurs as often as [v] and is at most [v].  This is what
    [display_statistics] prints for a column, and what [user_stats] prints
    as the most common year of birth. *)
Theorem most_common_is_smallest_most_frequent (s : Series) v :
  homogeneous (dropna s) = true ->
  v ∈ s -> v <> VNaN ->
  (forall w, w <> VNaN -> (occurrences w s <= occurrences v s)%nat) ->
  exists m,
    m ∈ s /\ m <> VNaN /\
    occurrences m s = occurrences v s /\
    value_leb m v = true /\
    (forall st df d (column stat_name : string),
       heap st !! df = Some d -> df_getitem d column = Some s ->
       display_statistics df column stat_name st
       = (Return tt, with_stdout st (stdout st ++ [MostCommon stat_name m]))) /\
    (forall st df d l,
       heap st !! df = Some d -> "User Type" ∈ columns d ->
       df_getitem d "Birth Year" = Some s -> numbers s = Some l ->
       exists y out,
         m = VInt y /\
         user_stats df st
         = (Return tt,
            with_stdout st
              (stdout st ++ out
                 ++ [YearOfBirth "Most Common Year of Birth:" y; Elapsed;
                     Text RULE]))).
Proof.
  intros Hty Hv Hna Hmax.
  destruct (most_common_value s v Hty Hv Hna Hmax)
    as (m & Hm & Hin & Hmna & Hocc & Hle).
  exists m. repeat split; try done.
  - intros st df d column stat_name Hd Hs.
    by apply display_statistics_run with d s.
  - intros st df d l Hd Hu Hs Hl.
    assert (Hint : exists y, m = VInt y).
    { apply (numbers_dropna s l); [done|]. by apply elem_of_dropna. }
    destruct Hint as [y ->].
    destruct (user_stats_birth_year st df d s l y Hd Hu Hs Hl Hm Hin) as [out Hrun].
    by exists y, out.
Qed.

(** ** Raw data, page by page *)

Lemma get_user_input_consumes prompt valid_inputs st a st' :
  get_user_input prompt valid_inputs st = (Return a, st') ->
  (length (stdin st') < length (stdin st))%nat.
Proof.
  unfold get_user_input.
  destruct (get_user_input_loop _ _ _ _) as [[r inp] out] eqn:Hloop.
  intros [= -> <-]. cbn. revert Hloop. generalize (stdout st).
  induction (stdin st) as [|x rest IH]; intros out0 Hloop; cbn in Hloop.
  - by injection Hloop.
  - case_decide.
    + injection Hloop as _ <- _. cbn. lia.
    + apply IH in Hloop. cbn. lia.
Qed.

Lemma get_user_input_loop_answers prompt valid_inputs inp out :
  (get_user_input_loop prompt valid_inputs inp out).1.1 <> Diverge.
Proof.
  revert out. induction inp as [|x inp IH]; intros out; cbn; [done|].
  case_decide; [done | apply IH].
Qed.

(** The loop of [display_raw_data] ends: with more fuel than lines to
    read, the fuel is not exhausted. *)
Lemma display_raw_data_loop_ends fuel df row_index batch_size st :
  (length (stdin st) < fuel)%nat ->
  (display_raw_data_loop fuel df row_index batch_size st).1 <> Diverge.
Proof.
  revert row_index st. induction fuel as [|fuel IH]; intros row_index st Hfuel;
    [lia|].
  cbn [display_raw_data_loop]. rewrite bind_eq.
  destruct (get_user_input RAW_DATA_PROMPT YES_NO st) as [[a|e|] st1] eqn:Hin.
  - apply get_user_input_consumes in Hin as Hlt.
    pose proof (keeps_get_user_input RAW_DATA_PROMPT YES_NO st) as Hh.
    rewrite Hin in Hh. case_decide; [|done].
    rewrite bind_eq. unfold frame. destruct (heap st1 !! df); [|done].
    rewrite bind_eq, print_run. apply IH. cbn. lia.
  - done.
  - exfalso. unfold get_user_input in Hin.
    pose proof (get_user_input_loop_answers RAW_DATA_PROMPT YES_NO
                  (stdin st) (stdout st)) as Hloop.
    destruct (get_user_input_loop _ _ _ _) as [[r inp] out].
    by injection Hin as -> _.
Qed.

Lemma display_raw_data_ends df batch_size st :
  (display_raw_data df batch_size st).1 <> Diverge.
Proof. apply display_raw_data_loop_ends. lia. Qed.

(** After [k] answers of yes and one of no, [display_raw_data] has
    printed the first [k] pages, one after the other, and returns, however
    far the pages lie beyond the end of the table. *)
Lemma display_raw_data_loop_pages fuel df d (k : nat) rest row_index batch_size st :
  heap st !! df = Some d ->
  stdin st = replicate k "yes" ++ "no" :: rest ->
  (k < fuel)%nat ->
  display_raw_data_loop fuel df row_index batch_size st
  = (Return tt,
     {| heap := heap st; stdin := rest;
        stdout := stdout st ++ pages d k row_index batch_size
                    ++ [Text RAW_DATA_PROMPT] |}).
Proof.
  revert k row_index st. induction fuel as [|fuel IH];
    intros k row_index st Hd Hin Hfuel; [lia|].
  cbn [display_raw_data_loop]. rewrite bind_eq.
  unfold get_user_input. rewrite Hin. destruct k as [|k].
  - cbn [replicate app get_user_input_loop].
    change (lower (strip "no")) with "no".
    rewrite decide_True by (clear; set_solver).
    rewrite decide_False by done. done.
  - cbn [replicate app get_user_input_loop].
    change (lower (strip "yes")) with "yes".
    rewrite decide_True by (clear; set_solver).
    rewrite decide_True by done.
    rewrite bind_eq, (frame_run _ _ d) by done.
    rewrite bind_eq, print_run.
    erewrite (IH k); [|exact Hd|reflexivity|lia].
    cbn. f_equal. f_equal. rewrite <- !app_assoc. done.
Qed.

Lemma rows_page d (offset size : Z) :
  0 <= offset -> 0 <= size ->
  rows (page d offset size)
  = take (Z.to_nat size) (drop (Z.to_nat offset) (rows d)).
Proof.
  intros Ho Hs. unfold page, df_iloc, slice_bound. cbn [rows].
  set (n := Z.of_nat (length (rows d))).
  assert (Hn : length (rows d) = Z.to_nat n) by (unfold n; lia).
  destruct (Z.ltb_spec offset 0) as [?|_]; [lia|].
  destruct (Z.ltb_spec (offset + size) 0) as [?|_]; [lia|].
  destruct (Z_lt_le_dec offset n) as [Hlt|Hge].
  - rewrite (Z.min_l offset n) by lia.
    destruct (Z_le_gt_dec (offset + size) n) as [Hin|Hout].
    + rewrite Z.min_l by lia. do 2 f_equal. lia.
    + rewrite Z.min_r by lia. rewrite !take_ge; [done|..];
        rewrite length_drop; lia.
  - rewrite (Z.min_r offset n), Z.min_r by lia.
    rewrite Z.sub_diag. cbn [Z.to_nat take].
    rewrite (drop_ge (rows d) (Z.to_nat offset)) by lia. by rewrite take_nil.
Qed.

(** C8.  For an offset and a size that are not negative, the page is the
    run of rows from [offset] up to [offset + size], as far as the table
    goes: the rows at those positions in their order; none when the offset
    is at or past the end; the remaining rows when the window reaches past
    the end.  [display_raw_data] prints such pages one after the other and
    returns, whatever the number of pages asked for. *)
Theorem page_is_clipped_slice d (offset size : Z) :
  0 <= offset -> 0 <= size ->
  columns (page d offset size) = columns d /\
  rows (page d offset size)
  = take (Z.to_nat size) (drop (Z.to_nat offset) (rows d)) /\
  (forall (i : nat) r,
     rows (page d offset size) !! i = Some r <->
     (i < Z.to_nat size)%nat /\ rows d !! (Z.to_nat offset + i)%nat = Some r) /\
  (Z.of_nat (length (rows d)) <= offset -> rows (page d offset size) = []) /\
  (Z.of_nat (length (rows d)) <= offset + size ->
   rows (page d offset size) = drop (Z.to_nat offset) (rows d)) /\
  (forall st df (k : nat) rest,
     heap st !! df = Some d ->
     stdin st = replicate k "yes" ++ "no" :: rest ->
     display_raw_data df size st
     = (Return tt,
        {| heap := heap st; stdin := rest;
           stdout := stdout st ++ pages d k 0 size ++ [Text RAW_DATA_PROMPT] |})).
Proof.
  intros Ho Hs. pose proof (rows_page d offset size Ho Hs) as Hrows.
  split; [done|]. split; [done|]. split; [|split; [|split]].
  - intros i r. rewrite Hrows, lookup_take_Some, lookup_drop. tauto.
  - intros Hend. rewrite Hrows, drop_ge by lia. by rewrite take_nil.
  - intros Hend. rewrite Hrows. apply take_ge. rewrite length_drop. lia.
  - intros st df k rest Hd Hin. unfold display_raw_data.
    apply display_raw_data_loop_pages; [done..|].
    rewrite Hin, length_app, length_replicate. cbn. lia.
Qed.

(** ** The remaining theorems on the small data set *)

Lemma unrecognised_filter_selects_nothing_witness :
  exists df st' d,
    load_data files parse_iso "washington" "janvier" "all" (start [])
    = (Return df, st') /\
    heap st' !! df = Some d /\
    rows d = [].
Proof.
  apply (unrecognised_filter_selects_nothing files parse_iso (start [])
           "washington" "janvier" "all" 0%nat all_trips).
  - vm_compute. reflexivity.
  - left. split; [discriminate|]. apply (bool_decide_unpack _). vm_compute. exact I.
Defined.

(** C3, as the claim states it, fails: the month "January", which is
    neither "all" nor one of the lowercase names, is not rejected;
    [load_data] returns a table, without rows. *)
Lemma unrecognised_month_is_not_rejected :
  "January" <> "all" /\ ("January" ∉ MONTH_NAMES) /\
  (load_data files parse_iso "washington" "January" "all" (start [])).1
  = Return 1%nat /\
  rows (frame_at
          (load_data files parse_iso "washington" "January" "all" (start [])).2
          1%nat) = [] /\
  (load_data files parse_iso "washington" "January" "all" (start [])).1
  <> Raise InvalidFilterError.
Proof.
  split; [discriminate|]. split.
  { apply (bool_decide_unpack _). vm_compute. exact I. }
  vm_compute. repeat split. discriminate.
Qed.

Lemma page_is_clipped_slice_witness :
  rows (page (frame_at all_trips 0%nat) 5 5) = [].
Proof.
  apply (page_is_clipped_slice (frame_at all_trips 0%nat) 5 5); [lia..|].
  vm_compute. discriminate.
Defined.

(** The two pages of the specification's example: on the table of three
    rows, the page at 0 of size 5 has the three rows and the page at 5 has
    none. *)
Lemma first_page_has_all_three_rows :
  rows (page (frame_at all_trips 0%nat) 0 5) = rows (frame_at all_trips 0%nat) /\
  length (rows (frame_at all_trips 0%nat)) = 3%nat.
Proof.
  assert (Hlen : length (rows (frame_at all_trips 0%nat)) = 3%nat)
    by (vm_compute; reflexivity).
  split; [|done]. rewrite rows_page by lia. cbn [Z.to_nat drop].
  apply take_ge. rewrite Hlen. cbn. lia.
Qed.

Lemma calendar_cells_of_start_time_witness :
  exists d,
    heap january !! 1%nat = Some d /\
    forall r, r ∈ rows d ->
      cell "month" r = month_cell (cell "Start Time" r) /\
      cell "day_of_week" r = day_cell (cell "Start Time" r) /\
      cell "hour" r = hour_cell (cell "Start Time" r) /\
      (forall ns, cell "Start Time" r = VTime ns ->
        cell "month" r = VStr (lower (month_name_of ns)) /\
        lower (month_name_of ns) ∈ MONTH_NAMES /\
        cell "day_of_week" r = VStr (lower (day_name_of ns)) /\
        lower (day_name_of ns) ∈ DAY_NAMES /\
        cell "hour" r = VInt (hour_of ns) /\
        0 <= hour_of ns <= 23) /\
      ((exists ns, cell "Start Time" r = VTime ns) \/
       cell "Start Time" r = VNaN) /\
      (cell "Start Time" r = VNaN ->
       cell "month" r = VNaN /\ cell "day_of_week" r = VNaN /\
       cell "hour" r = VNaN).
Proof.
  apply (calendar_cells_of_start_time files parse_iso (start [])
           "washington" "january" "all" 1%nat january).
  vm_compute. reflexivity.
Defined.

(** C9, as the claim states it, fails: a row whose start time is blank in
    the file is loaded, and its month is no month name, its day of week
    no day name and its hour no number from 0 to 23: the three cells are
    missing. *)
Lemma blank_start_time_has_no_calendar :
  let loaded :=
    load_data (fun _ => inr blank_csv) parse_iso "washington" "all" "all"
      (start []) in
  loaded.1 = Return 0%nat /\
  length (rows (frame_at loaded.2 0%nat)) = 1%nat /\
  Forall (fun r => cell "Start Time" r = VNaN /\
                   cell "month" r = VNaN /\
                   cell "day_of_week" r = VNaN /\
                   cell "hour" r = VNaN)
    (rows (frame_at loaded.2 0%nat)) /\
  (forall name, name ∈ MONTH_NAMES -> VNaN <> VStr name) /\
  (forall name, name ∈ DAY_NAMES -> VNaN <> VStr name) /\
  (forall hour, 0 <= hour <= 23 -> VNaN <> VInt hour).
Proof.
  cbv zeta. split; [vm_compute; reflexivity|].
  split; [vm_compute; reflexivity|].
  split; [apply (bool_decide_unpack _); vm_compute; exact I|].
  repeat split; discriminate.
Qed.

Lemma tied_counts w :
  w <> VNaN -> (occurrences w tied <= occurrences (VStr "b") tied)%nat.
Proof.
  intros Hw. unfold occurrences, tied.
  rewrite !filter_cons, !filter_nil.
  repeat case_decide; simplify_eq; cbn; lia.
Defined.

Lemma most_common_is_smallest_most_frequent_witness :
  exists m,
    m ∈ tied /\ m <> VNaN /\
    occurrences m tied = occurrences (VStr "b") tied /\
    value_leb m (VStr "b") = true /\
    (forall st df d (column stat_name : string),
       heap st !! df = Some d -> df_getitem d column = Some tied ->
       display_statistics df column stat_name st
       = (Return tt, with_stdout st (stdout st ++ [MostCommon stat_name m]))) /\
    (forall st df d l,
       heap st !! df = Some d -> "User Type" ∈ columns d ->
       df_getitem d "Birth Year" = Some tied -> numbers tied = Some l ->
       exists y out,
         m = VInt y /\
         user_stats df st
         = (Return tt,
            with_stdout st
              (stdout st ++ out
                 ++ [YearOfBirth "Most Common Year of Birth:" y; Elapsed;
                     Text RULE]))).
Proof.
  apply (most_common_is_smallest_most_frequent tied (VStr "b")).
  - reflexivity.
  - apply (bool_decide_unpack _). vm_compute. exact I.
  - discriminate.
  - apply tied_counts.
Defined.

(** On the tied column the value reported is "a", the smaller of the two
    most frequent values, though "b" comes first in the column. *)
Lemma tied_most_common :
  Series_getitem (Series_mode tied) 0 = Return (VStr "a") /\
  htable_mode tied = [VStr "b"; VStr "a"].
Proof. vm_compute. split; reflexivity. Qed.

(** A session of [main]: Washington, January, every day; one page of raw
    data; no restart.  The page shown comes from the frame that
    [station_stats] has written to: it has the column
    [Start-End Combination]. *)
Lemma session_shows_the_added_column :
  let session :=
    main files parse_iso
      (start ["Washington"; "January"; "all"; "yes"; "no"; "no"]) in
  session.1 = Return tt /\
  columns <$> frames_printed (stdout session.2)
  = [["Start Time"; "Trip Duration"; "Start Station"; "End Station";
      "User Type"; "month"; "day_of_week"; "hour"; "Start-End Combination"]].
Proof. vm_compute. split; reflexivity. Qed.

(** Why C8 asks for a size that is not negative: a negative stop of a
    Python slice counts from the end of the table. *)
Lemma negative_size_counts_from_the_end :
  length (rows (page (frame_at all_trips 0%nat) 0 (-1))) = 2%nat.
Proof. vm_compute. reflexivity. Qed.

(** * Further properties of the script *)

(** ** The prompt loop *)

Lemma get_user_input_loop_spec prompt valid_inputs inp out :
  (exists skipped x rest,
     inp = skipped ++ x :: rest /\
     Forall (rejected valid_inputs) skipped /\
     lower (strip x) ∈ valid_inputs /\
     get_user_input_loop prompt valid_inputs inp out
     = (Return (lower (strip x)), rest,
        out ++ reprompts prompt skipped ++ [Text prompt])) \/
  (Forall (rejected valid_inputs) inp /\
   get_user_input_loop prompt valid_inputs inp out
   = (Raise EOFError, [], out ++ reprompts prompt inp ++ [Text prompt])).
Proof.
  revert out. induction inp as [|x inp IH]; intros out.
  { right. split; [constructor|done]. }
  cbn [get_user_input_loop].
  destruct (decide (lower (strip x) ∈ valid_inputs)) as [Hin|Hout].
  - left. exists [], x, inp. by repeat split.
  - destruct (IH (out ++ [Text prompt; Text "Invalid input. Please try again."]))
      as [(skipped & y & rest & -> & Hsk & Hy & Hrun)|[Hall Hrun]].
    + left. exists (x :: skipped), y, rest. split; [done|].
      split; [by constructor|]. split; [done|].
      rewrite Hrun. f_equal. unfold reprompts. cbn [mbind list_bind].
      by rewrite <- !app_assoc.
    + right. split; [by constructor|].
      rewrite Hrun. f_equal. unfold reprompts. cbn [mbind list_bind].
      by rewrite <- !app_assoc.
Qed.

Lemma get_user_input_accepts prompt valid_inputs st response st' :
  get_user_input prompt valid_inputs st = (Return response, st') ->
  response ∈ valid_inputs /\
  heap st' = heap st /\
  exists skipped x,
    stdin st = skipped ++ x :: stdin st' /\
    Forall (rejected valid_inputs) skipped /\
    response = lower (strip x) /\
    stdout st' = stdout st ++ reprompts prompt skipped ++ [Text prompt].
Proof.
  unfold get_user_input.
  destruct (get_user_input_loop_spec prompt valid_inputs (stdin st) (stdout st))
    as [(skipped & x & rest & Hin & Hsk & Hx & Hrun)|[Hall Hrun]];
    rewrite Hrun; [|done].
  intros [= <- <-]. cbn. split; [done|]. split; [done|].
  by exists skipped, x.
Qed.

(** X1.  On lines of ASCII text: when [get_user_input] returns, its
    result is one of the valid inputs: the lowercase, stripped form of the
    first line read that is valid in that form.  The lines before it are
    consumed, each answered by the complaint and a new prompt; the lines
    after it are left to be read; no frame is touched. *)
Theorem get_user_input_returns prompt valid_inputs st response st' :
  Forall ascii_text (stdin st) ->
  get_user_input prompt valid_inputs st = (Return response, st') ->
  response ∈ valid_inputs /\
  heap st' = heap st /\
  exists skipped x,
    stdin st = skipped ++ x :: stdin st' /\
    Forall (rejected valid_inputs) skipped /\
    response = lower (strip x) /\
    stdout st' = stdout st ++ reprompts prompt skipped ++ [Text prompt].
Proof. intros _. apply get_user_input_accepts. Qed.

(** X2.  On lines of ASCII text, [get_user_input] fails only by running
    out of input: it raises [EOFError] exactly when none of the lines left
    is valid, stripped and in lowercase, after a prompt for each of them
    and one more; it raises nothing else and never fails to end. *)
Theorem get_user_input_raises prompt valid_inputs st :
  Forall ascii_text (stdin st) ->
  ((get_user_input prompt valid_inputs st).1 = Raise EOFError <->
   Forall (rejected valid_inputs) (stdin st)) /\
  (forall e, (get_user_input prompt valid_inputs st).1 = Raise e ->
     e = EOFError /\
     stdin (get_user_input prompt valid_inputs st).2 = [] /\
     stdout (get_user_input prompt valid_inputs st).2
     = stdout st ++ reprompts prompt (stdin st) ++ [Text prompt]) /\
  (get_user_input prompt valid_inputs st).1 <> Diverge.
Proof.
  intros _. unfold get_user_input.
  destruct (get_user_input_loop_spec prompt valid_inputs (stdin st) (stdout st))
    as [(skipped & x & rest & Hin & Hsk & Hx & Hrun)|[Hall Hrun]];
    rewrite Hrun; cbn.
  - split; [|split; [|done]].
    + split; [done|]. intros Hall. rewrite Hin in Hall.
      apply Forall_app in Hall as [_ Hall]. by inversion Hall.
    + intros e [=].
  - split; [|split; [|done]].
    + by split.
    + by intros e [= <-].
Qed.

(** ** The filters asked of the user *)

Lemma elem_of_keys (m : gmap string string) (k : string) :
  k ∈ keys m <-> is_Some (m !! k).
Proof.
  unfold keys. rewrite list_elem_of_fmap. split.
  - intros ([k' v] & -> & Hkv). apply elem_of_map_to_list in Hkv. by exists v.
  - intros [v Hv]. exists (k, v). split; [done|]. by apply elem_of_map_to_list.
Qed.

(** X3.  [get_filters] returns only what the script can work with: a city
    that has an entry in [CITY_DATA], a month among january .. june or
    "all", and a day of the week or "all".  It reads at least three lines
    and touches no frame. *)
Theorem get_filters_returns st city month day st' :
  get_filters st = (Return (city, month, day), st') ->
  is_Some (CITY_DATA !! city) /\
  month ∈ MONTH_INPUTS /\
  day ∈ DAY_INPUTS /\
  heap st' = heap st /\
  (length (stdin st') + 3 <= length (stdin st))%nat.
Proof.
  unfold get_filters. intros Hrun.
  apply bind_returns in Hrun as ([] & st1 & E1 & Hrun).
  rewrite print_run in E1. injection E1 as <-.
  apply bind_returns in Hrun as (c & st2 & E2 & Hrun).
  apply bind_returns in Hrun as (m & st3 & E3 & Hrun).
  apply bind_returns in Hrun as (d & st4 & E4 & Hrun).
  injection Hrun as -> -> -> ->.
  apply get_user_input_accepts in E2 as (Hc & Hh2 & sk2 & x2 & Hin2 & _).
  apply get_user_input_accepts in E3 as (Hm & Hh3 & sk3 & x3 & Hin3 & _).
  apply get_user_input_accepts in E4 as (Hd & Hh4 & sk4 & x4 & Hin4 & _).
  split; [by apply elem_of_keys|]. split; [done|]. split; [done|]. split.
  - rewrite Hh4, Hh3, Hh2. done.
  - cbn in Hin2. rewrite Hin2, Hin3, Hin4.
    repeat (rewrite ?length_app; cbn [length]). lia.
Qed.

(** ** Loading: errors and what is kept of the file *)

Lemma to_datetime_cells parse_datetime (s t : Series) :
  to_datetime parse_datetime s = Return t ->
  Forall2 (parsed parse_datetime) s t.
Proof.
  unfold to_datetime. destruct (mapM _ s) as [r|] eqn:Hr; [|done].
  intros [= <-]. apply mapM_Some in Hr.
  induction Hr as [|v w s r Hvw Hr IH]; constructor; [|done].
  destruct v; cbn in *; try by injection Hvw.
  destruct (parse_datetime s0) as [ns|]; [|done].
  injection Hvw as <-. by exists ns.
Qed.

Lemma to_datetime_unparsed parse_datetime (s : Series) a :
  VStr a ∈ s -> parse_datetime a = None ->
  to_datetime parse_datetime s = Raise ValueError.
Proof.
  intros Hin Hnone. unfold to_datetime.
  destruct (mapM _ s) as [r|] eqn:Hr; [|done].
  apply mapM_Some in Hr. exfalso. revert Hnone. clear -Hin Hr.
  induction Hr as [|v w s r Hvw Hr IH]; [by apply elem_of_nil in Hin|].
  apply elem_of_cons in Hin as [<-|Hin]; [|by apply IH].
  cbn in Hvw. intros Hnone. by rewrite Hnone in Hvw.
Qed.

Lemma load_data_no_city read_csv parse_datetime (city month day : string) st :
  CITY_DATA !! city = None ->
  load_data read_csv parse_datetime city month day st
  = (Raise (KeyError (VStr city)), st).
Proof. intros H. unfold load_data. by rewrite bind_eq, H. Qed.

Lemma load_data_no_file read_csv parse_datetime (city month day path : string)
    e st :
  CITY_DATA !! city = Some path -> read_csv path = inl e ->
  load_data read_csv parse_datetime city month day st = (Raise e, st).
Proof.
  intros Hp Hr. unfold load_data. rewrite bind_eq, Hp. cbn [lift ret].
  by rewrite bind_eq, Hr.
Qed.

Lemma load_data_no_start_time read_csv parse_datetime
    (city month day path : string) d st :
  CITY_DATA !! city = Some path -> read_csv path = inr d ->
  "Start Time" ∉ columns d ->
  load_data read_csv parse_datetime city month day st
  = (Raise (KeyError (VStr "Start Time")), with_heap st (heap st ++ [d])).
Proof.
  intros Hp Hr Hc. unfold load_data. rewrite bind_eq, Hp. cbn [lift ret].
  rewrite bind_eq, Hr. cbn [lift_result ret]. rewrite bind_eq. cbn [new_frame].
  set (st1 := {| heap := heap st ++ [d]; stdin := stdin st; stdout := stdout st |}).
  assert (Hd1 : heap st1 !! length (heap st) = Some d)
    by (cbn; by apply list_lookup_middle).
  rewrite bind_eq. unfold derive_columns. rewrite bind_eq.
  by rewrite (getitem_missing _ _ _ _ Hd1 Hc).
Qed.

Lemma load_data_bad_start_time read_csv parse_datetime
    (city month day path : string) d st :
  CITY_DATA !! city = Some path -> read_csv path = inr d ->
  "Start Time" ∈ columns d ->
  to_datetime parse_datetime (cell "Start Time" <$> rows d) = Raise ValueError ->
  load_data read_csv parse_datetime city month day st
  = (Raise ValueError, with_heap st (heap st ++ [d])).
Proof.
  intros Hp Hr Hc Ht. unfold load_data. rewrite bind_eq, Hp. cbn [lift ret].
  rewrite bind_eq, Hr. cbn [lift_result ret]. rewrite bind_eq. cbn [new_frame].
  set (st1 := {| heap := heap st ++ [d]; stdin := stdin st; stdout := stdout st |}).
  assert (Hd1 : heap st1 !! length (heap st) = Some d)
    by (cbn; by apply list_lookup_middle).
  rewrite bind_eq. unfold derive_columns. rewrite bind_eq.
  rewrite (getitem_run _ _ _ _ Hd1 Hc).
  by rewrite bind_eq, lift_outcome_run, Ht.
Qed.

(** X4.  How [load_data] fails, whatever the month and the day: with
    [KeyError] of the city when the city has no entry in [CITY_DATA], and
    with the exception of [pd.read_csv] when that raises one (for a file
    that does not exist, an empty file, and so on), in both cases before
    any frame exists; with [KeyError] when the file has no [Start Time]
    column, and with [ValueError] when one of its start times is a text
    that is not a date, the frame read being left in the heap. *)
Theorem load_data_failures read_csv parse_datetime (city month day : string) st :
  (CITY_DATA !! city = None ->
   load_data read_csv parse_datetime city month day st
   = (Raise (KeyError (VStr city)), st)) /\
  (forall path e,
     CITY_DATA !! city = Some path -> read_csv path = inl e ->
     load_data read_csv parse_datetime city month day st = (Raise e, st)) /\
  (forall path d,
     CITY_DATA !! city = Some path -> read_csv path = inr d ->
     ("Start Time" ∉ columns d ->
      load_data read_csv parse_datetime city month day st
      = (Raise (KeyError (VStr "Start Time")), with_heap st (heap st ++ [d]))) /\
     (forall a, "Start Time" ∈ columns d ->
        VStr a ∈ cell "Start Time" <$> rows d -> parse_datetime a = None ->
        load_data read_csv parse_datetime city month day st
        = (Raise ValueError, with_heap st (heap st ++ [d])))).
Proof.
  split; [apply load_data_no_city|].
  split; [intros path e; apply load_data_no_file|].
  intros path d Hp Hr. split; [by apply load_data_no_start_time with path|].
  intros a Hc Ha Hnone. apply load_data_bad_start_time with path; try done.
  by apply to_datetime_unparsed with a.
Qed.

Lemma load_data_unfiltered read_csv parse_datetime st (city path : string) d
    (t : Series) :
  CITY_DATA !! city = Some path -> read_csv path = inr d ->
  "Start Time" ∈ columns d ->
  to_datetime parse_datetime (cell "Start Time" <$> rows d) = Return t ->
  load_data read_csv parse_datetime city "all" "all" st
  = (Return (length (heap st)), with_heap st (heap st ++ [derived d t])).
Proof.
  intros Hp Hr Hc Ht.
  by rewrite (load_data_run read_csv parse_datetime st city "all" "all" path d t).
Qed.

(** X5.  The two filters of [load_data] work on what the unfiltered call
    loads: when [load_data] returns for "all" and "all", it returns for
    every month and day, and its table has the columns of the unfiltered
    table and those of its rows that the month and the day keep, in
    their order.  Nothing is printed or read, and the unfiltered table is
    in the heap unchanged. *)
Theorem load_data_filters_unfiltered read_csv parse_datetime st
    (city month day : string) df0 st0 d0 :
  load_data read_csv parse_datetime city "all" "all" st = (Return df0, st0) ->
  heap st0 !! df0 = Some d0 ->
  exists df st' d,
    load_data read_csv parse_datetime city month day st = (Return df, st') /\
    heap st' !! df = Some d /\
    columns d = columns d0 /\
    rows d = filter (kept month day) (rows d0) /\
    heap st' !! df0 = Some d0 /\
    stdin st' = stdin st /\ stdout st' = stdout st.
Proof.
  intros Hload Hd0.
  destruct (load_data_returns _ _ _ _ _ _ _ _ Hload)
    as (path & d & t & Hp & Hr & Hc & Ht).
  rewrite (load_data_unfiltered read_csv parse_datetime st city path d t)
    in Hload by done.
  injection Hload as <- <-.
  assert (d0 = derived d t) as ->.
  { cbn in Hd0. rewrite list_lookup_middle in Hd0 by done. by injection Hd0. }
  rewrite (load_data_run read_csv parse_datetime st city month day path d t)
    by done.
  destruct (to_datetime_returns _ _ _ Ht) as [Hlen Htm].
  rewrite length_fmap in Hlen.
  destruct (derived_frame d t Hlen Htm) as (Hm & Hw & _).
  set (st1 := with_heap st (heap st ++ [derived d t])) in *.
  assert (Hd1 : heap st1 !! length (heap st) = Some (derived d t))
    by (cbn; by apply list_lookup_middle).
  destruct (filter_month_day_run st1 _ _ month day Hd1 Hm Hw)
    as (df & h' & Hrun & Hd' & _).
  eexists df, _, _. split; [exact Hrun|]. split; [exact Hd'|].
  cbn. split; [done|]. split; [done|]. split; [|done].
  rewrite lookup_app_l; [done|]. by eapply lookup_lt_Some.
Qed.

Lemma derived_columns d (t : Series) :
  "Start Time" ∈ columns d ->
  Forall (fun c => c ∉ columns d) CALENDAR_COLUMNS ->
  columns (derived d t) = columns d ++ CALENDAR_COLUMNS.
Proof.
  intros Hc Hnew. unfold CALENDAR_COLUMNS in *.
  apply Forall_cons in Hnew as [Hm Hnew].
  apply Forall_cons in Hnew as [Hw Hnew].
  apply Forall_cons in Hnew as [Hh _].
  unfold derived, put_column. cbn [columns].
  rewrite (decide_True (P := "Start Time" ∈ columns d)) by done.
  rewrite (decide_False (P := "month" ∈ columns d)) by done.
  rewrite (decide_False (P := "day_of_week" ∈ columns d ++ ["month"])).
  2:{ rewrite elem_of_app, list_elem_of_singleton. intros [?|?]; done. }
  rewrite decide_False.
  2:{ rewrite !elem_of_app, !list_elem_of_singleton. intros [[?|?]|?]; done. }
  by rewrite <- !app_assoc.
Qed.

Lemma derived_other_column d (t : Series) (c : string) :
  length t = length (rows d) ->
  c ∉ "Start Time" :: CALENDAR_COLUMNS ->
  df_getitem (derived d t) c = df_getitem d c.
Proof.
  intros Hlen Hc. unfold CALENDAR_COLUMNS in Hc.
  rewrite !not_elem_of_cons in Hc. destruct Hc as (? & ? & ? & ? & _).
  unfold derived.
  assert (Hn1 : length (rows (put_column d "Start Time" t)) = length (rows d))
    by by apply length_rows_put_column.
  set (d1 := put_column d "Start Time" t) in *.
  assert (Hn2 : length (rows (put_column d1 "month" (month_cell <$> t)))
                = length (rows d)).
  { rewrite length_rows_put_column; [done|]. rewrite length_fmap. congruence. }
  set (d2 := put_column d1 "month" _) in *.
  assert (Hn3 : length (rows (put_column d2 "day_of_week" (day_cell <$> t)))
                = length (rows d)).
  { rewrite length_rows_put_column; [done|]. rewrite length_fmap. congruence. }
  set (d3 := put_column d2 "day_of_week" _) in *.
  rewrite df_getitem_put_column_ne; [|rewrite length_fmap; congruence|done].
  unfold d3. rewrite df_getitem_put_column_ne;
    [|rewrite length_fmap; congruence|done].
  unfold d2. rewrite df_getitem_put_column_ne;
    [|rewrite length_fmap; congruence|done].
  unfold d1. by rewrite df_getitem_put_column_ne.
Qed.

Lemma derived_start_time d (t : Series) :
  length t = length (rows d) ->
  df_getitem (derived d t) "Start Time" = Some t.
Proof.
  intros Hlen. unfold derived.
  assert (Hn1 : length (rows (put_column d "Start Time" t)) = length (rows d))
    by by apply length_rows_put_column.
  set (d1 := put_column d "Start Time" t) in *.
  assert (Hn2 : length (rows (put_column d1 "month" (month_cell <$> t)))
                = length (rows d)).
  { rewrite length_rows_put_column; [done|]. rewrite length_fmap. congruence. }
  set (d2 := put_column d1 "month" _) in *.
  assert (Hn3 : length (rows (put_column d2 "day_of_week" (day_cell <$> t)))
                = length (rows d)).
  { rewrite length_rows_put_column; [done|]. rewrite length_fmap. congruence. }
  set (d3 := put_column d2 "day_of_week" _) in *.
  rewrite df_getitem_put_column_ne; [|rewrite length_fmap; congruence|done].
  unfold d3. rewrite df_getitem_put_column_ne;
    [|rewrite length_fmap; congruence|done].
  unfold d2. rewrite df_getitem_put_column_ne;
    [|rewrite length_fmap; congruence|done].
  unfold d1. by apply df_getitem_put_column.
Qed.

(** X6.  What the unfiltered [load_data] makes of the file: a new frame
    with as many rows as the file; every column of the file other than
    [Start Time] and the three calendar columns holds the cells read; the
    [Start Time] cells are the parsed cells of the file; and when the file
    has no calendar column, the columns are those of the file followed by
    [month], [day_of_week], [hour]. *)
Theorem load_data_keeps_the_file read_csv parse_datetime st
    (city path : string) d df st' :
  CITY_DATA !! city = Some path -> read_csv path = inr d ->
  load_data read_csv parse_datetime city "all" "all" st = (Return df, st') ->
  df = length (heap st) /\
  exists d',
    heap st' = heap st ++ [d'] /\
    length (rows d') = length (rows d) /\
    (forall c, c ∉ "Start Time" :: CALENDAR_COLUMNS ->
               df_getitem d' c = df_getitem d c) /\
    Forall2 (parsed parse_datetime)
      (cell "Start Time" <$> rows d) (cell "Start Time" <$> rows d') /\
    (Forall (fun c => c ∉ columns d) CALENDAR_COLUMNS ->
     columns d' = columns d ++ CALENDAR_COLUMNS).
Proof.
  intros Hp Hr Hload.
  destruct (load_data_returns _ _ _ _ _ _ _ _ Hload)
    as (path' & d0 & t & Hp' & Hr' & Hc & Ht).
  assert (path' = path) as -> by congruence.
  assert (d0 = d) as -> by congruence.
  rewrite (load_data_unfiltered read_csv parse_datetime st city path d t)
    in Hload by done.
  injection Hload as <- <-. split; [done|].
  destruct (to_datetime_returns _ _ _ Ht) as [Hlen Htm].
  rewrite length_fmap in Hlen.
  destruct (derived_frame d t Hlen Htm) as (_ & _ & _ & Hn & _).
  exists (derived d t). split; [done|]. split; [done|]. split; [|split].
  - intros c Hcne. by apply derived_other_column.
  - destruct (df_getitem_Some _ _ _ (derived_start_time d t Hlen)) as [_ ->].
    by apply to_datetime_cells.
  - intros Hnew. by apply derived_columns.
Qed.

(** ** The most common value, in general *)

Lemma occurrences_not_elem_of w (s : Series) : w ∉ s -> occurrences w s = 0%nat.
Proof.
  intros Hw. unfold occurrences. rewrite filter_none; [done|].
  apply Forall_forall. intros x Hx ->. done.
Qed.

Lemma elem_of_htable_mode_most_frequent (s : Series) m :
  m ∈ htable_mode s <-> most_frequent s m.
Proof.
  split.
  - intros [Hm Hn]%elem_of_htable_mode.
    apply elem_of_dropna in Hm as [Hna Hm]. split; [done|]. split; [done|].
    intros w Hw. destruct (decide (w ∈ s)) as [Hin|Hout].
    + rewrite <- (occurrences_dropna w s), <- (occurrences_dropna m s) by done.
      rewrite Hn.
      apply max_list_elem_of_le. apply list_elem_of_fmap. exists w.
      split; [done|]. apply (proj2 (elem_of_unique _ _)).
      by apply elem_of_dropna.
    + rewrite occurrences_not_elem_of by done. lia.
  - intros (Hm & Hna & Hmax). by apply htable_mode_most_frequent.
Qed.

Lemma elem_of_Series_mode (s : Series) m :
  m ∈ Series_mode s <-> m ∈ htable_mode s.
Proof.
  unfold Series_mode, np_sort. destruct (homogeneous (htable_mode s)); [|done].
  apply elem_of_sort_values.
Qed.

Lemma htable_mode_nil (s : Series) : htable_mode s = [] <-> dropna s = [].
Proof.
  split.
  - intros Hnil. destruct (dropna s) as [|v s'] eqn:Hs; [done|]. exfalso.
    set (counts := (fun v => occurrences v (dropna s)) <$> unique (dropna s)).
    assert (Hne : counts <> []).
    { unfold counts. rewrite Hs. done. }
    apply max_list_elem_of in Hne.
    apply list_elem_of_fmap in Hne as (w & Hw & Hin).
    assert (Hmode : w ∈ htable_mode s).
    { apply elem_of_htable_mode. split; [|done].
      by apply (proj1 (elem_of_unique _ _)). }
    rewrite Hnil in Hmode. by apply elem_of_nil in Hmode.
  - intros Hnil. unfold htable_mode, value_count. by rewrite Hnil.
Qed.

Lemma Series_mode_head (s : Series) :
  match dropna s with
  | [] => Series_getitem (Series_mode s) 0 = Raise (KeyError (VInt 0))
  | _ :: _ => exists m, Series_getitem (Series_mode s) 0 = Return m /\
                        most_frequent s m
  end.
Proof.
  destruct (dropna s) as [|v s'] eqn:Hs.
  - apply htable_mode_nil in Hs. unfold Series_mode. by rewrite Hs.
  - destruct (Series_mode s) as [|m rest] eqn:Hmode.
    + exfalso. assert (Hnil : htable_mode s = []).
      { destruct (htable_mode s) as [|w l] eqn:Hh; [done|].
        assert (Hw : w ∈ Series_mode s)
          by (apply elem_of_Series_mode; rewrite Hh; left).
        rewrite Hmode in Hw. by apply elem_of_nil in Hw. }
      apply htable_mode_nil in Hnil. congruence.
    + exists m. split; [done|].
      apply elem_of_htable_mode_most_frequent, elem_of_Series_mode.
      rewrite Hmode. left.
Qed.

Lemma display_statistics_most_frequent st df d (column stat_name : string) :
  heap st !! df = Some d -> column ∈ columns d ->
  dropna (cell column <$> rows d) <> [] ->
  exists m,
    display_statistics df column stat_name st
    = (Return tt, with_stdout st (stdout st ++ [MostCommon stat_name m])) /\
    most_frequent (cell column <$> rows d) m.
Proof.
  intros Hd Hc Hne.
  pose proof (Series_mode_head (cell column <$> rows d)) as Hhead.
  destruct (dropna (cell column <$> rows d)) as [|v s']; [done|].
  destruct Hhead as (m & Hm & Hfreq). exists m. split; [|done].
  apply display_statistics_run with d (cell column <$> rows d); [done| |done].
  unfold df_getitem. by rewrite decide_True.
Qed.

(** X7.  What [display_statistics] does for any column: it raises
    [KeyError] of the column when the frame has no such column, and
    [KeyError] of 0 when the column has no value that is not missing;
    otherwise it prints one line, with a value of the column that is not
    missing and that no other value outnumbers, and returns. *)
Theorem display_statistics_outcome st df d (column stat_name : string) :
  heap st !! df = Some d ->
  (column ∉ columns d ->
   display_statistics df column stat_name st
   = (Raise (KeyError (VStr column)), st)) /\
  (column ∈ columns d -> dropna (cell column <$> rows d) = [] ->
   display_statistics df column stat_name st
   = (Raise (KeyError (VInt 0)), st)) /\
  (column ∈ columns d -> dropna (cell column <$> rows d) <> [] ->
   exists m,
     display_statistics df column stat_name st
     = (Return tt, with_stdout st (stdout st ++ [MostCommon stat_name m])) /\
     m ∈ cell column <$> rows d /\ m <> VNaN /\
     forall w, w <> VNaN ->
       (occurrences w (cell column <$> rows d)
        <= occurrences m (cell column <$> rows d))%nat).
Proof.
  intros Hd. split; [|split].
  - intros Hc. unfold display_statistics.
    by rewrite bind_eq, (getitem_missing _ _ _ _ Hd Hc).
  - intros Hc Hnil. unfold display_statistics.
    rewrite bind_eq, (getitem_run _ _ _ _ Hd Hc).
    pose proof (Series_mode_head (cell column <$> rows d)) as Hhead.
    rewrite Hnil in Hhead. by rewrite bind_eq, lift_outcome_run, Hhead.
  - intros Hc Hne. by apply display_statistics_most_frequent.
Qed.

(** ** The times of travel of a loaded table *)

(** The table [load_data] returns: it has the calendar columns, and its
    rows are rows with the calendar cells of their start time that the
    month and the day keep. *)
Lemma load_data_table read_csv parse_datetime st (city month day : string) df st' :
  load_data read_csv parse_datetime city month day st = (Return df, st') ->
  exists d,
    heap st' !! df = Some d /\
    "month" ∈ columns d /\ "day_of_week" ∈ columns d /\ "hour" ∈ columns d /\
    Forall derived_row (rows d) /\
    Forall (kept month day) (rows d).
Proof.
  intros Hload.
  destruct (load_data_returns _ _ _ _ _ _ _ _ Hload)
    as (path & d & t & Hp & Hr & Hc & Ht).
  rewrite (load_data_run read_csv parse_datetime st city month day path d t)
    in Hload by done.
  destruct (to_datetime_returns _ _ _ Ht) as [Hlen Htm].
  rewrite length_fmap in Hlen.
  destruct (derived_frame d t Hlen Htm) as (Hm & Hw & Hh & _ & Hrows).
  set (st1 := with_heap st (heap st ++ [derived d t])) in *.
  assert (Hd1 : heap st1 !! length (heap st) = Some (derived d t))
    by (cbn; by apply list_lookup_middle).
  destruct (filter_month_day_run st1 _ _ month day Hd1 Hm Hw)
    as (df' & h' & Hrun & Hd' & _).
  rewrite Hrun in Hload. injection Hload as <- <-.
  eexists. split; [exact Hd'|]. cbn.
  split; [done|]. split; [done|]. split; [done|]. split.
  - apply Forall_forall. intros r [_ Hr']%list_elem_of_filter.
    rewrite Forall_forall in Hrows. by apply Hrows.
  - apply Forall_forall. by intros r [? _]%list_elem_of_filter.
Qed.

Lemma dropna_fmap_nonempty {A} (f : A -> value) (l : list A) x :
  x ∈ l -> f x <> VNaN -> dropna (f <$> l) <> [].
Proof.
  intros Hx Hf Hnil.
  assert (Hin : f x ∈ dropna (f <$> l)).
  { apply elem_of_dropna. split; [done|]. apply list_elem_of_fmap. by exists x. }
  rewrite Hnil in Hin. by apply elem_of_nil in Hin.
Qed.

(** X8.  After [load_data] has filtered by a month and returned a table
    with at least one row, [time_stats] returns, and the most common month
    it prints is the month asked for; the day it prints is a lowercase day
    name (the day asked for, when one was), and the hour is from 0 to
    23. *)
Theorem time_stats_of_a_month read_csv parse_datetime st
    (city month day : string) df st' d :
  load_data read_csv parse_datetime city month day st = (Return df, st') ->
  heap st' !! df = Some d ->
  month <> "all" -> rows d <> [] ->
  exists (day_name : string) (hour : Z),
    time_stats df st'
    = (Return tt,
       with_stdout st'
         (stdout st' ++ [Text "Calculating The Most Frequent Times of Travel...";
                         MostCommon "Month" (VStr month);
                         MostCommon "Day of Week" (VStr day_name);
                         MostCommon "Start Hour" (VInt hour);
                         Elapsed; Text RULE])) /\
    day_name ∈ DAY_NAMES /\ (day <> "all" -> day_name = day) /\
    0 <= hour <= 23.
Proof.
  intros Hload Hd Hmonth Hrows.
  destruct (load_data_table _ _ _ _ _ _ _ _ Hload)
    as (d' & Hd' & Hm & Hw & Hh & Hder & Hkept).
  assert (d' = d) as -> by congruence.
  assert (Hrow : forall r, r ∈ rows d ->
            cell "month" r = VStr month /\
            exists ns, cell "day_of_week" r = VStr (lower (day_name_of ns)) /\
                       cell "hour" r = VInt (hour_of ns) /\
                       (day <> "all" -> lower (day_name_of ns) = day)).
  { intros r Hr. rewrite Forall_forall in Hder, Hkept.
    destruct (Hder r Hr) as (_ & Hmr & Hwr & Hhr).
    destruct (Hkept r Hr) as [[?|Hkm] Hkd]; [done|]. split; [done|].
    rewrite Hmr in Hkm. destruct (cell "Start Time" r) as [| |ns|]; try done.
    exists ns. split; [done|]. split; [done|]. intros Hday.
    destruct Hkd as [?|Hkd]; [done|]. rewrite Hwr in Hkd. by injection Hkd. }
  destruct (rows d) as [|r0 rs] eqn:Hrs; [done|]. rewrite <- Hrs in *.
  assert (Hr0 : r0 ∈ rows d) by (rewrite Hrs; left).
  destruct (Hrow r0 Hr0) as (Hm0 & ns0 & Hw0 & Hh0 & _).
  unfold time_stats. rewrite bind_eq, print_run.
  set (st1 := with_stdout st' _).
  destruct (display_statistics_most_frequent st1 df d "month" "Month")
    as (m & Hrun1 & Hin1 & _); [done|done| |].
  { apply dropna_fmap_nonempty with r0; [done|]. by rewrite Hm0. }
  apply list_elem_of_fmap in Hin1 as (r1 & -> & Hr1).
  destruct (Hrow r1 Hr1) as (Hm1 & _). rewrite Hm1 in Hrun1.
  rewrite bind_eq, Hrun1.
  set (st2 := with_stdout st1 _).
  destruct (display_statistics_most_frequent st2 df d "day_of_week" "Day of Week")
    as (w & Hrun2 & Hin2 & _); [done|done| |].
  { apply dropna_fmap_nonempty with r0; [done|]. by rewrite Hw0. }
  apply list_elem_of_fmap in Hin2 as (r2 & -> & Hr2).
  destruct (Hrow r2 Hr2) as (_ & ns2 & Hw2 & _ & Hday2). rewrite Hw2 in Hrun2.
  rewrite bind_eq, Hrun2.
  set (st3 := with_stdout st2 _).
  destruct (display_statistics_most_frequent st3 df d "hour" "Start Hour")
    as (h & Hrun3 & Hin3 & _); [done|done| |].
  { apply dropna_fmap_nonempty with r0; [done|]. by rewrite Hh0. }
  apply list_elem_of_fmap in Hin3 as (r3 & -> & Hr3).
  destruct (Hrow r3 Hr3) as (_ & ns3 & _ & Hh3 & _). rewrite Hh3 in Hrun3.
  rewrite bind_eq, Hrun3.
  rewrite bind_eq, print_run. rewrite print_run.
  exists (lower (day_name_of ns2)), (hour_of ns3). split.
  { unfold st3, st2, st1, with_stdout. cbn. by rewrite <- !app_assoc. }
  split; [apply lower_day_name|]. split; [done|]. apply hour_of_range.
Qed.

(** ** Durations *)

Lemma numbers_numeric (s : Series) :
  Forall numeric_cell s -> numbers s = Some (present_numbers s).
Proof.
  induction 1 as [|v s Hv Hs IH]; [done|].
  destruct v as [a|z|ns|]; try done.
  cbn [numbers]. rewrite IH. done.
Qed.





(** ** Counts of users *)

Lemma NoDup_unique (s : Series) : NoDup (unique s).
Proof.
  induction s as [|v s IH]; cbn; [constructor|].
  constructor; [|by apply NoDup_filter].
  rewrite list_elem_of_filter. tauto.
Qed.

Lemma insert_count_Permutation p c : insert_count p c ≡ₚ p :: c.
Proof.
  induction c as [|q c IH]; cbn; [done|].
  destruct (q.2 <=? p.2)%nat; [done|].
  rewrite IH. apply Permutation_swap.
Qed.

Lemma value_counts_Permutation (s : Series) :
  Series_value_counts s ≡ₚ value_count s.
Proof.
  unfold Series_value_counts. induction (value_count s) as [|p c IH]; [done|].
  cbn. by rewrite insert_count_Permutation, IH.
Qed.

Lemma insert_count_descending p c : descending c -> descending (insert_count p c).
Proof.
  induction c as [|q c IH]; cbn; [done|]. intros [Hq Hc].
  destruct (Nat.leb_spec q.2 p.2) as [Hle|Hlt]; cbn.
  - split; [|done]. constructor; [done|].
    eapply Forall_impl; [exact Hq|]. cbn. intros; lia.
  - split; [|by apply IH].
    rewrite insert_count_Permutation. constructor; [lia | done].
Qed.

Lemma value_count_keys (s : Series) : (value_count s).*1 = unique (dropna s).
Proof.
  unfold value_count. cbn zeta. rewrite <- list_fmap_compose.
  induction (unique (dropna s)) as [|v l IH]; [done|]. cbn. by rewrite IH.
Qed.

Lemma Series_value_counts_spec (s : Series) : counts_of s (Series_value_counts s).
Proof.
  split; [|split].
  - rewrite value_counts_Permutation, value_count_keys. apply NoDup_unique.
  - intros v n. rewrite value_counts_Permutation. unfold value_count. cbn zeta.
    rewrite list_elem_of_fmap. split.
    + intros (w & [= -> ->] & Hw).
      apply (proj1 (elem_of_unique _ _)), elem_of_dropna in Hw as [Hna Hw].
      by rewrite occurrences_dropna.
    + intros (Hv & Hna & ->). exists v. rewrite occurrences_dropna by done.
      split; [done|]. apply (proj2 (elem_of_unique _ _)). by apply elem_of_dropna.
  - unfold Series_value_counts. induction (value_count s) as [|p c IH]; [done|].
    cbn. by apply insert_count_descending.
Qed.

Lemma user_stats_run_no_birth_year st df d :
  heap st !! df = Some d ->
  "User Type" ∈ columns d -> "Birth Year" ∉ columns d ->
  user_stats df st
  = (Return tt,
     with_stdout st
       (stdout st
          ++ [Text "Calculating User Stats...";
              Counts "User Types:"
                (Series_value_counts (cell "User Type" <$> rows d))]
          ++ gender_lines d ++ [Elapsed; Text RULE])).
Proof.
  intros H Hc Hb. unfold user_stats, gender_lines.
  rewrite bind_eq, print_run.
  rewrite bind_eq, (getitem_run _ _ d) by done.
  rewrite bind_eq, print_run.
  rewrite bind_eq, (frame_run _ _ d) by done.
  rewrite bind_eq, when_run.
  destruct (bool_decide ("Gender" ∈ columns d)) eqn:Hg.
  - apply bool_decide_eq_true_1 in Hg.
    rewrite bind_eq, (getitem_run _ _ d) by done.
    rewrite print_run.
    rewrite bind_eq, (frame_run _ _ d) by done.
    rewrite bind_eq, when_run, bool_decide_eq_false_2 by done.
    rewrite bind_eq, print_run. rewrite print_run.
    unfold with_stdout; cbn. by rewrite <- !app_assoc.
  - rewrite bind_eq, (frame_run _ _ d) by done.
    rewrite bind_eq, when_run, bool_decide_eq_false_2 by done.
    rewrite bind_eq, print_run. rewrite print_run.
    unfold with_stdout; cbn. by rewrite <- !app_assoc.
Qed.

(** X11.  On any table with a [User Type] column and no [Birth Year]
    column, empty or not, [user_stats] returns.  It prints the user types
    counted: each type that occurs once, with the number of its rows, the
    most frequent first, missing cells left out; the same for [Gender]
    when the table has that column, and no gender line when it has
    not. *)
Theorem user_stats_counts st df d :
  heap st !! df = Some d ->
  "User Type" ∈ columns d -> "Birth Year" ∉ columns d ->
  exists user_types gender,
    user_stats df st
    = (Return tt,
       with_stdout st
         (stdout st
            ++ [Text "Calculating User Stats..."; Counts "User Types:" user_types]
            ++ gender ++ [Elapsed; Text RULE])) /\
    counts_of (cell "User Type" <$> rows d) user_types /\
    ("Gender" ∉ columns d -> gender = []) /\
    ("Gender" ∈ columns d ->
     exists genders, gender = [Counts "Gender Distribution:" genders] /\
                     counts_of (cell "Gender" <$> rows d) genders).
Proof.
  intros Hd Hc Hb. eexists _, (gender_lines d).
  split; [by apply user_stats_run_no_birth_year|].
  split; [apply Series_value_counts_spec|]. unfold gender_lines. split.
  - intros Hg. by rewrite bool_decide_eq_false_2.
  - intros Hg. rewrite bool_decide_eq_true_2 by done.
    eexists. split; [done|]. apply Series_value_counts_spec.
Qed.

(** ** Years of birth *)

Lemma foldr_min_spec z (l : list Z) :
  foldr Z.min z l ∈ z :: l /\ forall x, x ∈ z :: l -> foldr Z.min z l <= x.
Proof.
  induction l as [|a l [Hin Hle]]; cbn.
  - split; [left|]. intros x Hx. apply list_elem_of_singleton in Hx. lia.
  - split.
    + destruct (Z.min_spec a (foldr Z.min z l)) as [[_ ->]|[_ ->]].
      * right; left.
      * apply elem_of_cons in Hin as [->|Hin]; [left | right; by right].
    + intros x Hx.
      assert (Hx' : x = a \/ x ∈ z :: l).
      { rewrite !elem_of_cons in Hx. rewrite elem_of_cons. tauto. }
      destruct Hx' as [->|Hx']; [lia|]. specialize (Hle x Hx'). lia.
Qed.

Lemma foldr_max_spec z (l : list Z) :
  foldr Z.max z l ∈ z :: l /\ forall x, x ∈ z :: l -> x <= foldr Z.max z l.
Proof.
  induction l as [|a l [Hin Hle]]; cbn.
  - split; [left|]. intros x Hx. apply list_elem_of_singleton in Hx. lia.
  - split.
    + destruct (Z.max_spec a (foldr Z.max z l)) as [[_ ->]|[_ ->]].
      * apply elem_of_cons in Hin as [->|Hin]; [left | right; by right].
      * right; left.
    + intros x Hx.
      assert (Hx' : x = a \/ x ∈ z :: l).
      { rewrite !elem_of_cons in Hx. rewrite elem_of_cons. tauto. }
      destruct Hx' as [->|Hx']; [lia|]. specialize (Hle x Hx'). lia.
Qed.

Lemma elem_of_present_numbers z (s : Series) :
  z ∈ present_numbers s <-> VInt z ∈ s.
Proof.
  unfold present_numbers. rewrite list_elem_of_omap. split.
  - intros (v & Hv & Hz). destruct v; try done. by injection Hz as ->.
  - intros Hz. by exists (VInt z).
Qed.

(** The lines of [user_stats] before the years of birth. *)
Lemma user_stats_until_birth_year st df d (rest : M unit) :
  heap st !! df = Some d -> "User Type" ∈ columns d ->
  (print (Text "Calculating User Stats...") ;;;
   s <- getitem df "User Type" ;;
   print (Counts "User Types:" (Series_value_counts s)) ;;;
   d0 <- frame df ;;
   when (bool_decide ("Gender" ∈ columns d0))
     (s <- getitem df "Gender" ;;
      print (Counts "Gender Distribution:" (Series_value_counts s))) ;;;
   rest) st
  = rest (with_stdout st
            (stdout st
               ++ [Text "Calculating User Stats...";
                   Counts "User Types:"
                     (Series_value_counts (cell "User Type" <$> rows d))]
               ++ gender_lines d)).
Proof.
  intros H Hc. unfold gender_lines.
  rewrite bind_eq, print_run.
  rewrite bind_eq, (getitem_run _ _ d) by done.
  rewrite bind_eq, print_run.
  rewrite bind_eq, (frame_run _ _ d) by done.
  rewrite bind_eq, when_run.
  destruct (bool_decide ("Gender" ∈ columns d)) eqn:Hg.
  - apply bool_decide_eq_true_1 in Hg.
    rewrite bind_eq, (getitem_run _ _ d) by done.
    rewrite print_run. f_equal.
    unfold with_stdout; cbn. by rewrite <- !app_assoc.
  - f_equal. unfold with_stdout; cbn. by rewrite <- !app_assoc.
Qed.

Lemma user_stats_run_no_years st df d :
  heap st !! df = Some d ->
  "User Type" ∈ columns d -> "Birth Year" ∈ columns d ->
  Forall numeric_cell (cell "Birth Year" <$> rows d) ->
  present_numbers (cell "Birth Year" <$> rows d) = [] ->
  user_stats df st
  = (Raise ValueError,
     with_stdout st
       (stdout st
          ++ [Text "Calculating User Stats...";
              Counts "User Types:"
                (Series_value_counts (cell "User Type" <$> rows d))]
          ++ gender_lines d)).
Proof.
  intros Hd Hu Hb Hnum Hnone. unfold user_stats.
  rewrite (user_stats_until_birth_year st df d) by done.
  set (st1 := with_stdout st _).
  rewrite bind_eq, (frame_run st1 _ d) by done.
  rewrite bind_eq, when_run, bool_decide_eq_true_2 by done.
  rewrite bind_eq, (getitem_run st1 _ d) by done.
  rewrite bind_eq, lift_outcome_run. unfold Series_min.
  rewrite (numbers_numeric _ Hnum), Hnone. cbv beta iota.
  by rewrite bind_eq, lift_outcome_run.
Qed.

Lemma user_stats_run_years st df d z (l : list Z) :
  heap st !! df = Some d ->
  "User Type" ∈ columns d -> "Birth Year" ∈ columns d ->
  Forall numeric_cell (cell "Birth Year" <$> rows d) ->
  present_numbers (cell "Birth Year" <$> rows d) = z :: l ->
  exists y,
    most_frequent (cell "Birth Year" <$> rows d) (VInt y) /\
    user_stats df st
    = (Return tt,
       with_stdout st
         (stdout st
            ++ [Text "Calculating User Stats...";
                Counts "User Types:"
                  (Series_value_counts (cell "User Type" <$> rows d))]
            ++ gender_lines d
            ++ [YearOfBirth "Earliest Year of Birth:" (foldr Z.min z l);
                YearOfBirth "Most Recent Year of Birth:" (foldr Z.max z l);
                YearOfBirth "Most Common Year of Birth:" y;
                Elapsed; Text RULE])).
Proof.
  intros Hd Hu Hb Hnum Hl.
  set (s := cell "Birth Year" <$> rows d) in *.
  assert (Hz : VInt z ∈ s).
  { apply elem_of_present_numbers. rewrite Hl. left. }
  pose proof (Series_mode_head s) as Hhead.
  destruct (dropna s) as [|v0 s0] eqn:Hdrop.
  { exfalso. assert (Hin : VInt z ∈ dropna s) by by apply elem_of_dropna.
    rewrite Hdrop in Hin. by apply elem_of_nil in Hin. }
  destruct Hhead as (m & Hm & Hfreq).
  assert (Hint : exists y, m = VInt y).
  { destruct Hfreq as (Hin & Hna & _). rewrite Forall_forall in Hnum.
    specialize (Hnum m Hin). destruct m; try done. by eexists. }
  destruct Hint as [y ->]. exists y. split; [done|].
  unfold user_stats.
  rewrite (user_stats_until_birth_year st df d) by done.
  set (st1 := with_stdout st _).
  rewrite bind_eq, (frame_run st1 _ d) by done.
  rewrite bind_eq, when_run, bool_decide_eq_true_2 by done.
  rewrite bind_eq, (getitem_run st1 _ d) by done. fold s.
  rewrite bind_eq, lift_outcome_run. unfold Series_min.
  rewrite (numbers_numeric _ Hnum), Hl. cbv beta iota.
  rewrite bind_eq, lift_outcome_run. cbn [py_int].
  rewrite bind_eq, print_run.
  rewrite bind_eq, (getitem_run _ _ d) by done. fold s.
  rewrite bind_eq, lift_outcome_run. unfold Series_max.
  rewrite (numbers_numeric _ Hnum), Hl. cbv beta iota.
  rewrite bind_eq, lift_outcome_run. cbn [py_int].
  rewrite bind_eq, print_run.
  rewrite bind_eq, (getitem_run _ _ d) by done. fold s.
  rewrite bind_eq, lift_outcome_run, Hm.
  rewrite bind_eq, lift_outcome_run. cbn [py_int].
  rewrite print_run.
  rewrite bind_eq, print_run. rewrite print_run.
  unfold st1, with_stdout; cbn. by rewrite <- !app_assoc.
Qed.

(** X12.  On a table whose [Birth Year] cells are numbers or missing,
    with at least one number, [user_stats] returns and prints three
    years: the earliest and the most recent, which are years of the
    column that bound all its years, and the most common, a year that no
    other year outnumbers and that lies between the two. *)
Theorem user_stats_years st df d :
  heap st !! df = Some d ->
  "User Type" ∈ columns d -> "Birth Year" ∈ columns d ->
  Forall numeric_cell (cell "Birth Year" <$> rows d) ->
  (exists z, VInt z ∈ cell "Birth Year" <$> rows d) ->
  exists counts earliest recent common,
    user_stats df st
    = (Return tt,
       with_stdout st
         (stdout st ++ counts
            ++ [YearOfBirth "Earliest Year of Birth:" earliest;
                YearOfBirth "Most Recent Year of Birth:" recent;
                YearOfBirth "Most Common Year of Birth:" common;
                Elapsed; Text RULE])) /\
    VInt earliest ∈ cell "Birth Year" <$> rows d /\
    VInt recent ∈ cell "Birth Year" <$> rows d /\
    (forall y, VInt y ∈ cell "Birth Year" <$> rows d -> earliest <= y <= recent) /\
    VInt common ∈ cell "Birth Year" <$> rows d /\
    (forall w, w <> VNaN ->
       (occurrences w (cell "Birth Year" <$> rows d)
        <= occurrences (VInt common) (cell "Birth Year" <$> rows d))%nat) /\
    earliest <= common <= recent.
Proof.
  intros Hd Hu Hb Hnum [z0 Hz0].
  destruct (present_numbers (cell "Birth Year" <$> rows d)) as [|z l] eqn:Hl.
  { apply elem_of_present_numbers in Hz0. rewrite Hl in Hz0.
    by apply elem_of_nil in Hz0. }
  destruct (user_stats_run_years st df d z l Hd Hu Hb Hnum Hl)
    as (y & (Hy & _ & Hmax) & Hrun).
  destruct (foldr_min_spec z l) as [Hlo Hlo'].
  destruct (foldr_max_spec z l) as [Hhi Hhi'].
  rewrite <- Hl in Hlo, Hlo', Hhi, Hhi'.
  exists ([Text "Calculating User Stats...";
           Counts "User Types:" (Series_value_counts (cell "User Type" <$> rows d))]
          ++ gender_lines d),
    (foldr Z.min z l), (foldr Z.max z l), y.
  split; [rewrite Hrun; by rewrite <- !app_assoc|].
  split; [by apply elem_of_present_numbers|].
  split; [by apply elem_of_present_numbers|].
  assert (Hbounds : forall x, VInt x ∈ cell "Birth Year" <$> rows d ->
                              foldr Z.min z l <= x <= foldr Z.max z l).
  { intros x Hx%elem_of_present_numbers. split; auto. }
  split; [done|]. split; [done|]. split; [done|]. by apply Hbounds.
Qed.

(** X13.  On a table whose [Birth Year] column holds no number, because
    the table is empty or every cell of the column is missing,
    [user_stats] prints the counts and then raises [ValueError]: the year
    lines, the elapsed time and the rule are not printed. *)
Theorem user_stats_without_years st df d :
  heap st !! df = Some d ->
  "User Type" ∈ columns d -> "Birth Year" ∈ columns d ->
  Forall (fun v => v = VNaN) (cell "Birth Year" <$> rows d) ->
  exists user_types gender,
    user_stats df st
    = (Raise ValueError,
       with_stdout st
         (stdout st
            ++ [Text "Calculating User Stats..."; Counts "User Types:" user_types]
            ++ gender)) /\
    counts_of (cell "User Type" <$> rows d) user_types /\
    (forall l, l ∈ gender -> exists genders, l = Counts "Gender Distribution:" genders).
Proof.
  intros Hd Hu Hb Hall.
  assert (Hnum : Forall numeric_cell (cell "Birth Year" <$> rows d)).
  { eapply Forall_impl; [exact Hall|]. by intros v ->. }
  assert (Hnone : present_numbers (cell "Birth Year" <$> rows d) = []).
  { destruct (present_numbers _) as [|z l] eqn:Hl; [done|]. exfalso.
    assert (Hz : VInt z ∈ cell "Birth Year" <$> rows d)
      by (apply elem_of_present_numbers; rewrite Hl; left).
    rewrite Forall_forall in Hall. by specialize (Hall _ Hz). }
  eexists _, (gender_lines d).
  split; [by apply user_stats_run_no_years|].
  split; [apply Series_value_counts_spec|].
  unfold gender_lines. intros l Hl. case_bool_decide.
  - apply list_elem_of_singleton in Hl as ->. by eexists.
  - by apply elem_of_nil in Hl.
Qed.

(** ** Stations and trips *)

Lemma getitem_returns st df c (s : Series) st' :
  getitem df c st = (Return s, st') ->
  st' = st /\
  exists d, heap st !! df = Some d /\ c ∈ columns d /\ s = cell c <$> rows d.
Proof.
  unfold getitem. rewrite bind_eq. unfold frame.
  destruct (heap st !! df) as [d|] eqn:Hd; [|done].
  unfold df_getitem. case_decide; [|done]. cbn.
  intros [= <- <-]. split; [done|]. by exists d.
Qed.

Lemma display_statistics_returns st df (column stat_name : string) st' :
  display_statistics df column stat_name st = (Return tt, st') ->
  exists d m,
    heap st !! df = Some d /\ column ∈ columns d /\
    most_frequent (cell column <$> rows d) m /\
    st' = with_stdout st (stdout st ++ [MostCommon stat_name m]).
Proof.
  intros Hrun. unfold display_statistics in Hrun.
  apply bind_returns in Hrun as (s & st1 & E1 & Hrun).
  apply getitem_returns in E1 as (-> & d & Hd & Hc & ->).
  apply bind_returns in Hrun as (m & st2 & E2 & Hrun).
  rewrite lift_outcome_run in E2. injection E2 as E2 <-.
  rewrite print_run in Hrun. injection Hrun as <-.
  exists d, m. split; [done|]. split; [done|]. split; [|done].
  pose proof (Series_mode_head (cell column <$> rows d)) as Hhead.
  destruct (dropna (cell column <$> rows d)); [congruence|].
  destruct Hhead as (m' & Hm' & Hfreq). congruence.
Qed.

Lemma trip_cells (rs : list Row) (s_to combination : Series) :
  Series_add_scalar (cell "Start Station" <$> rs) " to " = Return s_to ->
  Series_add s_to (cell "End Station" <$> rs) = Return combination ->
  combination = trip_cell <$> rs.
Proof.
  unfold Series_add_scalar, Series_add.
  destruct (mapM _ (cell "Start Station" <$> rs)) as [s1|] eqn:H1; [|done].
  intros [= <-]. case_decide; [|done].
  destruct (mapM _ (zip s1 _)) as [c|] eqn:H2; [|done].
  intros [= <-]. apply mapM_Some in H1, H2.
  revert s1 c H H1 H2. induction rs as [|r rs IH]; intros s1 c Hlen H1 H2.
  - inversion H1; subst. by inversion H2.
  - cbn in H1. inversion H1 as [|? v ? s1' Hv H1']; subst.
    cbn in H2. inversion H2 as [|? w ? c' Hw H2']; subst.
    cbn in Hlen. cbn [fmap list_fmap]. f_equal.
    + unfold trip_cell. cbn in Hw.
      destruct (cell "Start Station" r), (cell "End Station" r);
        cbn in Hv; try done; injection Hv as <-; cbn in Hw; try done;
        by injection Hw as <-.
    + apply (IH s1' c'); [lia|done|done].
Qed.

Lemma zip_with_insert_fmap (c : string) (f : Row -> value) (rs : list Row) :
  zip_with (fun r v => <[c := v]> r) rs (f <$> rs)
  = (fun r => <[c := f r]> r) <$> rs.
Proof. induction rs as [|r rs IH]; [done|]. cbn. by rewrite IH. Qed.

(** X14.  When [station_stats] returns, it has printed the most common
    start station, the most common end station and the most common trip,
    each a value that no other outnumbers; the trip of a row is its start
    station, " to " and its end station, and is missing when a station
    is; and the frame it was given now holds these trips in the column
    [Start-End Combination], its rows otherwise unchanged. *)
Theorem station_stats_result st df d st' :
  heap st !! df = Some d ->
  station_stats df st = (Return tt, st') ->
  exists start_station end_station trip d',
    stdout st'
    = stdout st ++ [Text "Calculating The Most Popular Stations and Trip...";
                    MostCommon "Start Station" start_station;
                    MostCommon "End Station" end_station;
                    MostCommon "Trip" trip; Elapsed; Text RULE] /\
    most_frequent (cell "Start Station" <$> rows d) start_station /\
    most_frequent (cell "End Station" <$> rows d) end_station /\
    most_frequent (trip_cell <$> rows d) trip /\
    heap st' = <[df := d']> (heap st) /\
    rows d' = (fun r => <[COMBINATION := trip_cell r]> r) <$> rows d /\
    columns d' = (if decide (COMBINATION ∈ columns d) then columns d
                  else columns d ++ [COMBINATION]) /\
    stdin st' = stdin st.
Proof.
  intros Hd Hrun. unfold station_stats in Hrun.
  apply bind_returns in Hrun as ([] & st1 & E1 & Hrun).
  rewrite print_run in E1. injection E1 as <-.
  apply bind_returns in Hrun as ([] & st2 & E2 & Hrun).
  apply display_statistics_returns in E2 as (d2 & m1 & Hd2 & _ & Hm1 & ->).
  cbn in Hd2. assert (d2 = d) as -> by congruence.
  apply bind_returns in Hrun as ([] & st3 & E3 & Hrun).
  apply display_statistics_returns in E3 as (d3 & m2 & Hd3 & _ & Hm2 & ->).
  cbn in Hd3. assert (d3 = d) as -> by congruence.
  apply bind_returns in Hrun as (s & st4 & E4 & Hrun).
  apply getitem_returns in E4 as (-> & d4 & Hd4 & _ & ->).
  cbn in Hd4. assert (d4 = d) as -> by congruence.
  apply bind_returns in Hrun as (s_to & st5 & E5 & Hrun).
  rewrite lift_outcome_run in E5. injection E5 as E5 <-.
  apply bind_returns in Hrun as (e & st6 & E6 & Hrun).
  apply getitem_returns in E6 as (-> & d6 & Hd6 & _ & ->).
  cbn in Hd6. assert (d6 = d) as -> by congruence.
  apply bind_returns in Hrun as (combination & st7 & E7 & Hrun).
  rewrite lift_outcome_run in E7. injection E7 as E7 <-.
  pose proof (trip_cells _ _ _ E5 E7) as ->.
  apply bind_returns in Hrun as ([] & st8 & E8 & Hrun).
  rewrite (setitem_run _ _ d) in E8; [|done|by rewrite length_fmap].
  injection E8 as <-.
  set (d' := put_column d "Start-End Combination" (trip_cell <$> rows d)) in *.
  assert (Hlt : (df < length (heap st))%nat) by by eapply lookup_lt_Some.
  apply bind_returns in Hrun as ([] & st9 & E9 & Hrun).
  apply display_statistics_returns in E9 as (d9 & m3 & Hd9 & _ & Hm3 & ->).
  cbn in Hd9. rewrite list_lookup_insert_eq in Hd9 by done.
  injection Hd9 as <-.
  assert (Hcol : cell "Start-End Combination" <$> rows d' = trip_cell <$> rows d).
  { unfold d', put_column. cbn [rows].
    apply cells_zip_insert_eq. by rewrite length_fmap. }
  rewrite Hcol in Hm3.
  apply bind_returns in Hrun as ([] & st10 & E10 & Hrun).
  rewrite print_run in E10. injection E10 as <-.
  rewrite print_run in Hrun. injection Hrun as <-.
  exists m1, m2, m3, d'. cbn.
  split; [by rewrite <- !app_assoc|]. split; [done|]. split; [done|].
  split; [done|]. split; [done|]. split; [|done].
  unfold d', put_column. cbn [rows]. apply zip_with_insert_fmap.
Qed.

Lemma display_statistics_outcome_missing st df d (column stat_name : string) :
  heap st !! df = Some d -> column ∈ columns d ->
  dropna (cell column <$> rows d) = [] ->
  display_statistics df column stat_name st = (Raise (KeyError (VInt 0)), st).
Proof.
  intros Hd Hc Hnil. unfold display_statistics.
  rewrite bind_eq, (getitem_run _ _ _ _ Hd Hc).
  pose proof (Series_mode_head (cell column <$> rows d)) as Hhead.
  rewrite Hnil in Hhead. by rewrite bind_eq, lift_outcome_run, Hhead.
Qed.

Lemma trip_cells_run (rs : list Row) :
  Forall text_or_missing (cell "Start Station" <$> rs) ->
  Forall text_or_missing (cell "End Station" <$> rs) ->
  exists s_to,
    Series_add_scalar (cell "Start Station" <$> rs) " to " = Return s_to /\
    Series_add s_to (cell "End Station" <$> rs) = Return (trip_cell <$> rs).
Proof.
  intros Hs He.
  set (f := fun v => match v with VStr a => VStr (a ++ " to ") | _ => VNaN end).
  exists (f <$> (cell "Start Station" <$> rs)). split.
  - unfold Series_add_scalar.
    replace (mapM _ (cell "Start Station" <$> rs))
      with (Some (f <$> (cell "Start Station" <$> rs))); [done|].
    symmetry. apply mapM_Some.
    induction Hs as [|v s Hv Hs IH]; cbn; constructor; [|done].
    by destruct v.
  - unfold Series_add. rewrite decide_True by by rewrite !length_fmap.
    replace (mapM _ (zip _ _)) with (Some (trip_cell <$> rs)); [done|].
    symmetry. apply mapM_Some. clear -Hs He.
    induction rs as [|r rs IH]; cbn; [constructor|].
    cbn in Hs, He. apply Forall_cons in Hs as [Hr Hs], He as [Hr' He].
    constructor; [|by apply IH]. cbn. unfold trip_cell.
    by destruct (cell "Start Station" r), (cell "End Station" r).
Qed.

(** X15.  On a table whose stations are text or missing and where both
    station columns have a value, but no row has both its stations,
    [station_stats] prints the two most common stations and then raises
    [KeyError] of 0 for the trip; by then it has written the column
    [Start-End Combination], all its cells missing, into the frame. *)
Theorem station_stats_without_trips st df d :
  heap st !! df = Some d ->
  "Start Station" ∈ columns d -> "End Station" ∈ columns d ->
  Forall text_or_missing (cell "Start Station" <$> rows d) ->
  Forall text_or_missing (cell "End Station" <$> rows d) ->
  dropna (cell "Start Station" <$> rows d) <> [] ->
  dropna (cell "End Station" <$> rows d) <> [] ->
  Forall (fun r => cell "Start Station" r = VNaN \/ cell "End Station" r = VNaN)
    (rows d) ->
  exists start_station end_station d',
    station_stats df st
    = (Raise (KeyError (VInt 0)),
       {| heap := <[df := d']> (heap st); stdin := stdin st;
          stdout := stdout st
                      ++ [Text "Calculating The Most Popular Stations and Trip...";
                          MostCommon "Start Station" start_station;
                          MostCommon "End Station" end_station] |}) /\
    COMBINATION ∈ columns d' /\
    rows d' = (fun r => <[COMBINATION := VNaN]> r) <$> rows d.
Proof.
  intros Hd Hs He Hts Hte Hns Hne Hnone.
  assert (Htrip : trip_cell <$> rows d = (fun _ => VNaN) <$> rows d).
  { apply list_fmap_ext. intros i r Hr. rewrite Forall_forall in Hnone.
    assert (Hin : r ∈ rows d) by (apply list_elem_of_lookup; eauto).
    unfold trip_cell. destruct (Hnone r Hin) as [->| ->]; [done|].
    by destruct (cell "Start Station" r). }
  destruct (trip_cells_run (rows d) Hts Hte) as (s_to & Hadd1 & Hadd2).
  unfold station_stats. rewrite bind_eq, print_run.
  set (st1 := with_stdout st _).
  destruct (display_statistics_most_frequent st1 df d "Start Station" "Start Station")
    as (m1 & Hrun1 & _); [done..|].
  rewrite bind_eq, Hrun1. set (st2 := with_stdout st1 _).
  destruct (display_statistics_most_frequent st2 df d "End Station" "End Station")
    as (m2 & Hrun2 & _); [done..|].
  rewrite bind_eq, Hrun2. set (st3 := with_stdout st2 _).
  rewrite bind_eq, (getitem_run st3 _ d) by done.
  rewrite bind_eq, lift_outcome_run, Hadd1.
  rewrite bind_eq, (getitem_run st3 _ d) by done.
  rewrite bind_eq, lift_outcome_run, Hadd2.
  rewrite bind_eq, (setitem_run st3 _ d); [|done|by rewrite length_fmap].
  set (d' := put_column d "Start-End Combination" (trip_cell <$> rows d)).
  set (st4 := with_heap st3 _).
  assert (Hlt : (df < length (heap st))%nat) by by eapply lookup_lt_Some.
  assert (Hd' : heap st4 !! df = Some d')
    by (cbn; by apply list_lookup_insert_eq).
  assert (Hcol : df_getitem d' "Start-End Combination" = Some (trip_cell <$> rows d))
    by (apply df_getitem_put_column; by rewrite length_fmap).
  destruct (df_getitem_Some _ _ _ Hcol) as [Hin Hcells].
  assert (Hnil : dropna (cell "Start-End Combination" <$> rows d') = []).
  { rewrite Hcells, Htrip. unfold dropna. apply filter_none.
    apply Forall_forall. intros v Hv Hna.
    apply list_elem_of_fmap in Hv as (r & -> & _). by apply Hna. }
  rewrite bind_eq, (display_statistics_outcome_missing st4 df d') by done.
  exists m1, m2, d'. split.
  { f_equal. unfold st4, st3, st2, st1, with_heap, with_stdout. cbn.
    by rewrite <- !app_assoc. }
  split; [done|].
  unfold d', put_column. cbn [rows]. rewrite Htrip.
  apply (zip_with_insert_fmap COMBINATION (fun _ => VNaN)).
Qed.

(** ** Raw data: what is shown, and when it ends *)

Lemma frames_printed_app (out1 out2 : list line) :
  frames_printed (out1 ++ out2) = frames_printed out1 ++ frames_printed out2.
Proof. unfold frames_printed. apply omap_app. Qed.

Lemma frames_printed_reprompts prompt skipped :
  frames_printed (reprompts prompt skipped) = [].
Proof. induction skipped as [|x l IH]; [done|]. cbn. exact IH. Qed.

Lemma frames_printed_pages d (k : nat) (row_index batch_size : Z) :
  frames_printed (pages d (S k) row_index batch_size)
  = page d row_index batch_size
    :: frames_printed (pages d k (row_index + batch_size) batch_size).
Proof. reflexivity. Qed.

Lemma rows_of_pages d (k : nat) (row_index batch_size : Z) :
  0 <= row_index -> 0 <= batch_size ->
  concat (rows <$> frames_printed (pages d k row_index batch_size))
  = take (k * Z.to_nat batch_size) (drop (Z.to_nat row_index) (rows d)).
Proof.
  intros Hrow Hb. revert row_index Hrow.
  induction k as [|k IH]; intros row_index Hrow; [done|].
  rewrite frames_printed_pages, fmap_cons. cbn [concat].
  rewrite IH by lia. rewrite rows_page by done.
  replace (Z.to_nat (row_index + batch_size))
    with (Z.to_nat row_index + Z.to_nat batch_size)%nat by lia.
  rewrite <- drop_drop, take_take_drop. f_equal.
Qed.

Lemma length_frames_printed_pages d (k : nat) (row_index batch_size : Z) :
  length (frames_printed (pages d k row_index batch_size)) = k.
Proof.
  revert row_index. induction k as [|k IH]; intros row_index; [done|].
  rewrite frames_printed_pages. cbn [length]. f_equal. apply IH.
Qed.

Lemma columns_frames_printed_pages d (k : nat) (row_index batch_size : Z) :
  Forall (fun f => columns f = columns d)
    (frames_printed (pages d k row_index batch_size)).
Proof.
  revert row_index. induction k as [|k IH]; intros row_index; [constructor|].
  rewrite frames_printed_pages. constructor; [done|]. apply IH.
Qed.

Lemma rejected_not_no x : rejected YES_NO x -> ~ answers_no x.
Proof.
  unfold rejected, answers_no, YES_NO. intros Hrej Hno. apply Hrej.
  rewrite Hno. right; left.
Qed.

(** The loop of [display_raw_data], for any input: it shows consecutive
    pages, and ends with the first answer no, or with [EOFError] when
    there is none. *)
Lemma display_raw_data_loop_shows fuel df d (row_index batch_size : Z) st :
  heap st !! df = Some d -> (length (stdin st) < fuel)%nat ->
  exists k : nat,
    heap (display_raw_data_loop fuel df row_index batch_size st).2 = heap st /\
    frames_printed
      (stdout (display_raw_data_loop fuel df row_index batch_size st).2)
    = frames_printed (stdout st)
        ++ frames_printed (pages d k row_index batch_size) /\
    (((display_raw_data_loop fuel df row_index batch_size st).1 = Return tt /\
      Exists answers_no (stdin st)) \/
     ((display_raw_data_loop fuel df row_index batch_size st).1 = Raise EOFError /\
      Forall (fun x => ~ answers_no x) (stdin st))).
Proof.
  revert row_index st. induction fuel as [|fuel IH];
    intros row_index st Hd Hfuel; [lia|].
  cbn [display_raw_data_loop]. rewrite bind_eq. unfold get_user_input.
  destruct (get_user_input_loop_spec RAW_DATA_PROMPT YES_NO (stdin st) (stdout st))
    as [(skipped & x & rest & Hin & Hsk & Hx & Hrun)|[Hall Hrun]];
    rewrite Hrun.
  - assert (Hskno : Forall (fun y => ~ answers_no y) skipped).
    { eapply Forall_impl; [exact Hsk|]. apply rejected_not_no. }
    destruct (decide (lower (strip x) = "yes")) as [Hyes|Hnotyes].
    + rewrite bind_eq. unfold frame. cbn [heap]. rewrite Hd.
      rewrite bind_eq, print_run.
      set (st2 := with_stdout _ _).
      destruct (IH (row_index + batch_size) st2) as (k & Hheap & Hframes & Hout).
      { done. }
      { cbn. rewrite Hin, length_app in Hfuel. cbn in Hfuel. lia. }
      exists (S k). split; [by rewrite Hheap|]. split.
      * rewrite Hframes. unfold st2. cbn [stdout with_stdout].
        rewrite !frames_printed_app, frames_printed_reprompts.
        cbn. by rewrite <- !app_assoc.
      * destruct Hout as [[Hret Hno]|[Heof Hno]]; [left|right];
          (split; [done|]); rewrite Hin; cbn [stdin st2 with_stdout] in Hno.
        -- apply Exists_app. right. by right.
        -- apply Forall_app. split; [done|]. constructor; [|done].
           unfold answers_no. by rewrite Hyes.
    + assert (Hno : answers_no x).
      { unfold YES_NO in Hx. apply elem_of_cons in Hx as [?|Hx]; [done|].
        by apply list_elem_of_singleton in Hx. }
      exists 0%nat. cbn. split; [done|]. split.
      * rewrite !frames_printed_app, frames_printed_reprompts. cbn.
        by rewrite !app_nil_r.
      * left. split; [done|]. rewrite Hin. apply Exists_app. right. by left.
  - exists 0%nat. cbn. split; [done|]. split.
    + rewrite !frames_printed_app, frames_printed_reprompts. cbn.
      by rewrite !app_nil_r.
    + right. split; [done|]. eapply Forall_impl; [exact Hall|].
      apply rejected_not_no.
Qed.

(** X16.  Whatever is typed, [display_raw_data] shows the table from its
    first row on, page after page: the frames it prints, put together,
    are the first rows of the table in their order, a whole number of
    batches of them or all rows; no row is skipped or shown twice; no
    frame of the heap is touched. *)
Theorem display_raw_data_shows df d (batch_size : Z) st :
  heap st !! df = Some d -> 0 <= batch_size ->
  exists (k : nat) shown,
    frames_printed (stdout (display_raw_data df batch_size st).2)
    = frames_printed (stdout st) ++ shown /\
    length shown = k /\
    concat (rows <$> shown) = take (k * Z.to_nat batch_size) (rows d) /\
    Forall (fun f => columns f = columns d) shown /\
    heap (display_raw_data df batch_size st).2 = heap st.
Proof.
  intros Hd Hb. unfold display_raw_data.
  destruct (display_raw_data_loop_shows (S (length (stdin st))) df d 0
              batch_size st Hd) as (k & Hheap & Hframes & _); [lia|].
  exists k, (frames_printed (pages d k 0 batch_size)).
  split; [done|]. split; [|split; [|split; [|done]]].
  - apply length_frames_printed_pages.
  - by rewrite rows_of_pages.
  - apply columns_frames_printed_pages.
Qed.

(** X17.  On lines of ASCII text, [display_raw_data] ends, and how it
    ends depends only on the answers: it returns exactly when one of the
    lines still to be read is, stripped and in lowercase, the answer no;
    otherwise it raises [EOFError] when the input is used up. *)
Theorem display_raw_data_outcome df d (batch_size : Z) st :
  heap st !! df = Some d -> Forall ascii_text (stdin st) ->
  ((display_raw_data df batch_size st).1 = Return tt <->
   Exists answers_no (stdin st)) /\
  ((display_raw_data df batch_size st).1 = Raise EOFError <->
   Forall (fun x => ~ answers_no x) (stdin st)).
Proof.
  intros Hd _. unfold display_raw_data.
  destruct (display_raw_data_loop_shows (S (length (stdin st))) df d 0
              batch_size st Hd) as (k & _ & _ & Hout); [lia|].
  destruct Hout as [[Hret Hno]|[Heof Hno]].
  - rewrite Hret. split; [by split|]. split; [done|].
    intros Hall. exfalso. apply Exists_exists in Hno as (x & Hx & Hno).
    rewrite Forall_forall in Hall. by apply (Hall x).
  - rewrite Heof. split; [|by split]. split; [done|].
    intros Hex. exfalso. apply Exists_exists in Hex as (x & Hx & Hxno).
    rewrite Forall_forall in Hno. by apply (Hno x).
Qed.

(** ** Filtering twice *)

(** X18.  Filtering a filtered table filters further: the second call
    returns the rows of the first table that both calls keep, so that
    filtering by the month and then by the day gives the rows that one
    call with both gives, in either order, and filtering again by the same
    month and day changes no row. *)
Theorem filters_compose st df d (month day month' day' : string) :
  heap st !! df = Some d ->
  "month" ∈ columns d -> "day_of_week" ∈ columns d ->
  exists df1 st1 d1 df2 st2 d2,
    filter_month_day df month day st = (Return df1, st1) /\
    heap st1 !! df1 = Some d1 /\
    filter_month_day df1 month' day' st1 = (Return df2, st2) /\
    heap st2 !! df2 = Some d2 /\
    columns d2 = columns d /\
    rows d2 = filter (fun r => kept month' day' r /\ kept month day r) (rows d) /\
    (month' = month -> day' = day -> rows d2 = rows d1) /\
    (day = "all" -> month' = "all" -> rows d2 = filter (kept month day') (rows d)) /\
    (month = "all" -> day' = "all" -> rows d2 = filter (kept month' day) (rows d)).
Proof.
  intros Hd Hm Hw.
  destruct (filter_month_day_run st df d month day Hd Hm Hw)
    as (df1 & h1 & Hrun1 & Hd1 & _).
  set (st1 := with_heap st (heap st ++ h1)) in *.
  set (d1 := {| columns := columns d; rows := filter (kept month day) (rows d) |}) in *.
  destruct (filter_month_day_run st1 df1 d1 month' day' Hd1 Hm Hw)
    as (df2 & h2 & Hrun2 & Hd2 & _).
  eexists df1, st1, d1, df2, _, _.
  split; [exact Hrun1|]. split; [exact Hd1|]. split; [exact Hrun2|].
  split; [exact Hd2|]. cbn [columns rows d1].
  split; [done|]. split; [apply list_filter_filter|]. split; [|split].
  - intros -> ->. rewrite list_filter_filter. apply list_filter_iff.
    intros r. tauto.
  - intros -> ->. rewrite list_filter_filter. apply list_filter_iff.
    intros r. unfold kept. intuition congruence.
  - intros -> ->. rewrite list_filter_filter. apply list_filter_iff.
    intros r. unfold kept. intuition congruence.
Qed.

(** ** The script ends *)

Lemma ends_ret {A} (a : A) : ends (ret a).
Proof. by intros st. Qed.

Lemma ends_raise {A} e : ends (raise (A:=A) e).
Proof. by intros st. Qed.

Lemma ends_lift {A} e (o : option A) : ends (lift e o).
Proof. destruct o; [apply ends_ret | apply ends_raise]. Qed.

Lemma ends_lift_result {A} (r : exn + A) : ends (lift_result r).
Proof. destruct r; [apply ends_raise | apply ends_ret]. Qed.

Lemma ends_lift_outcome {A} (o : outcome A) : o <> Diverge -> ends (lift_outcome o).
Proof. by intros H st. Qed.

Lemma ends_frame l : ends (frame l).
Proof. intros st. unfold frame. by destruct (heap st !! l). Qed.

Lemma ends_print l : ends (print l).
Proof. by intros st. Qed.

Lemma ends_new_frame d : ends (new_frame d).
Proof. by intros st. Qed.

Lemma ends_set_frame l d : ends (set_frame l d).
Proof. intros st. unfold set_frame. by destruct (heap st !! l). Qed.

Lemma ends_bind {A B} (c : M A) (k : A -> M B) :
  ends c -> (forall a, ends (k a)) -> ends (bind c k).
Proof.
  intros Hc Hk st. rewrite bind_eq. destruct (Hc st) as [H1 H2].
  destruct (c st) as [[a|e|] st']; cbn in *; [|done..].
  destruct (Hk a st') as [H3 H4]. split; [done|lia].
Qed.

Lemma ends_when b (c : M unit) : ends c -> ends (when b c).
Proof. destruct b; [intros H; exact H | intros _; apply ends_ret]. Qed.

Lemma ends_get_user_input prompt valid_inputs :
  ends (get_user_input prompt valid_inputs).
Proof.
  intros st. unfold get_user_input.
  destruct (get_user_input_loop_spec prompt valid_inputs (stdin st) (stdout st))
    as [(skipped & x & rest & Hin & _ & _ & Hrun)|[_ Hrun]]; rewrite Hrun; cbn.
  - split; [done|]. rewrite Hin, length_app. cbn. lia.
  - split; [done|lia].
Qed.

Lemma display_raw_data_loop_reads fuel df row_index batch_size st :
  (length (stdin (display_raw_data_loop fuel df row_index batch_size st).2)
   <= length (stdin st))%nat.
Proof.
  revert row_index st. induction fuel as [|fuel IH]; intros row_index st; [done|].
  cbn [display_raw_data_loop]. rewrite bind_eq.
  destruct (ends_get_user_input RAW_DATA_PROMPT YES_NO st) as [_ Hle].
  destruct (get_user_input RAW_DATA_PROMPT YES_NO st) as [[a|e|] st1];
    cbn in *; [|done..].
  case_decide; [|done].
  rewrite bind_eq. unfold frame. destruct (heap st1 !! df); [|done].
  rewrite bind_eq, print_run. etransitivity; [apply IH|]. cbn. lia.
Qed.

Lemma ends_display_raw_data df batch_size : ends (display_raw_data df batch_size).
Proof.
  intros st. split; [apply display_raw_data_ends|].
  apply display_raw_data_loop_reads.
Qed.

Lemma to_datetime_ends parse_datetime s : to_datetime parse_datetime s <> Diverge.
Proof. unfold to_datetime. by destruct (mapM _ s). Qed.

Lemma dt_field_ends f s : dt_field f s <> Diverge.
Proof. unfold dt_field. by destruct (mapM _ s). Qed.

Lemma Series_getitem_ends s k : Series_getitem s k <> Diverge.
Proof. unfold Series_getitem. by repeat case_match. Qed.

Lemma Series_add_scalar_ends s x : Series_add_scalar s x <> Diverge.
Proof. unfold Series_add_scalar. by destruct (mapM _ s). Qed.

Lemma Series_add_ends s t : Series_add s t <> Diverge.
Proof. unfold Series_add. by repeat case_match. Qed.

Lemma Series_sum_ends s : Series_sum s <> Diverge.
Proof. unfold Series_sum. by destruct (numbers s). Qed.

Lemma Series_mean_ends s : Series_mean s <> Diverge.
Proof. unfold Series_mean. by repeat case_match. Qed.

Lemma Series_min_ends s : Series_min s <> Diverge.
Proof. unfold Series_min. by repeat case_match. Qed.

Lemma Series_max_ends s : Series_max s <> Diverge.
Proof. unfold Series_max. by repeat case_match. Qed.

Lemma py_int_ends v : py_int v <> Diverge.
Proof. by destruct v. Qed.

Ltac ends_script := repeat (first
  [ apply ends_ret | apply ends_raise | apply ends_lift_result | apply ends_lift
  | apply ends_lift_outcome;
      first [ apply to_datetime_ends | apply dt_field_ends
            | apply Series_getitem_ends | apply Series_add_scalar_ends
            | apply Series_add_ends | apply Series_sum_ends
            | apply Series_mean_ends | apply Series_min_ends
            | apply Series_max_ends | apply py_int_ends ]
  | apply ends_frame | apply ends_print | apply ends_new_frame
  | apply ends_set_frame | apply ends_get_user_input
  | apply ends_display_raw_data
  | apply ends_when
  | apply ends_bind; [| intros ?] ]).

Lemma ends_getitem l c : ends (getitem l c).
Proof. unfold getitem. ends_script. Qed.

Lemma ends_setitem df c s : ends (setitem df c s).
Proof. unfold setitem. ends_script. Qed.

Lemma ends_getitem_mask df mask : ends (getitem_mask df mask).
Proof. unfold getitem_mask. ends_script. Qed.

Lemma ends_get_filters : ends get_filters.
Proof. unfold get_filters. ends_script. Qed.

Lemma ends_load_data read_csv parse_datetime city month day :
  ends (load_data read_csv parse_datetime city month day).
Proof.
  unfold load_data, derive_columns, filter_month_day, getitem, setitem,
    getitem_mask, dt_month_name, dt_day_name, dt_hour.
  ends_script; case_decide; ends_script.
Qed.

Lemma ends_display_statistics df column stat_name :
  ends (display_statistics df column stat_name).
Proof. unfold display_statistics, getitem. ends_script. Qed.

Lemma ends_time_stats df : ends (time_stats df).
Proof. unfold time_stats, display_statistics, getitem. ends_script. Qed.

Lemma ends_station_stats df : ends (station_stats df).
Proof. unfold station_stats, display_statistics, getitem, setitem. ends_script. Qed.

Lemma ends_trip_duration_stats df : ends (trip_duration_stats df).
Proof. unfold trip_duration_stats, getitem. ends_script. Qed.

Lemma ends_user_stats df : ends (user_stats df).
Proof. unfold user_stats, getitem. ends_script. Qed.

Lemma main_loop_ends read_csv parse_datetime fuel st :
  (length (stdin st) < fuel)%nat ->
  (main_loop read_csv parse_datetime fuel st).1 <> Diverge /\
  (length (stdin (main_loop read_csv parse_datetime fuel st).2)
   <= length (stdin st))%nat.
Proof.
  revert st. induction fuel as [|fuel IH]; intros st Hfuel; [lia|].
  cbn [main_loop]. rewrite bind_eq.
  destruct (ends_get_filters st) as [H1 L1].
  destruct (get_filters st) as [[[[city month] day]|e|] st1]; cbn in H1, L1;
    [|done..].
  rewrite bind_eq.
  destruct (ends_load_data read_csv parse_datetime city month day st1) as [H2 L2].
  destruct (load_data _ _ _ _ _ st1) as [[df|e|] st2]; cbn in H2, L2;
    [|split; [done|cbn; lia]|done].
  rewrite bind_eq. destruct (ends_time_stats df st2) as [H3 L3].
  destruct (time_stats df st2) as [[[]|e|] st3]; cbn in H3, L3;
    [|split; [done|cbn; lia]|done].
  rewrite bind_eq. destruct (ends_station_stats df st3) as [H4 L4].
  destruct (station_stats df st3) as [[[]|e|] st4]; cbn in H4, L4;
    [|split; [done|cbn; lia]|done].
  rewrite bind_eq. destruct (ends_trip_duration_stats df st4) as [H5 L5].
  destruct (trip_duration_stats df st4) as [[[]|e|] st5]; cbn in H5, L5;
    [|split; [done|cbn; lia]|done].
  rewrite bind_eq. destruct (ends_user_stats df st5) as [H6 L6].
  destruct (user_stats df st5) as [[[]|e|] st6]; cbn in H6, L6;
    [|split; [done|cbn; lia]|done].
  rewrite bind_eq. destruct (ends_display_raw_data df 5 st6) as [H7 L7].
  destruct (display_raw_data df 5 st6) as [[[]|e|] st7]; cbn in H7, L7;
    [|split; [done|cbn; lia]|done].
  rewrite bind_eq.
  destruct (get_user_input "Would you like to restart? Enter yes or no: "
              YES_NO st7) as [[a|e|] st8] eqn:Hin.
  - apply get_user_input_consumes in Hin. case_decide.
    + split; [done|cbn; lia].
    + destruct (IH st8) as [H9 L9]; [lia|]. split; [done|lia].
  - pose proof (ends_get_user_input
      "Would you like to restart? Enter yes or no: " YES_NO st7) as [_ L8].
    rewrite Hin in L8. split; [done|cbn in *; lia].
  - pose proof (ends_get_user_input
      "Would you like to restart? Enter yes or no: " YES_NO st7) as [H8 _].
    by rewrite Hin in H8.
Qed.

Lemma main_loop_round read_csv parse_datetime fuel st :
  main_loop read_csv parse_datetime (S fuel) st
  = bind (main_round read_csv parse_datetime)
      (fun restart => if decide (restart = "no") then ret tt
                      else main_loop read_csv parse_datetime fuel) st.
Proof.
  cbn [main_loop]. unfold main_round, RESTART_PROMPT, bind.
  destruct (get_filters st) as [[[[city month] day]|e|] st1]; [|done..].
  destruct (load_data _ _ _ _ _ st1) as [[df|e|] st2]; [|done..].
  destruct (time_stats df st2) as [[[]|e|] st3]; [|done..].
  destruct (station_stats df st3) as [[[]|e|] st4]; [|done..].
  destruct (trip_duration_stats df st4) as [[[]|e|] st5]; [|done..].
  destruct (user_stats df st5) as [[[]|e|] st6]; [|done..].
  by destruct (display_raw_data df 5 st6) as [[[]|e|] st7].
Qed.

Lemma ends_main_round read_csv parse_datetime :
  ends (main_round read_csv parse_datetime).
Proof.
  unfold main_round. apply ends_bind; [apply ends_get_filters|].
  intros [[city month] day]. apply ends_bind; [apply ends_load_data|].
  intros df. apply ends_bind; [apply ends_time_stats|]. intros _.
  apply ends_bind; [apply ends_station_stats|]. intros _.
  apply ends_bind; [apply ends_trip_duration_stats|]. intros _.
  apply ends_bind; [apply ends_user_stats|]. intros _.
  apply ends_bind; [apply ends_display_raw_data|]. intros _.
  apply ends_get_user_input.
Qed.

Lemma ends_run {A} (c : M A) st r st' :
  ends c -> c st = (r, st') ->
  r <> Diverge /\ (length (stdin st') <= length (stdin st))%nat.
Proof. intros H E. specialize (H st). by rewrite E in H. Qed.

(** A round that returns has read at least one line. *)
Lemma main_round_consumes read_csv parse_datetime st restart st' :
  main_round read_csv parse_datetime st = (Return restart, st') ->
  (length (stdin st') < length (stdin st))%nat.
Proof.
  unfold main_round. intros H.
  apply bind_returns in H as ([[city month] day] & st1 & E1 & H).
  apply bind_returns in H as (df & st2 & E2 & H).
  apply bind_returns in H as ([] & st3 & E3 & H).
  apply bind_returns in H as ([] & st4 & E4 & H).
  apply bind_returns in H as ([] & st5 & E5 & H).
  apply bind_returns in H as ([] & st6 & E6 & H).
  apply bind_returns in H as ([] & st7 & E7 & H).
  apply get_user_input_consumes in H.
  apply (ends_run _ _ _ _ ends_get_filters) in E1 as [_ L1].
  apply (ends_run _ _ _ _ (ends_load_data _ _ _ _ _)) in E2 as [_ L2].
  apply (ends_run _ _ _ _ (ends_time_stats _)) in E3 as [_ L3].
  apply (ends_run _ _ _ _ (ends_station_stats _)) in E4 as [_ L4].
  apply (ends_run _ _ _ _ (ends_trip_duration_stats _)) in E5 as [_ L5].
  apply (ends_run _ _ _ _ (ends_user_stats _)) in E6 as [_ L6].
  apply (ends_run _ _ _ _ (ends_display_raw_data _ _)) in E7 as [_ L7].
  lia.
Qed.

(** The rounds granted do not matter once they outnumber the lines. *)
Lemma main_loop_fuel read_csv parse_datetime fuel fuel' st :
  (length (stdin st) < fuel)%nat -> (length (stdin st) < fuel')%nat ->
  main_loop read_csv parse_datetime fuel st
  = main_loop read_csv parse_datetime fuel' st.
Proof.
  revert fuel' st. induction fuel as [|fuel IH]; intros fuel' st H H'; [lia|].
  destruct fuel' as [|fuel']; [lia|].
  rewrite !main_loop_round, !bind_eq.
  destruct (main_round read_csv parse_datetime st) as [[restart|e|] st1] eqn:E;
    [|done..].
  apply main_round_consumes in E. case_decide; [done|]. apply IH; lia.
Qed.

(** X19.  [main] comes to an end on every input, whatever the files
    hold: each round of its [while True] reads at least one line before
    the next begins, so the lines typed bound the number of rounds.
    [main] returns or raises, and it leaves no more lines to be read than
    it found. *)
Theorem main_ends read_csv parse_datetime st :
  ((main read_csv parse_datetime st).1 = Return tt \/
   exists e, (main read_csv parse_datetime st).1 = Raise e) /\
  (length (stdin (main read_csv parse_datetime st).2) <= length (stdin st))%nat.
Proof.
  destruct (main_loop_ends read_csv parse_datetime (S (length (stdin st))) st)
    as [H L]; [lia|].
  split; [|exact L]. unfold main.
  destruct (main_loop _ _ _ _).1 as [[]|e|]; [by left|right; by exists e|done].
Qed.

(** X20.  [main] is its round repeated: an error in a round ends [main]
    with that error, in the state the round left; after the answer no to
    the question whether to restart [main] returns; after any other
    accepted answer (yes) it goes on as [main] started anew on the lines
    still to be read, the frames of the earlier rounds still in place. *)
Theorem main_rounds read_csv parse_datetime st :
  match main_round read_csv parse_datetime st with
  | (Return restart, st') =>
      if decide (restart = "no")
      then main read_csv parse_datetime st = (Return tt, st')
      else restart = "yes" /\
           main read_csv parse_datetime st = main read_csv parse_datetime st'
  | (Raise e, st') => main read_csv parse_datetime st = (Raise e, st')
  | (Diverge, _) => False
  end.
Proof.
  assert (Hmain : main read_csv parse_datetime st
          = bind (main_round read_csv parse_datetime)
              (fun restart => if decide (restart = "no") then ret tt
                 else main_loop read_csv parse_datetime (length (stdin st))) st)
    by apply main_loop_round.
  rewrite bind_eq in Hmain.
  destruct (main_round read_csv parse_datetime st) as [[restart|e|] st1] eqn:E.
  - case_decide; [done|]. split.
    + unfold main_round in E.
      apply bind_returns in E as ([[city month] day] & st2 & _ & E).
      do 6 (apply bind_returns in E as (? & ? & _ & E)).
      destruct (get_user_input_accepts _ _ _ _ _ E) as [Hin _].
      unfold YES_NO in Hin. set_solver.
    + apply main_round_consumes in E. rewrite Hmain. unfold main.
      apply main_loop_fuel; lia.
  - done.
  - by destruct (ends_run _ _ _ _ (ends_main_round _ _) E).
Qed.

Lemma time_stats_no_rows st df d :
  heap st !! df = Some d -> rows d = [] -> "month" ∈ columns d ->
  time_stats df st
  = (Raise (KeyError (VInt 0)),
     with_stdout st
       (stdout st ++ [Text "Calculating The Most Frequent Times of Travel..."])).
Proof.
  intros Hd Hrows Hm. unfold time_stats. rewrite bind_eq, print_run.
  rewrite bind_eq. by erewrite display_statistics_no_rows.
Qed.

(** X21.  [main] has no handler: when the answers select no trip (a month
    or a day without trips in the file), the first statistic's
    [KeyError] ends the whole program, after the banner of [time_stats];
    no statistic is printed and the user is not asked whether to
    restart. *)
Theorem main_without_trips read_csv parse_datetime st city month day st1 df st2 d :
  get_filters st = (Return (city, month, day), st1) ->
  load_data read_csv parse_datetime city month day st1 = (Return df, st2) ->
  heap st2 !! df = Some d -> rows d = [] ->
  main read_csv parse_datetime st
  = (Raise (KeyError (VInt 0)),
     with_stdout st2
       (stdout st2 ++ [Text "Calculating The Most Frequent Times of Travel..."])).
Proof.
  intros Hf Hl Hd Hrows.
  destruct (load_data_table _ _ _ _ _ _ _ _ Hl) as (d' & Hd' & Hm & _).
  assert (d' = d) as -> by congruence.
  unfold main. cbn [main_loop]. rewrite bind_eq, Hf, bind_eq, Hl, bind_eq.
  by rewrite (time_stats_no_rows _ _ _ Hd Hrows Hm).
Qed.

(** ** The further properties on the small data set *)

Ltac decided := apply (bool_decide_unpack _); vm_compute; exact I.
Ltac computed := vm_compute; reflexivity.

Lemma get_user_input_returns_witness :
  "yes" ∈ YES_NO /\
  heap (get_user_input RAW_DATA_PROMPT YES_NO (start ["maybe"; " YES "; "no"])).2
  = heap (start ["maybe"; " YES "; "no"]) /\
  exists skipped x,
    stdin (start ["maybe"; " YES "; "no"])
    = skipped ++ x
        :: stdin (get_user_input RAW_DATA_PROMPT YES_NO
                    (start ["maybe"; " YES "; "no"])).2 /\
    Forall (rejected YES_NO) skipped /\
    "yes" = lower (strip x) /\
    stdout (get_user_input RAW_DATA_PROMPT YES_NO (start ["maybe"; " YES "; "no"])).2
    = stdout (start ["maybe"; " YES "; "no"])
        ++ reprompts RAW_DATA_PROMPT skipped ++ [Text RAW_DATA_PROMPT].
Proof.
  apply (get_user_input_returns RAW_DATA_PROMPT YES_NO
           (start ["maybe"; " YES "; "no"]) "yes").
  - decided.
  - computed.
Defined.

Lemma get_user_input_raises_witness :
  ((get_user_input RAW_DATA_PROMPT YES_NO (start ["maybe"; "nope"])).1
   = Raise EOFError <->
   Forall (rejected YES_NO) (stdin (start ["maybe"; "nope"]))) /\
  (forall e,
     (get_user_input RAW_DATA_PROMPT YES_NO (start ["maybe"; "nope"])).1
     = Raise e ->
     e = EOFError /\
     stdin (get_user_input RAW_DATA_PROMPT YES_NO (start ["maybe"; "nope"])).2
     = [] /\
     stdout (get_user_input RAW_DATA_PROMPT YES_NO (start ["maybe"; "nope"])).2
     = stdout (start ["maybe"; "nope"])
         ++ reprompts RAW_DATA_PROMPT (stdin (start ["maybe"; "nope"]))
         ++ [Text RAW_DATA_PROMPT]) /\
  (get_user_input RAW_DATA_PROMPT YES_NO (start ["maybe"; "nope"])).1
  <> Diverge.
Proof.
  apply (get_user_input_raises RAW_DATA_PROMPT YES_NO (start ["maybe"; "nope"])).
  decided.
Defined.

Lemma get_filters_returns_witness :
  is_Some (CITY_DATA !! "chicago") /\
  "june" ∈ MONTH_INPUTS /\
  "monday" ∈ DAY_INPUTS /\
  heap (get_filters (start ["Chicago"; "juin"; "June"; "monday"])).2
  = heap (start ["Chicago"; "juin"; "June"; "monday"]) /\
  (length (stdin (get_filters (start ["Chicago"; "juin"; "June"; "monday"])).2) + 3
   <= length (stdin (start ["Chicago"; "juin"; "June"; "monday"])))%nat.
Proof.
  apply (get_filters_returns (start ["Chicago"; "juin"; "June"; "monday"])
           "chicago" "june" "monday").
  computed.
Defined.

Lemma load_data_filters_unfiltered_witness :
  exists df st' d,
    load_data files parse_iso "washington" "january" "monday" (start [])
    = (Return df, st') /\
    heap st' !! df = Some d /\
    columns d = columns (frame_at all_trips 0%nat) /\
    rows d = filter (kept "january" "monday") (rows (frame_at all_trips 0%nat)) /\
    heap st' !! 0%nat = Some (frame_at all_trips 0%nat) /\
    stdin st' = stdin (start []) /\ stdout st' = stdout (start []).
Proof.
  apply (load_data_filters_unfiltered files parse_iso (start [])
           "washington" "january" "monday" 0%nat all_trips
           (frame_at all_trips 0%nat)).
  - computed.
  - computed.
Defined.

Lemma load_data_keeps_the_file_witness :
  0%nat = length (heap (start [])) /\
  exists d',
    heap all_trips = heap (start []) ++ [d'] /\
    length (rows d') = length (rows washington_csv) /\
    (forall c, c ∉ "Start Time" :: CALENDAR_COLUMNS ->
               df_getitem d' c = df_getitem washington_csv c) /\
    Forall2 (parsed parse_iso)
      (cell "Start Time" <$> rows washington_csv)
      (cell "Start Time" <$> rows d') /\
    (Forall (fun c => c ∉ columns washington_csv) CALENDAR_COLUMNS ->
     columns d' = columns washington_csv ++ CALENDAR_COLUMNS).
Proof.
  apply (load_data_keeps_the_file files parse_iso (start [])
           "washington" "/mnt/data/washington.csv").
  - computed.
  - computed.
  - computed.
Defined.

Lemma display_statistics_outcome_witness :
  ("hour" ∉ columns (frame_at january 1%nat) ->
   display_statistics 1%nat "hour" "Start Hour" january
   = (Raise (KeyError (VStr "hour")), january)) /\
  ("hour" ∈ columns (frame_at january 1%nat) ->
   dropna (cell "hour" <$> rows (frame_at january 1%nat)) = [] ->
   display_statistics 1%nat "hour" "Start Hour" january
   = (Raise (KeyError (VInt 0)), january)) /\
  ("hour" ∈ columns (frame_at january 1%nat) ->
   dropna (cell "hour" <$> rows (frame_at january 1%nat)) <> [] ->
   exists m,
     display_statistics 1%nat "hour" "Start Hour" january
     = (Return tt,
        with_stdout january (stdout january ++ [MostCommon "Start Hour" m])) /\
     m ∈ cell "hour" <$> rows (frame_at january 1%nat) /\ m <> VNaN /\
     forall w, w <> VNaN ->
       (occurrences w (cell "hour" <$> rows (frame_at january 1%nat))
        <= occurrences m (cell "hour" <$> rows (frame_at january 1%nat)))%nat).
Proof.
  apply (display_statistics_outcome january 1%nat (frame_at january 1%nat)).
  computed.
Defined.

Lemma time_stats_of_a_month_witness :
  exists (day_name : string) (hour : Z),
    time_stats 1%nat january
    = (Return tt,
       with_stdout january
         (stdout january ++ [Text "Calculating The Most Frequent Times of Travel...";
                             MostCommon "Month" (VStr "january");
                             MostCommon "Day of Week" (VStr day_name);
                             MostCommon "Start Hour" (VInt hour);
                             Elapsed; Text RULE])) /\
    day_name ∈ DAY_NAMES /\ ("all" <> "all" -> day_name = "all") /\
    0 <= hour <= 23.
Proof.
  apply (time_stats_of_a_month files parse_iso (start [])
           "washington" "january" "all" 1%nat january (frame_at january 1%nat)).
  - computed.
  - computed.
  - discriminate.
  - vm_compute. discriminate.
Defined.



Lemma user_stats_counts_witness :
  exists user_types gender,
    user_stats 1%nat january
    = (Return tt,
       with_stdout january
         (stdout january
            ++ [Text "Calculating User Stats..."; Counts "User Types:" user_types]
            ++ gender ++ [Elapsed; Text RULE])) /\
    counts_of (cell "User Type" <$> rows (frame_at january 1%nat)) user_types /\
    ("Gender" ∉ columns (frame_at january 1%nat) -> gender = []) /\
    ("Gender" ∈ columns (frame_at january 1%nat) ->
     exists genders,
       gender = [Counts "Gender Distribution:" genders] /\
       counts_of (cell "Gender" <$> rows (frame_at january 1%nat)) genders).
Proof.
  apply (user_stats_counts january 1%nat (frame_at january 1%nat)).
  - computed.
  - has_column.
  - decided.
Defined.

Lemma user_stats_years_witness :
  exists counts earliest recent common,
    user_stats 0%nat chicago_trips
    = (Return tt,
       with_stdout chicago_trips
         (stdout chicago_trips ++ counts
            ++ [YearOfBirth "Earliest Year of Birth:" earliest;
                YearOfBirth "Most Recent Year of Birth:" recent;
                YearOfBirth "Most Common Year of Birth:" common;
                Elapsed; Text RULE])) /\
    VInt earliest ∈ cell "Birth Year" <$> rows (frame_at chicago_trips 0%nat) /\
    VInt recent ∈ cell "Birth Year" <$> rows (frame_at chicago_trips 0%nat) /\
    (forall y, VInt y ∈ cell "Birth Year" <$> rows (frame_at chicago_trips 0%nat) ->
               earliest <= y <= recent) /\
    VInt common ∈ cell "Birth Year" <$> rows (frame_at chicago_trips 0%nat) /\
    (forall w, w <> VNaN ->
       (occurrences w (cell "Birth Year" <$> rows (frame_at chicago_trips 0%nat))
        <= occurrences (VInt common)
             (cell "Birth Year" <$> rows (frame_at chicago_trips 0%nat)))%nat) /\
    earliest <= common <= recent.
Proof.
  apply (user_stats_years chicago_trips 0%nat (frame_at chicago_trips 0%nat)).
  - computed.
  - has_column.
  - has_column.
  - decided.
  - exists 1992. decided.
Defined.

Lemma user_stats_without_years_witness :
  exists user_types gender,
    user_stats 0%nat no_years
    = (Raise ValueError,
       with_stdout no_years
         (stdout no_years
            ++ [Text "Calculating User Stats..."; Counts "User Types:" user_types]
            ++ gender)) /\
    counts_of (cell "User Type" <$> rows (frame_at no_years 0%nat)) user_types /\
    (forall l, l ∈ gender ->
       exists genders, l = Counts "Gender Distribution:" genders).
Proof.
  apply (user_stats_without_years no_years 0%nat (frame_at no_years 0%nat)).
  - reflexivity.
  - has_column.
  - has_column.
  - decided.
Defined.

Lemma station_stats_result_witness :
  exists start_station end_station trip d',
    stdout (station_stats 1%nat january).2
    = stdout january ++ [Text "Calculating The Most Popular Stations and Trip...";
                         MostCommon "Start Station" start_station;
                         MostCommon "End Station" end_station;
                         MostCommon "Trip" trip; Elapsed; Text RULE] /\
    most_frequent (cell "Start Station" <$> rows (frame_at january 1%nat))
      start_station /\
    most_frequent (cell "End Station" <$> rows (frame_at january 1%nat))
      end_station /\
    most_frequent (trip_cell <$> rows (frame_at january 1%nat)) trip /\
    heap (station_stats 1%nat january).2 = <[1%nat := d']> (heap january) /\
    rows d' = (fun r => <[COMBINATION := trip_cell r]> r)
                <$> rows (frame_at january 1%nat) /\
    columns d' = (if decide (COMBINATION ∈ columns (frame_at january 1%nat))
                  then columns (frame_at january 1%nat)
                  else columns (frame_at january 1%nat) ++ [COMBINATION]) /\
    stdin (station_stats 1%nat january).2 = stdin january.
Proof.
  apply (station_stats_result january 1%nat (frame_at january 1%nat)).
  - computed.
  - computed.
Defined.

Lemma station_stats_without_trips_witness :
  exists start_station end_station d',
    station_stats 0%nat one_station
    = (Raise (KeyError (VInt 0)),
       {| heap := <[0%nat := d']> (heap one_station);
          stdin := stdin one_station;
          stdout := stdout one_station
                      ++ [Text "Calculating The Most Popular Stations and Trip...";
                          MostCommon "Start Station" start_station;
                          MostCommon "End Station" end_station] |}) /\
    COMBINATION ∈ columns d' /\
    rows d' = (fun r => <[COMBINATION := VNaN]> r)
                <$> rows (frame_at one_station 0%nat).
Proof.
  apply (station_stats_without_trips one_station 0%nat
           (frame_at one_station 0%nat)).
  - reflexivity.
  - has_column.
  - has_column.
  - decided.
  - decided.
  - vm_compute. discriminate.
  - vm_compute. discriminate.
  - decided.
Defined.

Lemma display_raw_data_shows_witness :
  exists (k : nat) shown,
    frames_printed
      (stdout (display_raw_data 0%nat 2 (typed all_trips ["yes"; "yes"; "no"])).2)
    = frames_printed (stdout (typed all_trips ["yes"; "yes"; "no"])) ++ shown /\
    length shown = k /\
    concat (rows <$> shown)
    = take (k * Z.to_nat 2) (rows (frame_at all_trips 0%nat)) /\
    Forall (fun f => columns f = columns (frame_at all_trips 0%nat)) shown /\
    heap (display_raw_data 0%nat 2 (typed all_trips ["yes"; "yes"; "no"])).2
    = heap (typed all_trips ["yes"; "yes"; "no"]).
Proof.
  apply (display_raw_data_shows 0%nat (frame_at all_trips 0%nat) 2
           (typed all_trips ["yes"; "yes"; "no"])).
  - computed.
  - lia.
Defined.

Lemma display_raw_data_outcome_witness :
  ((display_raw_data 0%nat 5 (typed all_trips ["yes"; "yes"])).1 = Return tt <->
   Exists answers_no (stdin (typed all_trips ["yes"; "yes"]))) /\
  ((display_raw_data 0%nat 5 (typed all_trips ["yes"; "yes"])).1 = Raise EOFError <->
   Forall (fun x => ~ answers_no x) (stdin (typed all_trips ["yes"; "yes"]))).
Proof.
  apply (display_raw_data_outcome 0%nat (frame_at all_trips 0%nat) 5
           (typed all_trips ["yes"; "yes"])).
  - computed.
  - decided.
Defined.

Lemma filters_compose_witness :
  exists df1 st1 d1 df2 st2 d2,
    filter_month_day 0%nat "january" "all" all_trips = (Return df1, st1) /\
    heap st1 !! df1 = Some d1 /\
    filter_month_day df1 "all" "monday" st1 = (Return df2, st2) /\
    heap st2 !! df2 = Some d2 /\
    columns d2 = columns (frame_at all_trips 0%nat) /\
    rows d2 = filter (fun r => kept "all" "monday" r /\ kept "january" "all" r)
                (rows (frame_at all_trips 0%nat)) /\
    ("all" = "january" -> "monday" = "all" -> rows d2 = rows d1) /\
    ("all" = "all" -> "all" = "all" ->
     rows d2 = filter (kept "january" "monday") (rows (frame_at all_trips 0%nat))) /\
    ("january" = "all" -> "monday" = "all" ->
     rows d2 = filter (kept "all" "all") (rows (frame_at all_trips 0%nat))).
Proof.
  apply (filters_compose all_trips 0%nat (frame_at all_trips 0%nat)
           "january" "all" "all" "monday").
  - computed.
  - has_column.
  - has_column.
Defined.

Lemma main_without_trips_witness :
  main files parse_iso (start ["washington"; "june"; "all"])
  = (Raise (KeyError (VInt 0)),
     with_stdout
       (load_data files parse_iso "washington" "june" "all"
          (get_filters (start ["washington"; "june"; "all"])).2).2
       (stdout
          (load_data files parse_iso "washington" "june" "all"
             (get_filters (start ["washington"; "june"; "all"])).2).2
          ++ [Text "Calculating The Most Frequent Times of Travel..."])).
Proof.
  apply (main_without_trips files parse_iso (start ["washington"; "june"; "all"])
           "washington" "june" "all"
           (get_filters (start ["washington"; "june"; "all"])).2 1%nat
           (load_data files parse_iso "washington" "june" "all"
              (get_filters (start ["washington"; "june"; "all"])).2).2
           (frame_at
              (load_data files parse_iso "washington" "june" "all"
                 (get_filters (start ["washington"; "june"; "all"])).2).2 1%nat)).
  - computed.
  - computed.
  - computed.
  - computed.
Defined.
